(** * Signal synthesis engine of news-sentiment-trading

    A shallow embedding of [src/trading_logic/signal_generator.py]
    (class [TradingSignalGenerator]) and of the consensus step of
    [src/web_app/app.py] ([TradingAnalysisService.run_complete_analysis]),
    followed by the properties of the specification that were checked
    against them.  The embedding also covers the summary and the
    convenience function of the signal generator, the command-line run of
    [src/complete_analysis.py], the label decision of the two sentiment
    analyzers, the pagination loop of [src/data_fetcher/news_api.py] and
    the validation of the [/analyze] endpoint of [src/app.py], each with
    the properties read off its code.

    Numbers.  Python [int] values are [nat] or [Z].  Python and numpy
    floats are embedded as exact rationals ([Q]): every operation is
    carried out without binary rounding error, and [round(x, 3)] is the
    exact round-half-even to three decimals.  Equality of numbers is
    therefore stated with [==] ([Qeq]) unless both sides are built by the
    same computation.  Infinities and NaN have no counterpart in [Q];
    the only place where the source can produce one from finite inputs is
    the division by a threshold that is zero, and the statements that
    depend on such a quotient assume a positive threshold.

    Frames.  A [pd.DataFrame] is the list of its column names and its
    rows, restricted to the three columns the scorers read.  The scorers
    are embedded as they are called with their default column names
    ([combined_sentiment_label], [combined_sentiment_confidence],
    [published_at]), which is how every caller in the repository calls
    them.

    Exceptions are values of [result]; the clock ([datetime.now()],
    [pd.Timestamp.now()]) is an explicit argument [now], read once per
    call. *)

From Stdlib Require Import ZArith QArith Qround Qabs Lqa Lia.
From stdpp Require Import gmap strings list.

Local Open Scope Q_scope.

(** ** Python numerics on [Q] *)

Module Py.

Definition of_int (n : nat) : Q := inject_Z (Z.of_nat n).

Definition ltb (x y : Q) : bool :=
  match Qcompare x y with Lt => true | _ => false end.

Definition leb (x y : Q) : bool :=
  match Qcompare x y with Gt => false | _ => true end.

Definition eqb (x y : Q) : bool :=
  match Qcompare x y with Eq => true | _ => false end.

Definition gtb (x y : Q) : bool := ltb y x.

(** [min(a, b)]: the builtin returns its first argument unless a later
    one is strictly smaller. *)
Definition min (a b : Q) : Q := if ltb b a then b else a.

(** [max(a, b)] on ints, as used for the ratio denominators. *)
Definition max_int (a b : nat) : nat := if (a <? b)%nat then b else a.

(** Nearest integer, ties to the even neighbour. *)
Definition round_half_even (x : Q) : Z :=
  let f := Qfloor x in
  match Qcompare (x - inject_Z f) (1 # 2) with
  | Lt => f
  | Gt => (f + 1)%Z
  | Eq => if Z.even f then f else (f + 1)%Z
  end.

(** [round(x, ndigits)] for a float [x] and [ndigits >= 0]. *)
Definition round (x : Q) (ndigits : nat) : Q :=
  let scale := (10 ^ Z.of_nat ndigits)%Z in
  Qred (inject_Z (round_half_even (x * inject_Z scale)) / inject_Z scale).

(** [series.sum()] of a float column. *)
Definition sum (xs : list Q) : Q := foldr Qplus 0 xs.

End Py.

(** ** [trading_logic/signal_generator.py] *)

Module SignalGenerator.

(** *** Data model *)

(** The string constants the program uses as signal values. *)
Inductive Signal : Set :=
  | BUY | SELL | HOLD | INSUFFICIENT_DATA | NO_DATA | ERROR.

#[global] Instance Signal_eq_dec : EqDecision Signal.
Proof. solve_decision. Defined.

(** The exceptions that can leave the scorers. *)
Inductive exn : Set :=
  | ValueError (column : string)
  | KeyError (column : string)
  | ZeroDivisionError
  | OtherError (message : string).   (* raised by a collaborator *)

Inductive result (A : Type) : Type :=
  | Return (a : A)
  | Raise (e : exn).
Arguments Return {A} a.
Arguments Raise {A} e.

#[global] Instance result_ret : MRet result := fun A a => Return a.

#[global] Instance result_bind : MBind result := fun A B k m =>
  match m with
  | Return a => k a
  | Raise e => Raise e
  end.

(** A cell of the publication-date column, as [pd.to_datetime] sees it. *)
Inductive DateCell : Set :=
  | Instant (ns : Z)   (* an instant, nanoseconds since the epoch, UTC *)
  | NaT                (* a missing date *)
  | Malformed.         (* a value on which the conversion raises *)

#[global] Instance DateCell_eq_dec : EqDecision DateCell.
Proof. solve_decision. Defined.

(** One row of the frame, restricted to the three columns the scorers
    read. *)
Record Article : Type := {
  combined_sentiment_label : string;
  combined_sentiment_confidence : Q;
  published_at : DateCell
}.

(** A [pd.DataFrame]: the names of its columns and its rows.  A field of
    a row is meaningful only when the column of that name is present; the
    scorers test for it before they read. *)
Record DataFrame : Type := {
  columns : list string;
  rows : list Article
}.

Definition sentiment_column : string := "combined_sentiment_label".
Definition confidence_column : string := "combined_sentiment_confidence".
Definition date_column : string := "published_at".

Definition has_column (df : DataFrame) (name : string) : bool :=
  bool_decide (name ∈ columns df).

Definition len (df : DataFrame) : nat := length (rows df).

(** [df[df[sentiment_column] == l]] *)
Definition with_label (l : string) (df : DataFrame) : list Article :=
  filter (fun a => combined_sentiment_label a = l) (rows df).

(** [df[sentiment_column].value_counts().get(l, 0)] *)
Definition value_count (l : string) (df : DataFrame) : nat :=
  length (with_label l df).

(** Values stored in a [details] dictionary. *)
Inductive Detail : Type :=
  | DInt (n : Z)
  | DFloat (x : Q)
  | DStr (s : string).

(** The [reason] f-strings, one constructor per template, carrying the
    values that are interpolated. *)
Inductive Reason : Type :=
  | InsufficientArticles (need : Z) (got : nat)
  | NoNegative (positive_count : nat)
  | NoPositive (negative_count : nat)
  | PositiveDominates (positive_count : nat) (ratio : Q) (negative_count : nat)
  | NegativeDominates (negative_count : nat) (ratio : Q) (positive_count : nat)
  | Mixed (positive_count negative_count : nat) (ratio : Q)
  | NoClearDirection
  | WeightedBuy (positive_pct negative_pct : Q)
  | WeightedSell (negative_pct positive_pct : Q)
  | TimeFavorsBuy (positive_pct : Q)
  | TimeFavorsSell (negative_pct : Q).

(** The dictionary returned by a scorer.  [timestamp] is [None] when the
    key is absent (the insufficient-data result has none). *)
Record SignalResult : Type := {
  signal : Signal;
  confidence : Q;
  reason : Reason;
  details : gmap string Detail;
  timestamp : option Z
}.

(** The constructor arguments of [TradingSignalGenerator]. *)
Record TradingSignalGenerator : Type := {
  positive_threshold : Q;
  negative_threshold : Q;
  min_articles : Z;
  confidence_weight : Q
}.

Definition default_generator : TradingSignalGenerator :=
  {| positive_threshold := 2.0;
     negative_threshold := 2.0;
     min_articles := 5;
     confidence_weight := 0.3 |}.

(** *** [generate_basic_signal] *)

(** Lines 66-106: the decision on the label counts, before the
    confidence is rounded. *)
Definition basic_decision (self : TradingSignalGenerator)
    (positive_count negative_count total_count : nat) : Signal * Reason * Q :=
  if ((negative_count =? 0) && (0 <? positive_count))%nat then
    (BUY, NoNegative positive_count,
     Py.min 0.9 (0.7 + (Py.of_int positive_count / Py.of_int total_count) * 0.2))
  else if ((positive_count =? 0) && (0 <? negative_count))%nat then
    (SELL, NoPositive negative_count,
     Py.min 0.9 (0.7 + (Py.of_int negative_count / Py.of_int total_count) * 0.2))
  else if ((0 <? positive_count) && (0 <? negative_count))%nat then
    let positive_ratio := Py.of_int positive_count / Py.of_int negative_count in
    let negative_ratio := Py.of_int negative_count / Py.of_int positive_count in
    if Py.leb (positive_threshold self) positive_ratio then
      (BUY, PositiveDominates positive_count positive_ratio negative_count,
       Py.min 0.9 (0.6 + (positive_ratio / positive_threshold self) * 0.3))
    else if Py.leb (negative_threshold self) negative_ratio then
      (SELL, NegativeDominates negative_count negative_ratio positive_count,
       Py.min 0.9 (0.6 + (negative_ratio / negative_threshold self) * 0.3))
    else
      (HOLD, Mixed positive_count negative_count positive_ratio,
       0.5 - Qabs (positive_ratio - 1.0) * 0.1)
  else
    (HOLD, NoClearDirection, 0.4).

(** Lines 109-120. *)
Definition basic_details
    (positive_count negative_count neutral_count total_count : nat)
    : gmap string Detail :=
  let pct (c : nat) := (Py.of_int c / Py.of_int total_count) * 100 in
  <["total_articles" := DInt (Z.of_nat total_count)]> (
  <["positive_count" := DInt (Z.of_nat positive_count)]> (
  <["negative_count" := DInt (Z.of_nat negative_count)]> (
  <["neutral_count" := DInt (Z.of_nat neutral_count)]> (
  <["positive_percentage" := DFloat (pct positive_count)]> (
  <["negative_percentage" := DFloat (pct negative_count)]> (
  <["neutral_percentage" := DFloat (pct neutral_count)]> (
  <["positive_to_negative_ratio" :=
      DFloat (Py.of_int positive_count / Py.of_int (Py.max_int negative_count 1))]> (
  <["negative_to_positive_ratio" :=
      DFloat (Py.of_int negative_count / Py.of_int (Py.max_int positive_count 1))]> (
  <["sentiment_column_used" := DStr sentiment_column]> ∅))))))))).

Definition insufficient (self : TradingSignalGenerator) (df : DataFrame)
    : SignalResult :=
  {| signal := INSUFFICIENT_DATA;
     confidence := 0.0;
     reason := InsufficientArticles (min_articles self) (len df);
     details := ∅;
     timestamp := None |}.

Definition generate_basic_signal (self : TradingSignalGenerator) (now : Z)
    (df : DataFrame) : result SignalResult :=
  if negb (has_column df sentiment_column) then
    Raise (ValueError sentiment_column)
  else if (Z.of_nat (len df) <? min_articles self)%Z then
    Return (insufficient self df)
  else
    let positive_count := value_count "positive" df in
    let negative_count := value_count "negative" df in
    let neutral_count := value_count "neutral" df in
    let total_count := len df in
    (* the percentages divide Python ints: an empty frame raises *)
    if (total_count =? 0)%nat then Raise ZeroDivisionError
    else
      let '(signal, reason, confidence) :=
        basic_decision self positive_count negative_count total_count in
      Return
        {| signal := signal;
           confidence := Py.round confidence 3;
           reason := reason;
           details :=
             basic_details positive_count negative_count neutral_count total_count;
           timestamp := Some now |}.

(** *** [generate_weighted_signal] *)

(** [df[df[sentiment_column] == l][confidence_column].sum()] *)
Definition label_weight (l : string) (df : DataFrame) : Q :=
  Py.sum (map combined_sentiment_confidence (with_label l df)).

(** Lines 173-188: the adjustment of the basic result. *)
Definition weighted_decision (self : TradingSignalGenerator)
    (basic_signal : SignalResult)
    (weighted_positive_pct weighted_negative_pct : Q) : Signal * Reason * Q :=
  let signal := signal basic_signal in
  let confidence := confidence basic_signal in
  let reason := reason basic_signal in
  if Py.gtb weighted_positive_pct
       (weighted_negative_pct * positive_threshold self) then
    let '(signal, reason) :=
      if bool_decide (signal <> BUY)
      then (BUY, WeightedBuy weighted_positive_pct weighted_negative_pct)
      else (signal, reason) in
    (signal, reason, Py.min 0.95 (confidence + confidence_weight self * 0.2))
  else if Py.gtb weighted_negative_pct
            (weighted_positive_pct * negative_threshold self) then
    let '(signal, reason) :=
      if bool_decide (signal <> SELL)
      then (SELL, WeightedSell weighted_negative_pct weighted_positive_pct)
      else (signal, reason) in
    (signal, reason, Py.min 0.95 (confidence + confidence_weight self * 0.2))
  else
    (signal, reason, confidence).

(** Lines 191-198: [basic_signal['details'].copy()] followed by
    [update]. *)
Definition weighted_details (base : gmap string Detail)
    (weighted_positive_pct weighted_negative_pct weighted_neutral_pct
     total_weight : Q) : gmap string Detail :=
  <["weighted_positive_percentage" := DFloat weighted_positive_pct]> (
  <["weighted_negative_percentage" := DFloat weighted_negative_pct]> (
  <["weighted_neutral_percentage" := DFloat weighted_neutral_pct]> (
  <["confidence_column_used" := DStr confidence_column]> (
  <["total_confidence_weight" := DFloat total_weight]> base)))).

Definition total_weight (df : DataFrame) : Q :=
  label_weight "positive" df + label_weight "negative" df
  + label_weight "neutral" df.

Definition generate_weighted_signal (self : TradingSignalGenerator) (now : Z)
    (df : DataFrame) : result SignalResult :=
  if negb (has_column df confidence_column) then
    generate_basic_signal self now df
  else
    basic_signal ← generate_basic_signal self now df;
    if bool_decide (signal basic_signal = INSUFFICIENT_DATA) then
      Return basic_signal
    else
      let positive_weight := label_weight "positive" df in
      let negative_weight := label_weight "negative" df in
      let neutral_weight := label_weight "neutral" df in
      let total_weight := positive_weight + negative_weight + neutral_weight in
      if Py.eqb total_weight 0 then Return basic_signal
      else
        let weighted_positive_pct := (positive_weight / total_weight) * 100 in
        let weighted_negative_pct := (negative_weight / total_weight) * 100 in
        let weighted_neutral_pct := (neutral_weight / total_weight) * 100 in
        let '(signal, reason, confidence) :=
          weighted_decision self basic_signal
            weighted_positive_pct weighted_negative_pct in
        Return
          {| signal := signal;
             confidence := Py.round confidence 3;
             reason := reason;
             details :=
               weighted_details (details basic_signal)
                 weighted_positive_pct weighted_negative_pct
                 weighted_neutral_pct total_weight;
             timestamp := Some now |}.

(** *** [generate_time_weighted_signal] *)

Definition day_ns : Z := 86400000000000.

(** [_normalize_datetime_columns]: [pd.to_datetime] raises on a value it
    cannot convert; instants are kept as naive UTC. *)
Definition _normalize_datetime_columns (df : DataFrame) : result DataFrame :=
  if bool_decide (Malformed ∈ map published_at (rows df))
  then Raise (ValueError date_column)
  else Return df.

(** [(current_time - published_at).dt.days], clipped below at 0; a
    missing date has no age (NaN). *)
Definition days_ago (current_time : Z) (a : Article) : option Z :=
  match published_at a with
  | Instant t => Some (Z.max ((current_time - t) / day_ns) 0)
  | NaT | Malformed => None
  end.

(** [df_copy['days_ago'] <= recent_days]; a comparison with NaN is
    false. *)
Definition is_recent (current_time recent_days : Z) (a : Article) : bool :=
  match days_ago current_time a with
  | Some d => (d <=? recent_days)%Z
  | None => false
  end.

Definition time_weight (current_time recent_days : Z) (a : Article) : Q :=
  if is_recent current_time recent_days a then 2.0 else 1.0.

(** [df_copy[df_copy[sentiment_column] == l]['time_weight'].sum()] *)
Definition time_weighted (current_time recent_days : Z) (l : string)
    (df : DataFrame) : Q :=
  Py.sum (map (time_weight current_time recent_days) (with_label l df)).

Definition total_time_weight (current_time recent_days : Z) (df : DataFrame)
    : Q :=
  time_weighted current_time recent_days "positive" df
  + time_weighted current_time recent_days "negative" df
  + time_weighted current_time recent_days "neutral" df.

(** Lines 292-304. *)
Definition time_decision (self : TradingSignalGenerator)
    (base_signal : SignalResult)
    (time_weighted_positive time_weighted_negative
     time_positive_pct time_negative_pct : Q) : Signal * Reason * Q :=
  let signal := signal base_signal in
  let confidence := confidence base_signal in
  let reason := reason base_signal in
  if Py.gtb time_weighted_positive
       (time_weighted_negative * positive_threshold self) then
    (BUY, TimeFavorsBuy time_positive_pct, Py.min 0.95 (confidence + 0.1))
  else if Py.gtb time_weighted_negative
            (time_weighted_positive * negative_threshold self) then
    (SELL, TimeFavorsSell time_negative_pct, Py.min 0.95 (confidence + 0.1))
  else
    (signal, reason, confidence).

(** Lines 307-313. *)
Definition time_details (base : gmap string Detail)
    (time_positive_pct time_negative_pct : Q) (recent_days : Z)
    (articles_in_recent_period : nat) : gmap string Detail :=
  <["time_weighted_positive_percentage" := DFloat time_positive_pct]> (
  <["time_weighted_negative_percentage" := DFloat time_negative_pct]> (
  <["recent_days_threshold" := DInt recent_days]> (
  <["articles_in_recent_period" :=
      DInt (Z.of_nat articles_in_recent_period)]> base))).

Definition generate_time_weighted_signal (self : TradingSignalGenerator)
    (now : Z) (df : DataFrame) (recent_days : Z) : result SignalResult :=
  if negb (has_column df date_column) then
    generate_weighted_signal self now df
  else
    match _normalize_datetime_columns df with
    | Raise _ =>
        (* except Exception: fall back to the weighted analysis *)
        generate_weighted_signal self now df
    | Return df_copy =>
        let current_time := now in
        if negb (has_column df_copy sentiment_column) then
          Raise (KeyError sentiment_column)
        else
          let time_weighted_positive :=
            time_weighted current_time recent_days "positive" df_copy in
          let time_weighted_negative :=
            time_weighted current_time recent_days "negative" df_copy in
          let time_weighted_neutral :=
            time_weighted current_time recent_days "neutral" df_copy in
          let total_time_weight :=
            time_weighted_positive + time_weighted_negative
            + time_weighted_neutral in
          base_signal ← generate_weighted_signal self now df;
          if Py.eqb total_time_weight 0 then Return base_signal
          else
            let time_positive_pct :=
              (time_weighted_positive / total_time_weight) * 100 in
            let time_negative_pct :=
              (time_weighted_negative / total_time_weight) * 100 in
            let '(signal, reason, confidence) :=
              time_decision self base_signal
                time_weighted_positive time_weighted_negative
                time_positive_pct time_negative_pct in
            Return
              {| signal := signal;
                 confidence := Py.round confidence 3;
                 reason := reason;
                 details :=
                   time_details (details base_signal)
                     time_positive_pct time_negative_pct recent_days
                     (length (filter (fun a => is_recent current_time recent_days a = true)
                                (rows df_copy)));
                 timestamp := Some now |}
    end.

End SignalGenerator.

(** ** [web_app/app.py] *)

Module WebApp.

Import SignalGenerator.

(** The collaborators [run_complete_analysis] calls: the news fetcher
    (its construction included), the sentiment analyzer and its summary.
    Each may raise. *)
Record Collaborators : Type := {
  fetch_company_news : result DataFrame;
  analyze_dataframe_comprehensive : DataFrame -> result DataFrame;
  get_comprehensive_summary : DataFrame -> result (gmap string Detail)
}.

Inductive ErrorMessage : Type :=
  | NoArticlesFound
  | ErrorDuringAnalysis (e : exn).

Record SignalDetails : Type := {
  basic_signal : Signal;
  weighted_signal : Signal;
  time_weighted_signal : Signal;
  basic_confidence : Q;
  weighted_confidence : Q;
  time_weighted_confidence : Q
}.

(** The two shapes of the dictionary the service returns. *)
Inductive AnalysisResult : Type :=
  | Success (signal : Signal) (confidence : Q) (company : string)
      (analysis_timestamp : Z) (total_articles : nat)
      (sentiment_breakdown : gmap string Detail)
      (signal_details : SignalDetails) (reasoning : Reason)
  | Failure (error : ErrorMessage) (signal : Signal) (confidence : Q).

Definition success (r : AnalysisResult) : bool :=
  match r with Success _ _ _ _ _ _ _ _ => true | Failure _ _ _ => false end.

Definition signal (r : AnalysisResult) : Signal :=
  match r with Success s _ _ _ _ _ _ _ => s | Failure _ s _ => s end.

Definition confidence (r : AnalysisResult) : Q :=
  match r with Success _ c _ _ _ _ _ _ => c | Failure _ _ c => c end.

Definition signal_details (r : AnalysisResult) : option SignalDetails :=
  match r with Success _ _ _ _ _ _ d _ => Some d | Failure _ _ _ => None end.

(** [df.empty] *)
Definition empty (df : DataFrame) : bool :=
  bool_decide (rows df = [] \/ columns df = []).

(** [signals.count(s)] *)
Definition count (signals : list Signal) (s : Signal) : nat :=
  length (filter (fun x => x = s) signals).

(** Lines 66-74. *)
Definition consensus (signals : list Signal) : Signal :=
  if (2 <=? count signals BUY)%nat then BUY
  else if (2 <=? count signals SELL)%nat then SELL
  else HOLD.

(** [sentiment_summary.get(key, 0)] *)
Definition get (summary : gmap string Detail) (key : string) : Detail :=
  default (DInt 0) (summary !! key).

Definition sentiment_breakdown (summary : gmap string Detail)
    : gmap string Detail :=
  <["positive_count" := get summary "combined_positive_count"]> (
  <["negative_count" := get summary "combined_negative_count"]> (
  <["neutral_count" := get summary "combined_neutral_count"]> (
  <["positive_percentage" := get summary "combined_positive_percentage"]> (
  <["negative_percentage" := get summary "combined_negative_percentage"]> (
  <["neutral_percentage" := get summary "combined_neutral_percentage"]> ∅
  ))))).

(** The body of the [try] block. *)
Definition analysis (ext : Collaborators) (company_name : string) (now : Z)
    : result AnalysisResult :=
  df ← fetch_company_news ext;
  if empty df then Return (Failure NoArticlesFound NO_DATA 0.0)
  else
    df_with_sentiment ← analyze_dataframe_comprehensive ext df;
    let signal_generator := default_generator in
    basic_signal ←
      generate_basic_signal signal_generator now df_with_sentiment;
    weighted_signal ←
      generate_weighted_signal signal_generator now df_with_sentiment;
    time_weighted_signal ←
      generate_time_weighted_signal signal_generator now df_with_sentiment 7;
    let signals :=
      [ SignalGenerator.signal basic_signal;
        SignalGenerator.signal weighted_signal;
        SignalGenerator.signal time_weighted_signal ] in
    let consensus := consensus signals in
    let avg_confidence :=
      (SignalGenerator.confidence basic_signal
       + SignalGenerator.confidence weighted_signal
       + SignalGenerator.confidence time_weighted_signal) / 3 in
    sentiment_summary ← get_comprehensive_summary ext df_with_sentiment;
    Return
      (Success consensus (Py.round avg_confidence 3) company_name now
         (len df_with_sentiment)
         (sentiment_breakdown sentiment_summary)
         {| basic_signal := SignalGenerator.signal basic_signal;
            weighted_signal := SignalGenerator.signal weighted_signal;
            time_weighted_signal := SignalGenerator.signal time_weighted_signal;
            basic_confidence := SignalGenerator.confidence basic_signal;
            weighted_confidence := SignalGenerator.confidence weighted_signal;
            time_weighted_confidence :=
              SignalGenerator.confidence time_weighted_signal |}
         (reason weighted_signal)).

(** [run_complete_analysis]: every exception is turned into an error
    result. *)
Definition run_complete_analysis (ext : Collaborators) (company_name : string)
    (now : Z) : AnalysisResult :=
  match analysis ext company_name now with
  | Return r => r
  | Raise e => Failure (ErrorDuringAnalysis e) ERROR 0.0
  end.

End WebApp.

(** ** The dictionaries the scorers build

    Names for the three result dictionaries, used to state what a scorer
    returns on each of its paths. *)

Import SignalGenerator.

(** The dictionary built on lines 122-128, for a frame that has enough
    rows. *)
Definition scored_basic (self : TradingSignalGenerator) (now : Z)
    (df : DataFrame) : SignalResult :=
  let d := basic_decision self (value_count "positive" df)
             (value_count "negative" df) (len df) in
  {| signal := d.1.1;
     confidence := Py.round d.2 3;
     reason := d.1.2;
     details := basic_details (value_count "positive" df)
                  (value_count "negative" df) (value_count "neutral" df) (len df);
     timestamp := Some now |}.

(** The weighted percentages of lines 168-169. *)
Definition weighted_pct (l : string) (df : DataFrame) : Q :=
  (label_weight l df / total_weight df) * 100.

(** The dictionary built on lines 200-206 from the basic result [b]. *)
Definition scored_weighted (self : TradingSignalGenerator) (now : Z)
    (df : DataFrame) (b : SignalResult) : SignalResult :=
  let d := weighted_decision self b
             (weighted_pct "positive" df) (weighted_pct "negative" df) in
  {| signal := d.1.1;
     confidence := Py.round d.2 3;
     reason := d.1.2;
     details := weighted_details (details b)
                  (weighted_pct "positive" df) (weighted_pct "negative" df)
                  (weighted_pct "neutral" df) (total_weight df);
     timestamp := Some now |}.

(** The time-weighted percentages of lines 288-289. *)
Definition time_pct (now recent_days : Z) (l : string) (df : DataFrame) : Q :=
  (time_weighted now recent_days l df / total_time_weight now recent_days df)
  * 100.

(** The dictionary built on lines 315-321 from the weighted result [w]. *)
Definition scored_time (self : TradingSignalGenerator) (now : Z)
    (df : DataFrame) (recent_days : Z) (w : SignalResult) : SignalResult :=
  let d := time_decision self w
             (time_weighted now recent_days "positive" df)
             (time_weighted now recent_days "negative" df)
             (time_pct now recent_days "positive" df)
             (time_pct now recent_days "negative" df) in
  {| signal := d.1.1;
     confidence := Py.round d.2 3;
     reason := d.1.2;
     details := time_details (details w)
                  (time_pct now recent_days "positive" df)
                  (time_pct now recent_days "negative" df) recent_days
                  (length (filter (fun a => is_recent now recent_days a = true)
                             (rows df)));
     timestamp := Some now |}.

(** ** Sample batches

    Frames in the style of [create_test_scenarios] of
    [test_trading_signals.py]: so many positive, negative and neutral
    articles, here with one fixed confidence per label and one
    publication instant. *)

Definition all_columns : list string :=
  [sentiment_column; confidence_column; date_column].

Definition test_articles (label : string) (conf : Q) (count : nat)
    : list Article :=
  repeat {| combined_sentiment_label := label;
            combined_sentiment_confidence := conf;
            published_at := Instant 0 |} count.

Definition test_frame (positive negative neutral : nat)
    (positive_conf negative_conf neutral_conf : Q) : DataFrame :=
  {| columns := all_columns;
     rows := test_articles "positive" positive_conf positive
             ++ test_articles "negative" negative_conf negative
             ++ test_articles "neutral" neutral_conf neutral |}.

(** The scenarios with the confidences of the middle of the tests' range. *)
Definition scenario (positive negative neutral : nat) : DataFrame :=
  test_frame positive negative neutral 0.75 0.75 0.75.

(** A generator that differs from the default one in one argument. *)
Definition with_positive_threshold (x : Q) : TradingSignalGenerator :=
  {| positive_threshold := x;
     negative_threshold := 2.0;
     min_articles := 5;
     confidence_weight := 0.3 |}.

Definition with_confidence_weight (x : Q) : TradingSignalGenerator :=
  {| positive_threshold := 2.0;
     negative_threshold := 2.0;
     min_articles := 5;
     confidence_weight := x |}.

(** Configurations whose thresholds are positive ratios, with the BUY
    threshold at most 6, and whose confidence weight is not negative.
    The default configuration is one. *)
Definition sane_configuration (self : TradingSignalGenerator) : Prop :=
  0 < positive_threshold self /\ positive_threshold self <= 6 /\
  0 < negative_threshold self /\ 0 <= confidence_weight self.

(** The keys the weighted and the time-weighted stage add to [details]. *)
Definition weighted_keys : list string :=
  [ "weighted_positive_percentage"; "weighted_negative_percentage";
    "weighted_neutral_percentage"; "confidence_column_used";
    "total_confidence_weight" ].

Definition time_keys : list string :=
  [ "time_weighted_positive_percentage"; "time_weighted_negative_percentage";
    "recent_days_threshold"; "articles_in_recent_period" ].

(** No key of [keys] is bound in [m]. *)
Definition fresh (keys : list string) (m : gmap string Detail) : Prop :=
  forall k, k ∈ keys -> m !! k = None.

(** A frame whose five rows carry the empty label the analyzer starts
    from, and so no positive, negative or neutral row. *)
Definition unlabelled_frame : DataFrame :=
  {| columns := all_columns; rows := test_articles EmptyString 0.0 5 |}.

(** Collaborators that fetch the given frame, leave it as it is and
    report an empty summary. *)
Definition collaborators_returning (df : DataFrame) : WebApp.Collaborators :=
  {| WebApp.fetch_company_news := Return df;
     WebApp.analyze_dataframe_comprehensive := fun df => Return df;
     WebApp.get_comprehensive_summary := fun _ => Return ∅ |}.

(** A positive article published [age] nanoseconds before instant 0. *)
Definition article_aged (age : Z) : Article :=
  {| combined_sentiment_label := "positive";
     combined_sentiment_confidence := 0.9;
     published_at := Instant (- age) |}.

Definition hour_ns : Z := 3600000000000.

(** What a caller reads off a scorer's outcome: the signal and the
    confidence, or the exception. *)
Definition verdict (r : result SignalResult) : result (Signal * Q) :=
  match r with
  | Return x => Return (signal x, confidence x)
  | Raise e => Raise e
  end.

(** The [total_articles] entry of a service result, when it has one. *)
Definition analysed_articles (r : WebApp.AnalysisResult) : option nat :=
  match r with
  | WebApp.Success _ _ _ _ n _ _ _ => Some n
  | WebApp.Failure _ _ _ => None
  end.

(** ** [trading_logic/signal_generator.py]: the summary and the
    convenience function

    [get_signal_summary] returns one string.  Its fixed text is left out:
    a summary is the record of the values that are interpolated, each as
    its format specifier shows it. *)

(** [emoji_map.get(signal, '❓')] *)
Definition emoji (s : Signal) : string :=
  match s with
  | BUY => "🟢 📈"
  | SELL => "🔴 📉"
  | HOLD => "🟡 ➡️"
  | INSUFFICIENT_DATA => "⚪ ❓"
  | NO_DATA | ERROR => "❓"
  end.

(** [f'{v:.Nf}'] for a value of a [details] dictionary: an int or a
    float is shown with [ndigits] decimals, a string has no such
    format. *)
Definition format_fixed (ndigits : nat) (v : Detail) : result Q :=
  match v with
  | DInt n => Return (Py.round (inject_Z n) ndigits)
  | DFloat x => Return (Py.round x ndigits)
  | DStr _ => Raise (ValueError "Unknown format code 'f' for object of type 'str'")
  end.

(** [f'{x:.1%}'] *)
Definition format_percent (x : Q) : Q := Py.round (x * 100) 1.

(** [details[key]] *)
Definition getitem (details : gmap string Detail) (key : string)
    : result Detail :=
  match details !! key with
  | Some v => Return v
  | None => Raise (KeyError key)
  end.

Record Summary : Type := {
  signal_line : string * Signal;
  confidence_line : Q;
  reason_line : Reason;
  total_articles_line : Detail;
  positive_line : Detail * Q;
  negative_line : Detail * Q;
  neutral_line : Detail * Q;
  ratios_lines : option (Q * Q);
  generated_line : Z
}.

Definition get_signal_summary (signal_result : SignalResult) : result Summary :=
  let signal := signal signal_result in
  let confidence := confidence signal_result in
  let reason := reason signal_result in
  let details := details signal_result in
  positive_percentage ←
    format_fixed 1 (WebApp.get details "positive_percentage");
  negative_percentage ←
    format_fixed 1 (WebApp.get details "negative_percentage");
  neutral_percentage ←
    format_fixed 1 (WebApp.get details "neutral_percentage");
  ratios ←
    (if bool_decide (is_Some (details !! "positive_to_negative_ratio")) then
       positive_to_negative ← getitem details "positive_to_negative_ratio";
       positive_to_negative ← format_fixed 2 positive_to_negative;
       negative_to_positive ← getitem details "negative_to_positive_ratio";
       negative_to_positive ← format_fixed 2 negative_to_positive;
       Return (Some (positive_to_negative, negative_to_positive))
     else Return None);
  generated ←
    match timestamp signal_result with
    | Some t => Return t
    | None => Raise (KeyError "timestamp")
    end;
  Return
    {| signal_line := (emoji signal, signal);
       confidence_line := format_percent confidence;
       reason_line := reason;
       total_articles_line := WebApp.get details "total_articles";
       positive_line := (WebApp.get details "positive_count", positive_percentage);
       negative_line := (WebApp.get details "negative_count", negative_percentage);
       neutral_line := (WebApp.get details "neutral_count", neutral_percentage);
       ratios_lines := ratios;
       generated_line := generated |}.

(** The summary of a result that carries a timestamp and the entries of
    [basic_details]. *)
Definition summary_of_counts (r : SignalResult) (now : Z) (p n u t : nat)
    : Summary :=
  {| signal_line := (emoji (signal r), signal r);
     confidence_line := format_percent (confidence r);
     reason_line := reason r;
     total_articles_line := DInt (Z.of_nat t);
     positive_line :=
       (DInt (Z.of_nat p), Py.round (Py.of_int p / Py.of_int t * 100) 1);
     negative_line :=
       (DInt (Z.of_nat n), Py.round (Py.of_int n / Py.of_int t * 100) 1);
     neutral_line :=
       (DInt (Z.of_nat u), Py.round (Py.of_int u / Py.of_int t * 100) 1);
     ratios_lines :=
       Some (Py.round (Py.of_int p / Py.of_int (Py.max_int n 1)) 2,
             Py.round (Py.of_int n / Py.of_int (Py.max_int p 1)) 2);
     generated_line := now |}.

(** [generate_trading_signal], called with the default label column. *)
Definition generate_trading_signal (now : Z) (df : DataFrame)
    (method : string) : result SignalResult :=
  let generator := default_generator in
  if bool_decide (method = "basic") then
    generate_basic_signal generator now df
  else if bool_decide (method = "weighted") then
    generate_weighted_signal generator now df
  else if bool_decide (method = "time_weighted") then
    generate_time_weighted_signal generator now df 7
  else Raise (ValueError method).

(** ** [complete_analysis.py] *)

Module CompleteAnalysis.

(** What [main] calls outside the scorers: the news fetcher, the
    sentiment analyzer, the two charts of step 6 and the files written in
    step 7.  Each may raise. *)
Record Environment : Type := {
  fetch_company_news : result DataFrame;
  analyze_dataframe_comprehensive : DataFrame -> result DataFrame;
  create_charts : DataFrame -> Signal -> result unit;
  save_results : DataFrame -> Signal -> Q -> result unit
}.

Inductive RiskLevel : Set := LOW_RISK | MEDIUM_RISK | HIGH_RISK.

(** How a run ends: with the message that no article was found, with the
    final recommendation, or in the handler of the [try] block. *)
Inductive Outcome : Type :=
  | NoArticles
  | Recommendation (consensus : Signal) (consensus_confidence : Q)
      (risk_level : RiskLevel)
  | Error (e : exn).

(** The builtin [sum] of a list of floats. *)
Definition builtin_sum (xs : list Q) : Q := fold_left Qplus xs 0.

(** Lines 179-184. *)
Definition risk_assessment (consensus_confidence : Q) : RiskLevel :=
  if Py.gtb consensus_confidence 0.8 then LOW_RISK
  else if Py.gtb consensus_confidence 0.6 then MEDIUM_RISK
  else HIGH_RISK.

(** The body of the [try] block. *)
Definition steps (ext : Environment) (now : Z) : result Outcome :=
  df ← fetch_company_news ext;
  if WebApp.empty df then Return NoArticles
  else
    df_with_sentiment ← analyze_dataframe_comprehensive ext df;
    let signal_generator := default_generator in
    basic_signal ←
      generate_basic_signal signal_generator now df_with_sentiment;
    weighted_signal ←
      generate_weighted_signal signal_generator now df_with_sentiment;
    time_weighted_signal ←
      generate_time_weighted_signal signal_generator now df_with_sentiment 7;
    _ ← get_signal_summary basic_signal;
    _ ← get_signal_summary weighted_signal;
    _ ← get_signal_summary time_weighted_signal;
    let signal_votes :=
      [ signal basic_signal; signal weighted_signal;
        signal time_weighted_signal ] in
    let consensus := WebApp.consensus signal_votes in
    let consensus_confidence :=
      builtin_sum [ confidence basic_signal; confidence weighted_signal;
                    confidence time_weighted_signal ] / 3 in
    _ ← create_charts ext df_with_sentiment consensus;
    _ ← save_results ext df_with_sentiment consensus consensus_confidence;
    Return (Recommendation consensus consensus_confidence
              (risk_assessment consensus_confidence)).

Definition main (ext : Environment) (now : Z) : Outcome :=
  match steps ext now with
  | Return o => o
  | Raise e => Error e
  end.

End CompleteAnalysis.

(** Collaborators of the command-line run that fetch the given frame,
    leave it as it is and write their charts and files without error. *)
Definition quiet_collaborators (df : DataFrame)
    : CompleteAnalysis.Environment :=
  {| CompleteAnalysis.fetch_company_news := Return df;
     CompleteAnalysis.analyze_dataframe_comprehensive := fun df => Return df;
     CompleteAnalysis.create_charts := fun _ _ => Return tt;
     CompleteAnalysis.save_results := fun _ _ _ => Return tt |}.

(** ** [sentiment_analysis/analyzer.py] and
    [sentiment_analysis/quick_analyzer.py]

    The transformer pipeline is outside the embedding.  A text is what
    [analyze_text] makes of it before the scores are compared: empty or
    blank, a text on which the [try] block raises, or the list of scores
    the pipeline returns for its first 512 characters. *)

Module SentimentAnalyzer.

(** The outcome of the tests on [result['label'].upper()]. *)
Inductive ScoreLabel : Set :=
  | Positive     (* 'POSITIVE' or 'POS' *)
  | Negative     (* 'NEGATIVE' or 'NEG' *)
  | Unrelated.

Inductive Text : Type :=
  | Blank
  | Failing
  | Scored (results : list (ScoreLabel * Q)).

Record Sentiment : Type := {
  label : string;
  confidence : Q;
  positive_score : Q;
  negative_score : Q
}.

Definition neutral_result : Sentiment :=
  {| label := "neutral";
     confidence := 0.0;
     positive_score := 0.0;
     negative_score := 0.0 |}.

(** Lines 64-71: the loop over the scores; a later entry of the same
    kind replaces an earlier one. *)
Definition scores (results : list (ScoreLabel * Q)) : Q * Q :=
  fold_left
    (fun (acc : Q * Q) (result : ScoreLabel * Q) =>
       match result.1 with
       | Positive => (result.2, acc.2)
       | Negative => (acc.1, result.2)
       | Unrelated => acc
       end)
    results (0.0, 0.0).

(** [max(a, b)]: the builtin returns its first argument unless a later
    one is strictly greater. *)
Definition max (a b : Q) : Q := if Py.gtb b a then b else a.

(** [SentimentAnalyzer.analyze_text] *)
Definition analyze_text (text : Text) : Sentiment :=
  match text with
  | Blank => neutral_result
  | Failing => neutral_result
  | Scored results =>
      let positive_score := (scores results).1 in
      let negative_score := (scores results).2 in
      let '(label, confidence) :=
        if Py.gtb positive_score negative_score then
          if Py.gtb positive_score 0.6 then ("positive", positive_score)
          else ("neutral", max positive_score negative_score)
        else if Py.gtb negative_score positive_score then
          if Py.gtb negative_score 0.6 then ("negative", negative_score)
          else ("neutral", max positive_score negative_score)
        else ("neutral", max positive_score negative_score) in
      {| label := label;
         confidence := confidence;
         positive_score := positive_score;
         negative_score := negative_score |}
  end.

(** [quick_analyzer.analyze_sentiment] *)
Definition analyze_sentiment (text : Text) : string :=
  match text with
  | Blank => "neutral"
  | Failing => "neutral"
  | Scored results =>
      let positive_score := (scores results).1 in
      let negative_score := (scores results).2 in
      if Py.gtb positive_score negative_score && Py.gtb positive_score 0.6
      then "positive"
      else if Py.gtb negative_score positive_score
              && Py.gtb negative_score 0.6
      then "negative"
      else "neutral"
  end.

(** A row of the fetched frame as [analyze_dataframe_comprehensive]
    reads it for the combined columns: the text made of title and
    description, and the publication date it leaves as it is. *)
Record FetchedArticle : Type := {
  combined_text : Text;
  fetched_published_at : DateCell
}.

Definition columns_to_add : list string :=
  [ "title_sentiment_label"; "title_sentiment_confidence";
    "title_positive_score"; "title_negative_score";
    "description_sentiment_label"; "description_sentiment_confidence";
    "description_positive_score"; "description_negative_score";
    "combined_sentiment_label"; "combined_sentiment_confidence";
    "combined_positive_score"; "combined_negative_score" ].

(** [df[col] = value]: a new column is appended, an existing one keeps
    its place. *)
Definition add_column (cols : list string) (col : string) : list string :=
  if bool_decide (col ∈ cols) then cols else cols ++ [col].

(** [analyze_dataframe_comprehensive], restricted to the columns the
    scorers read. *)
Definition analyze_dataframe_comprehensive (input_columns : list string)
    (articles : list FetchedArticle) : DataFrame :=
  {| columns := fold_left add_column columns_to_add input_columns;
     rows :=
       map (fun row =>
              let combined_sentiment := analyze_text (combined_text row) in
              {| combined_sentiment_label := label combined_sentiment;
                 combined_sentiment_confidence := confidence combined_sentiment;
                 published_at := fetched_published_at row |})
           articles |}.

(** [get_sentiment_stats(df, 'combined')], the helper of
    [get_comprehensive_summary], with the entries it computes from the
    label and the confidence column.  Without the label column it returns
    an empty dictionary; on a frame without rows the percentages divide
    Python ints by zero. *)
Definition get_sentiment_stats (df : DataFrame) : result (gmap string Detail) :=
  if negb (has_column df sentiment_column) then Return ∅
  else
    let total := len df in
    let count (l : string) := value_count l df in
    if (total =? 0)%nat then Raise ZeroDivisionError
    else
      Return (
        <["combined_positive_count" := DInt (Z.of_nat (count "positive"))]> (
        <["combined_negative_count" := DInt (Z.of_nat (count "negative"))]> (
        <["combined_neutral_count" := DInt (Z.of_nat (count "neutral"))]> (
        <["combined_positive_percentage" :=
            DFloat ((Py.of_int (count "positive") / Py.of_int total) * 100)]> (
        <["combined_negative_percentage" :=
            DFloat ((Py.of_int (count "negative") / Py.of_int total) * 100)]> (
        <["combined_neutral_percentage" :=
            DFloat ((Py.of_int (count "neutral") / Py.of_int total) * 100)]> (
        <["combined_avg_confidence" :=
            DFloat (if has_column df confidence_column
                    then Py.sum (map combined_sentiment_confidence (rows df))
                         / Py.of_int total
                    else 0.0)]> ∅))))))).

(** [get_comprehensive_summary]: [earlier] is the dictionary after the
    statistics of the title and of the description were added, or the
    exception they raised; the combined statistics are added last. *)
Definition get_comprehensive_summary (earlier : result (gmap string Detail))
    (df : DataFrame) : result (gmap string Detail) :=
  summary ← earlier;
  combined ← get_sentiment_stats df;
  Return (combined ∪ summary).

End SentimentAnalyzer.

(** Texts whose pipeline scores are not negative, as the scores of a
    softmax are. *)
Definition plausible_scores (a : SentimentAnalyzer.FetchedArticle) : Prop :=
  match SentimentAnalyzer.combined_text a with
  | SentimentAnalyzer.Scored results => Forall (fun r => 0 <= r.2) results
  | _ => True
  end.

(** An article whose combined text gets the given pair of scores. *)
Definition article_scored (positive negative : Q)
    : SentimentAnalyzer.FetchedArticle :=
  {| SentimentAnalyzer.combined_text :=
       SentimentAnalyzer.Scored
         [ (SentimentAnalyzer.Negative, negative);
           (SentimentAnalyzer.Positive, positive) ];
     SentimentAnalyzer.fetched_published_at := Instant 0 |}.

(** ** [data_fetcher/news_api.py]: the pagination loop

    The loop of [fetch_company_news] (lines 50-103).  The server is a
    function from the page number to its response: the loop asks for each
    page at most once.  The loop is embedded with fuel; it is shown below
    to end within [max_articles] rounds. *)

Module NewsAPIFetcher.

Section Loop.

(** The dictionary built for one article on lines 77-87. *)
Variable ArticleData : Type.

(** An entry of [data['articles']]: one from which the dictionary is
    built, or one on which building it raises. *)
Inductive RawArticle : Type :=
  | WellFormed (article_data : ArticleData)
  | IllFormed.

Inductive Response : Type :=
  | RequestFailed   (* an exception before the articles are read *)
  | ApiError        (* data['status'] != 'ok' *)
  | Ok (articles : list RawArticle) (totalResults : Z).

(** Lines 73-90: the loop over the articles of one page.  The flag tells
    whether an entry raised. *)
Fixpoint process (max_articles : Z) (articles : list RawArticle)
    (articles_data : list ArticleData) (articles_fetched : Z)
    : list ArticleData * Z * bool :=
  match articles with
  | [] => (articles_data, articles_fetched, false)
  | article :: rest =>
      if (articles_fetched >=? max_articles)%Z then
        (articles_data, articles_fetched, false)
      else
        match article with
        | IllFormed => (articles_data, articles_fetched, true)
        | WellFormed article_data =>
            process max_articles rest (articles_data ++ [article_data])
              (articles_fetched + 1)
        end
  end.

(** Lines 54-98.  The result is the list of article dictionaries and the
    pages requested, in order; [None] when the fuel runs out. *)
Fixpoint pages (fuel : nat) (get : Z -> Response) (max_articles : Z)
    (page : Z) (articles_data : list ArticleData) (articles_fetched : Z)
    (requested : list Z) : option (list ArticleData * list Z) :=
  if (articles_fetched <? max_articles)%Z then
    match fuel with
    | O => None
    | S fuel =>
        let requested := requested ++ [page] in
        match get page with
        | RequestFailed => Some (articles_data, requested)
        | ApiError => Some (articles_data, requested)
        | Ok articles total_results =>
            if bool_decide (articles = []) then Some (articles_data, requested)
            else
              let '(articles_data, articles_fetched, raised) :=
                process max_articles articles articles_data articles_fetched in
              if raised then Some (articles_data, requested)
              else if (articles_fetched >=? total_results)%Z
                      || (Z.of_nat (length articles) <? Z.min 100 max_articles)%Z
              then Some (articles_data, requested)
              else
                pages fuel get max_articles (page + 1) articles_data
                  articles_fetched requested
        end
    end
  else Some (articles_data, requested).

(** The loop from its initial state. *)
Definition fetch (fuel : nat) (get : Z -> Response) (max_articles : Z)
    : option (list ArticleData * list Z) :=
  pages fuel get max_articles 1 [] 0 [].

Definition well_formed (article : RawArticle) : option ArticleData :=
  match article with
  | WellFormed article_data => Some article_data
  | IllFormed => None
  end.

(** The dictionaries a page would yield if all its entries were read. *)
Definition payload (get : Z -> Response) (page : Z) : list ArticleData :=
  match get page with
  | Ok articles _ => omap well_formed articles
  | _ => []
  end.

(** The page numbers [page], [page + 1], ... of [k] consecutive
    requests. *)
Definition page_numbers (page : Z) (k : nat) : list Z :=
  map (fun i => (page + Z.of_nat i)%Z) (seq 0 k).

End Loop.

Arguments WellFormed {ArticleData} article_data.
Arguments IllFormed {ArticleData}.
Arguments RequestFailed {ArticleData}.
Arguments ApiError {ArticleData}.
Arguments Ok {ArticleData} articles totalResults.
Arguments process {ArticleData} max_articles articles articles_data
  articles_fetched.
Arguments pages {ArticleData} fuel get max_articles page articles_data
  articles_fetched requested.
Arguments fetch {ArticleData} fuel get max_articles.
Arguments well_formed {ArticleData} article.
Arguments payload {ArticleData} get page.

End NewsAPIFetcher.

(** A server with [available] articles, numbered from 0, that serves
    them 100 to a page. *)
Definition paged_server (available : nat) (page : Z)
    : NewsAPIFetcher.Response nat :=
  NewsAPIFetcher.Ok
    (map NewsAPIFetcher.WellFormed
       (seq (100 * (Z.to_nat page - 1)) (Nat.min 100 (available - 100 * (Z.to_nat page - 1)))))
    (Z.of_nat available).

(** ** [app.py]: the validation of the [/analyze] endpoint

    The endpoint after the form data was read: the company name is
    stripped, the two numbers are ints.  The service is the function the
    validated values are handed to. *)

Module App.

Inductive Reply (R : Type) : Type :=
  | BadRequest            (* status 400, 'Please enter a company name' *)
  | Answer (result : R).
Arguments BadRequest {R}.
Arguments Answer {R} result.

Definition analyze {R : Type} (run_complete_analysis : string -> Z -> Z -> R)
    (company_name : string) (max_articles days_back : Z) : Reply R :=
  if bool_decide (company_name = EmptyString) then BadRequest
  else
    let max_articles :=
      if (max_articles <? 5)%Z || (100 <? max_articles)%Z then 30%Z
      else max_articles in
    let days_back :=
      if (days_back <? 1)%Z || (90 <? days_back)%Z then 30%Z
      else days_back in
    Answer (run_complete_analysis company_name max_articles days_back).

End App.

(** The entries of the breakdown the web service reports. *)
Definition breakdown_keys : list string :=
  [ "positive_count"; "negative_count"; "neutral_count";
    "positive_percentage"; "negative_percentage"; "neutral_percentage" ].

(** * Properties *)

(** ** Facts about the numeric layer *)

Module PyFacts.

Lemma ltb_lt (x y : Q) : Py.ltb x y = true <-> x < y.
Proof.
  unfold Py.ltb. rewrite Qlt_alt.
  destruct (Qcompare x y); split; intro H; try reflexivity; discriminate H.
Qed.

Lemma ltb_ge (x y : Q) : Py.ltb x y = false <-> y <= x.
Proof.
  split.
  - intro H. apply Qnot_lt_le. intro Hlt. apply ltb_lt in Hlt. congruence.
  - intro H. destruct (Py.ltb x y) eqn:E; [| reflexivity].
    apply ltb_lt in E. exfalso. exact (Qlt_not_le _ _ E H).
Qed.

Lemma gtb_gt (x y : Q) : Py.gtb x y = true <-> y < x.
Proof. apply ltb_lt. Qed.

Lemma leb_le (x y : Q) : Py.leb x y = true <-> x <= y.
Proof.
  unfold Py.leb. rewrite Qle_alt.
  destruct (Qcompare x y); split; intro H; try reflexivity;
    try discriminate H; try (intro H'; discriminate H').
  exfalso. apply H. reflexivity.
Qed.

Lemma leb_gt (x y : Q) : Py.leb x y = false <-> y < x.
Proof.
  split.
  - intro H. apply Qnot_le_lt. intro Hle. apply leb_le in Hle. congruence.
  - intro H. destruct (Py.leb x y) eqn:E; [| reflexivity].
    apply leb_le in E. exfalso. exact (Qlt_not_le _ _ H E).
Qed.

Lemma eqb_eq (x y : Q) : Py.eqb x y = true <-> x == y.
Proof.
  unfold Py.eqb. rewrite Qeq_alt.
  destruct (Qcompare x y); split; intro H; try reflexivity; discriminate H.
Qed.

Lemma min_cases (a b : Q) :
  (b < a /\ Py.min a b = b) \/ (a <= b /\ Py.min a b = a).
Proof.
  unfold Py.min. destruct (Py.ltb b a) eqn:E.
  - left. split; [apply ltb_lt; exact E | reflexivity].
  - right. split; [apply ltb_ge; exact E | reflexivity].
Qed.

Lemma min_le_l (a b : Q) : Py.min a b <= a.
Proof. destruct (min_cases a b) as [[H ->] | [H ->]]; lra. Qed.

Lemma min_le_r (a b : Q) : Py.min a b <= b.
Proof. destruct (min_cases a b) as [[H ->] | [H ->]]; lra. Qed.

Lemma min_glb (a b c : Q) : c <= a -> c <= b -> c <= Py.min a b.
Proof. intros Ha Hb. destruct (min_cases a b) as [[H ->] | [H ->]]; lra. Qed.

Lemma min_ge_l (a b : Q) : a <= b -> Py.min a b = a.
Proof.
  intro H. unfold Py.min. destruct (Py.ltb b a) eqn:E; [| reflexivity].
  apply ltb_lt in E. lra.
Qed.

(** The nearest integer never crosses an integer bound. *)
Lemma round_half_even_lower (x : Q) (n : Z) :
  inject_Z n <= x -> (n <= Py.round_half_even x)%Z.
Proof.
  intro H. apply Qfloor_resp_le in H. rewrite Qfloor_Z in H.
  unfold Py.round_half_even.
  destruct (Qcompare _ _); [destruct (Z.even _) | |]; lia.
Qed.

Lemma round_half_even_upper (x : Q) (n : Z) :
  x <= inject_Z n -> (Py.round_half_even x <= n)%Z.
Proof.
  intro H. pose proof (Qfloor_resp_le _ _ H) as Hf. rewrite Qfloor_Z in Hf.
  unfold Py.round_half_even.
  destruct (Z.eq_dec (Qfloor x) n) as [E | E].
  - assert (Hlt : x - inject_Z (Qfloor x) < 1 # 2) by (rewrite E; lra).
    destruct (Qcompare _ _) eqn:Ec; [| lia |].
    + apply Qeq_alt in Ec. lra.
    + apply Qgt_alt in Ec. lra.
  - destruct (Qcompare _ _); [destruct (Z.even _) | |]; lia.
Qed.

Lemma round_half_even_Z (n : Z) : Py.round_half_even (inject_Z n) = n.
Proof.
  apply Z.le_antisymm.
  - apply round_half_even_upper. lra.
  - apply round_half_even_lower. lra.
Qed.

Lemma round_half_even_comp (x y : Q) :
  x == y -> Py.round_half_even x = Py.round_half_even y.
Proof.
  intro H. unfold Py.round_half_even.
  rewrite (Qfloor_comp _ _ H).
  assert (E : x - inject_Z (Qfloor y) == y - inject_Z (Qfloor y))
    by (rewrite H; reflexivity).
  rewrite (Qcompare_comp _ _ E (1 # 2) (1 # 2) (Qeq_refl _)). reflexivity.
Qed.

Lemma round_comp (x y : Q) (d : nat) : x == y -> Py.round x d = Py.round y d.
Proof.
  intro H. unfold Py.round.
  set (scale := inject_Z (10 ^ Z.of_nat d)).
  rewrite (round_half_even_comp (x * scale) (y * scale)); [reflexivity |].
  rewrite H. reflexivity.
Qed.

Lemma div_1000 (y : Q) : y / 1000 == y * (1 # 1000).
Proof. field. Qed.

Lemma round3_eq (x : Q) :
  Py.round x 3 == inject_Z (Py.round_half_even (x * 1000)) / 1000.
Proof. unfold Py.round. rewrite Qred_correct. reflexivity. Qed.

(** Rounding to three decimals respects every bound that is itself a
    multiple of 1/1000. *)
Lemma round3_upper (x : Q) (n : Z) :
  x <= inject_Z n / 1000 -> Py.round x 3 <= inject_Z n / 1000.
Proof.
  intro H. rewrite round3_eq. rewrite !div_1000 in *.
  assert (Hx : x * 1000 <= inject_Z n) by lra.
  apply round_half_even_upper in Hx. rewrite Zle_Qle in Hx. lra.
Qed.

Lemma round3_lower (x : Q) (n : Z) :
  inject_Z n / 1000 <= x -> inject_Z n / 1000 <= Py.round x 3.
Proof.
  intro H. rewrite round3_eq. rewrite !div_1000 in *.
  assert (Hx : inject_Z n <= x * 1000) by lra.
  apply round_half_even_lower in Hx. rewrite Zle_Qle in Hx. lra.
Qed.

(** A value with at most three decimals is left as it is. *)
Lemma round3_exact (x : Q) (n : Z) :
  x == inject_Z n / 1000 -> Py.round x 3 == x.
Proof.
  intro H. rewrite round3_eq.
  rewrite (round_half_even_comp (x * 1000) (inject_Z n)) by (rewrite H; field).
  rewrite round_half_even_Z. rewrite H. reflexivity.
Qed.

Lemma round3_decimal (x : Q) : exists n : Z, Py.round x 3 == inject_Z n / 1000.
Proof. eexists. apply round3_eq. Qed.

Lemma of_int_nonneg (n : nat) : 0 <= Py.of_int n.
Proof. unfold Py.of_int. rewrite <- (Zle_Qle 0). lia. Qed.

Lemma of_int_pos (n : nat) : (0 < n)%nat -> 0 < Py.of_int n.
Proof. intro H. unfold Py.of_int. rewrite <- (Zlt_Qlt 0). lia. Qed.

Lemma div_nonneg (x y : Q) : 0 <= x -> 0 <= y -> 0 <= x / y.
Proof.
  intros Hx Hy. unfold Qdiv. apply Qmult_le_0_compat; [exact Hx |].
  apply Qinv_le_0_compat. exact Hy.
Qed.

Lemma div_pos (x y : Q) : 0 < x -> 0 < y -> 0 < x / y.
Proof.
  intros Hx Hy. apply Qlt_shift_div_l; [exact Hy | lra].
Qed.

Lemma div_mul (x y : Q) : 0 < y -> (x / y) * y == x.
Proof. intro H. field. lra. Qed.

Lemma div_lt_inv (x y c : Q) : 0 < y -> x / y < c -> x < c * y.
Proof.
  intros Hy H. pose proof (div_mul x y Hy) as E. revert H E.
  generalize (x / y). intros q H E. nra.
Qed.

(** [n / p < c] bounds the inverse ratio [p / n] from below. *)
Lemma inverse_ratio_above_half (p n : Q) :
  0 < p -> 0 < n -> n / p < 2 -> 1 # 2 < p / n.
Proof.
  intros Hp Hn H. apply div_lt_inv in H; [| exact Hp].
  apply Qlt_shift_div_l; [exact Hn | lra].
Qed.

End PyFacts.

(** ** The shape of the scorers' results *)

Section Shapes.

Variable self : TradingSignalGenerator.
Variable now : Z.
Variable df : DataFrame.

Lemma basic_raises_without_labels :
  has_column df sentiment_column = false ->
  generate_basic_signal self now df = Raise (ValueError sentiment_column).
Proof. intro H. unfold generate_basic_signal. rewrite H. reflexivity. Qed.

Lemma basic_insufficient :
  has_column df sentiment_column = true ->
  (Z.of_nat (len df) < min_articles self)%Z ->
  generate_basic_signal self now df = Return (insufficient self df).
Proof.
  intros Hc Hlen. unfold generate_basic_signal. rewrite Hc. simpl.
  apply Z.ltb_lt in Hlen. rewrite Hlen. reflexivity.
Qed.

Lemma basic_sufficient :
  has_column df sentiment_column = true ->
  (min_articles self <= Z.of_nat (len df))%Z ->
  (0 < len df)%nat ->
  generate_basic_signal self now df = Return (scored_basic self now df).
Proof.
  intros Hc Hlen Hpos. unfold generate_basic_signal, scored_basic.
  rewrite Hc. simpl.
  apply Z.ltb_ge in Hlen. rewrite Hlen.
  destruct (Nat.eqb_spec (len df) 0) as [E | _]; [lia |].
  destruct (basic_decision _ _ _ _) as [[s re] c]. reflexivity.
Qed.

Lemma basic_cases (r : SignalResult) :
  generate_basic_signal self now df = Return r ->
  has_column df sentiment_column = true /\
  (((Z.of_nat (len df) < min_articles self)%Z /\ r = insufficient self df) \/
   ((min_articles self <= Z.of_nat (len df))%Z /\ (0 < len df)%nat /\
    r = scored_basic self now df)).
Proof.
  intro H.
  destruct (has_column df sentiment_column) eqn:Hc;
    [| rewrite basic_raises_without_labels in H by exact Hc; discriminate H].
  split; [reflexivity |].
  destruct (Z.lt_ge_cases (Z.of_nat (len df)) (min_articles self)) as [Hlt | Hge].
  - left. rewrite basic_insufficient in H by assumption.
    split; [exact Hlt | congruence].
  - right. destruct (Nat.eq_dec (len df) 0%nat) as [E | E].
    + exfalso. revert H. unfold generate_basic_signal. rewrite Hc. simpl.
      apply Z.ltb_ge in Hge. rewrite Hge. rewrite E. simpl. discriminate.
    + assert (Hpos : (0 < len df)%nat) by lia.
      rewrite basic_sufficient in H by assumption.
      repeat split; [exact Hge | exact Hpos | congruence].
Qed.

Lemma weighted_cases (r : SignalResult) :
  generate_weighted_signal self now df = Return r ->
  exists b, generate_basic_signal self now df = Return b /\
    (r = b \/
     (has_column df confidence_column = true /\
      signal b <> INSUFFICIENT_DATA /\
      ~ (total_weight df == 0) /\
      r = scored_weighted self now df b)).
Proof.
  unfold generate_weighted_signal.
  destruct (has_column df confidence_column) eqn:Hc; simpl.
  - destruct (generate_basic_signal self now df) as [b | e] eqn:Hb;
      simpl; [| discriminate].
    case_bool_decide as Hs.
    + intros [= <-]. exists b. split; [reflexivity | left; reflexivity].
    + fold (total_weight df).
      destruct (Py.eqb (total_weight df) 0) eqn:Ht.
      * intros [= <-]. exists b. split; [reflexivity | left; reflexivity].
      * fold (weighted_pct "positive" df) (weighted_pct "negative" df)
          (weighted_pct "neutral" df).
        destruct (weighted_decision _ _ _ _) as [[s re] c] eqn:Hd.
        intros [= <-]. exists b. split; [reflexivity | right].
        repeat split; [exact Hs | |].
        -- intro Hz. apply PyFacts.eqb_eq in Hz. congruence.
        -- unfold scored_weighted. rewrite Hd. reflexivity.
  - intro H. exists r. split; [exact H | left; reflexivity].
Qed.

Lemma time_cases (recent_days : Z) (r : SignalResult) :
  generate_time_weighted_signal self now df recent_days = Return r ->
  exists w, generate_weighted_signal self now df = Return w /\
    (r = w \/
     (has_column df date_column = true /\
      has_column df sentiment_column = true /\
      (Malformed ∉ map published_at (rows df)) /\
      ~ (total_time_weight now recent_days df == 0) /\
      r = scored_time self now df recent_days w)).
Proof.
  unfold generate_time_weighted_signal.
  destruct (has_column df date_column) eqn:Hd; simpl;
    [| intro H; exists r; split; [exact H | left; reflexivity]].
  unfold _normalize_datetime_columns.
  case_bool_decide as Hm;
    [intro H; exists r; split; [exact H | left; reflexivity] |].
  destruct (has_column df sentiment_column) eqn:Hc; simpl; [| discriminate].
  destruct (generate_weighted_signal self now df) as [w | e] eqn:Hw;
    simpl; [| discriminate].
  fold (total_time_weight now recent_days df).
  destruct (Py.eqb (total_time_weight now recent_days df) 0) eqn:Ht.
  - intros [= <-]. exists w. split; [reflexivity | left; reflexivity].
  - fold (time_pct now recent_days "positive" df)
      (time_pct now recent_days "negative" df).
    destruct (time_decision _ _ _ _ _ _) as [[s re] c] eqn:Hdec.
    intros [= <-]. exists w. split; [reflexivity | right].
    repeat split; [exact Hm | |].
    + intro Hz. apply PyFacts.eqb_eq in Hz. congruence.
    + unfold scored_time. rewrite Hdec. reflexivity.
Qed.

End Shapes.

(** ** Signals and confidences of the three decisions *)

Section Decisions.

Variable self : TradingSignalGenerator.

Lemma basic_decision_signal (p n t : nat) :
  let s := (basic_decision self p n t).1.1 in
  s = BUY \/ s = SELL \/ s = HOLD.
Proof.
  unfold basic_decision.
  repeat match goal with
         | |- context [if ?c then _ else _] => destruct c
         end; simpl; auto.
Qed.

Lemma basic_decision_upper (p n t : nat) :
  (basic_decision self p n t).2 <= 0.9.
Proof.
  unfold basic_decision.
  repeat match goal with
         | |- context [if ?c then _ else _] => destruct c
         end; cbn [fst snd]; try apply PyFacts.min_le_l; [| lra].
  match goal with
  | |- context [Qabs ?x] =>
      pose proof (Qabs_nonneg x) as H; revert H; generalize (Qabs x)
  end.
  intros a H. lra.
Qed.

Lemma basic_decision_lower (p n t : nat) :
  0 < positive_threshold self -> positive_threshold self <= 6 ->
  0 < negative_threshold self ->
  0 <= (basic_decision self p n t).2.
Proof.
  intros Hp Hp6 Hn. unfold basic_decision.
  destruct ((n =? 0) && (0 <? p))%nat. all: cbn [fst snd].
  { apply PyFacts.min_glb; [lra |].
    pose proof (PyFacts.div_nonneg _ _ (PyFacts.of_int_nonneg p)
                  (PyFacts.of_int_nonneg t)) as H.
    revert H. generalize (Py.of_int p / Py.of_int t). intros q H. lra. }
  destruct ((p =? 0) && (0 <? n))%nat. all: cbn [fst snd].
  { apply PyFacts.min_glb; [lra |].
    pose proof (PyFacts.div_nonneg _ _ (PyFacts.of_int_nonneg n)
                  (PyFacts.of_int_nonneg t)) as H.
    revert H. generalize (Py.of_int n / Py.of_int t). intros q H. lra. }
  destruct ((0 <? p) && (0 <? n))%nat. all: cbn [fst snd]. 2: lra.
  pose proof (PyFacts.div_nonneg _ _ (PyFacts.of_int_nonneg p)
                (PyFacts.of_int_nonneg n)) as Hr.
  pose proof (PyFacts.div_nonneg _ _ (PyFacts.of_int_nonneg n)
                (PyFacts.of_int_nonneg p)) as Hr'.
  revert Hr Hr'.
  generalize (Py.of_int p / Py.of_int n), (Py.of_int n / Py.of_int p).
  intros r r' Hr Hr'.
  destruct (Py.leb (positive_threshold self) r) eqn:E1. all: cbn [fst snd].
  { apply PyFacts.min_glb; [lra |].
    assert (H : 0 <= r / positive_threshold self)
      by (apply PyFacts.div_nonneg; lra).
    revert H. generalize (r / positive_threshold self). intros q H. lra. }
  destruct (Py.leb (negative_threshold self) r') eqn:E2. all: cbn [fst snd].
  { apply PyFacts.min_glb; [lra |].
    assert (H : 0 <= r' / negative_threshold self)
      by (apply PyFacts.div_nonneg; lra).
    revert H. generalize (r' / negative_threshold self). intros q H. lra. }
  apply PyFacts.leb_gt in E1.
  assert (Ha : Qabs (r - 1.0) <= 5) by (apply Qabs_Qle_condition; split; lra).
  revert Ha. generalize (Qabs (r - 1.0)). intros a Ha. lra.
Qed.

Lemma weighted_decision_signal (b : SignalResult) (wp wn : Q) :
  let s := (weighted_decision self b wp wn).1.1 in
  s = BUY \/ s = SELL \/ s = signal b.
Proof.
  unfold weighted_decision.
  repeat match goal with
         | |- context [if ?c then _ else _] => destruct c
         | |- context [bool_decide ?P] => destruct (bool_decide_reflect P)
         end; simpl; auto.
Qed.

Lemma weighted_decision_upper (b : SignalResult) (wp wn : Q) :
  confidence b <= 0.95 -> (weighted_decision self b wp wn).2 <= 0.95.
Proof.
  intro H. unfold weighted_decision.
  repeat match goal with
         | |- context [if ?c then _ else _] => destruct c
         end; simpl; try apply PyFacts.min_le_l; exact H.
Qed.

Lemma weighted_decision_lower (b : SignalResult) (wp wn : Q) :
  0 <= confidence_weight self ->
  0 <= confidence b -> 0 <= (weighted_decision self b wp wn).2.
Proof.
  intros Hw H. unfold weighted_decision.
  repeat match goal with
         | |- context [if ?c then _ else _] => destruct c
         end; simpl; try (apply PyFacts.min_glb; lra); exact H.
Qed.

Lemma time_decision_signal (w : SignalResult) (tp tn pp pn : Q) :
  let s := (time_decision self w tp tn pp pn).1.1 in
  s = BUY \/ s = SELL \/ s = signal w.
Proof.
  unfold time_decision.
  repeat match goal with
         | |- context [if ?c then _ else _] => destruct c
         end; simpl; auto.
Qed.

Lemma time_decision_upper (w : SignalResult) (tp tn pp pn : Q) :
  confidence w <= 0.95 -> (time_decision self w tp tn pp pn).2 <= 0.95.
Proof.
  intro H. unfold time_decision.
  repeat match goal with
         | |- context [if ?c then _ else _] => destruct c
         end; simpl; try apply PyFacts.min_le_l; exact H.
Qed.

Lemma time_decision_lower (w : SignalResult) (tp tn pp pn : Q) :
  0 <= confidence w -> 0 <= (time_decision self w tp tn pp pn).2.
Proof.
  intro H. unfold time_decision.
  repeat match goal with
         | |- context [if ?c then _ else _] => destruct c
         end; simpl; try (apply PyFacts.min_glb; lra); exact H.
Qed.

(** A stage that keeps INSUFFICIENT_DATA keeps the confidence of its
    base. *)
Lemma time_decision_insufficient (w : SignalResult) (tp tn pp pn : Q) :
  (time_decision self w tp tn pp pn).1.1 = INSUFFICIENT_DATA ->
  (time_decision self w tp tn pp pn).2 = confidence w.
Proof.
  unfold time_decision.
  repeat match goal with
         | |- context [if ?c then _ else _] => destruct c
         end; simpl; try discriminate; reflexivity.
Qed.

End Decisions.

Lemma round3_le_095 (x : Q) : x <= 0.95 -> Py.round x 3 <= 0.95.
Proof.
  intro H. assert (E : 0.95 == inject_Z 950 / 1000) by reflexivity.
  rewrite E in *. apply PyFacts.round3_upper. exact H.
Qed.

Lemma round3_ge_0 (x : Q) : 0 <= x -> 0 <= Py.round x 3.
Proof.
  intro H. assert (E : 0 == inject_Z 0 / 1000) by reflexivity.
  rewrite E in *. apply PyFacts.round3_lower. exact H.
Qed.

(** ** Confidence bounds of the three scorers *)

Section Bounds.

Variable self : TradingSignalGenerator.
Variable now : Z.
Variable df : DataFrame.

Lemma basic_upper (r : SignalResult) :
  generate_basic_signal self now df = Return r -> confidence r <= 0.9.
Proof.
  intro H. apply basic_cases in H as [_ [[_ ->] | (_ & _ & ->)]].
  - simpl. lra.
  - simpl. assert (E : 0.9 == inject_Z 900 / 1000) by reflexivity.
    rewrite E. apply PyFacts.round3_upper. rewrite <- E.
    apply basic_decision_upper.
Qed.

Lemma basic_lower (r : SignalResult) :
  sane_configuration self ->
  generate_basic_signal self now df = Return r -> 0 <= confidence r.
Proof.
  intros (Hp & Hp6 & Hn & _) H.
  apply basic_cases in H as [_ [[_ ->] | (_ & _ & ->)]].
  - simpl. lra.
  - simpl. apply round3_ge_0. apply basic_decision_lower; assumption.
Qed.

Lemma weighted_upper (r : SignalResult) :
  generate_weighted_signal self now df = Return r -> confidence r <= 0.95.
Proof.
  intro H. apply weighted_cases in H as (b & Hb & [-> | (_ & _ & _ & ->)]);
    apply basic_upper in Hb.
  - lra.
  - simpl. apply round3_le_095. apply weighted_decision_upper. lra.
Qed.

Lemma weighted_lower (r : SignalResult) :
  sane_configuration self ->
  generate_weighted_signal self now df = Return r -> 0 <= confidence r.
Proof.
  intros Hs H.
  apply weighted_cases in H as (b & Hb & [-> | (_ & _ & _ & ->)]);
    apply (basic_lower _ Hs) in Hb.
  - exact Hb.
  - simpl. apply round3_ge_0. apply weighted_decision_lower; [apply Hs | exact Hb].
Qed.

Lemma time_upper (recent_days : Z) (r : SignalResult) :
  generate_time_weighted_signal self now df recent_days = Return r ->
  confidence r <= 0.95.
Proof.
  intro H. apply time_cases in H as (w & Hw & [-> | (_ & _ & _ & _ & ->)]);
    apply weighted_upper in Hw.
  - exact Hw.
  - simpl. apply round3_le_095. apply time_decision_upper. exact Hw.
Qed.

Lemma time_lower (recent_days : Z) (r : SignalResult) :
  sane_configuration self ->
  generate_time_weighted_signal self now df recent_days = Return r ->
  0 <= confidence r.
Proof.
  intros Hs H.
  apply time_cases in H as (w & Hw & [-> | (_ & _ & _ & _ & ->)]);
    apply (weighted_lower _ Hs) in Hw.
  - exact Hw.
  - simpl. apply round3_ge_0. apply time_decision_lower. exact Hw.
Qed.

(** Every confidence returned has at most three decimals. *)
Lemma basic_decimal (r : SignalResult) :
  generate_basic_signal self now df = Return r ->
  exists n : Z, confidence r == inject_Z n / 1000.
Proof.
  intro H. apply basic_cases in H as [_ [[_ ->] | (_ & _ & ->)]].
  - exists 0%Z. reflexivity.
  - apply PyFacts.round3_decimal.
Qed.

Lemma weighted_decimal (r : SignalResult) :
  generate_weighted_signal self now df = Return r ->
  exists n : Z, confidence r == inject_Z n / 1000.
Proof.
  intro H. apply weighted_cases in H as (b & Hb & [-> | (_ & _ & _ & ->)]).
  - eapply basic_decimal. exact Hb.
  - apply PyFacts.round3_decimal.
Qed.

Lemma time_decimal (recent_days : Z) (r : SignalResult) :
  generate_time_weighted_signal self now df recent_days = Return r ->
  exists n : Z, confidence r == inject_Z n / 1000.
Proof.
  intro H. apply time_cases in H as (w & Hw & [-> | (_ & _ & _ & _ & ->)]).
  - eapply weighted_decimal. exact Hw.
  - apply PyFacts.round3_decimal.
Qed.

(** The two stages with an insufficient-data guard keep the
    short-circuit result. *)
Lemma basic_insufficient_signal (r : SignalResult) :
  generate_basic_signal self now df = Return r ->
  signal r = INSUFFICIENT_DATA ->
  r = insufficient self df.
Proof.
  intros H Hs. apply basic_cases in H as [_ [[_ ->] | (_ & _ & ->)]];
    [reflexivity |].
  exfalso. simpl in Hs.
  destruct (basic_decision_signal self (value_count "positive" df)
              (value_count "negative" df) (len df)) as [E | [E | E]];
    simpl in E; congruence.
Qed.

Lemma weighted_insufficient_signal (r : SignalResult) :
  generate_weighted_signal self now df = Return r ->
  signal r = INSUFFICIENT_DATA ->
  r = insufficient self df.
Proof.
  intros H Hs. apply weighted_cases in H as (b & Hb & [-> | (_ & Hn & _ & ->)]).
  - eapply basic_insufficient_signal; eassumption.
  - exfalso. simpl in Hs.
    destruct (weighted_decision_signal self b (weighted_pct "positive" df)
                (weighted_pct "negative" df)) as [E | [E | E]];
      simpl in E; congruence.
Qed.

(** The time-weighted stage may keep the INSUFFICIENT_DATA signal, and
    then the confidence is still zero. *)
Lemma time_insufficient_confidence (recent_days : Z) (r : SignalResult) :
  generate_time_weighted_signal self now df recent_days = Return r ->
  signal r = INSUFFICIENT_DATA ->
  confidence r == 0.
Proof.
  intros H Hs.
  apply time_cases in H as (w & Hw & [-> | (_ & _ & _ & _ & ->)]).
  - rewrite (weighted_insufficient_signal _ Hw Hs). reflexivity.
  - simpl in Hs. simpl.
    rewrite (time_decision_insufficient _ _ _ _ _ _ Hs).
    assert (Hw' : signal w = INSUFFICIENT_DATA).
    { destruct (time_decision_signal self w
                  (time_weighted now recent_days "positive" df)
                  (time_weighted now recent_days "negative" df)
                  (time_pct now recent_days "positive" df)
                  (time_pct now recent_days "negative" df)) as [E | [E | E]];
        simpl in E; congruence. }
    rewrite (weighted_insufficient_signal _ Hw Hw'). reflexivity.
Qed.

End Bounds.

(** ** The insufficient-data short-circuit *)

(** On an undersized batch whose label column is present, the basic and
    the confidence-weighted scorer return the short-circuit result:
    INSUFFICIENT_DATA with confidence 0.0, whatever the labels are. *)
Lemma basic_weighted_short_circuit (self : TradingSignalGenerator) (now : Z)
    (df : DataFrame) :
  has_column df sentiment_column = true ->
  (Z.of_nat (len df) < min_articles self)%Z ->
  generate_basic_signal self now df = Return (insufficient self df) /\
  generate_weighted_signal self now df = Return (insufficient self df) /\
  signal (insufficient self df) = INSUFFICIENT_DATA /\
  confidence (insufficient self df) == 0.
Proof.
  intros Hc Hlen.
  pose proof (basic_insufficient self now df Hc Hlen) as Hb.
  repeat split; [exact Hb |].
  unfold generate_weighted_signal. rewrite Hb.
  destruct (has_column df confidence_column); reflexivity.
Qed.

(** The time-weighted scorer does not stop there: on an undersized batch
    with well-formed dates whose time-weighted positive sum exceeds the
    negative one times the BUY threshold, it returns BUY with confidence
    min(0.95, 0.0 + 0.1) = 0.1. *)
Lemma time_weighted_has_no_guard (self : TradingSignalGenerator) (now : Z)
    (df : DataFrame) (recent_days : Z) :
  has_column df sentiment_column = true ->
  has_column df date_column = true ->
  Malformed ∉ map published_at (rows df) ->
  (Z.of_nat (len df) < min_articles self)%Z ->
  ~ (total_time_weight now recent_days df == 0) ->
  time_weighted now recent_days "negative" df * positive_threshold self
  < time_weighted now recent_days "positive" df ->
  exists r,
    generate_time_weighted_signal self now df recent_days = Return r /\
    signal r = BUY /\ confidence r == 0.1.
Proof.
  intros Hc Hd Hm Hlen Ht Hbuy.
  destruct (basic_weighted_short_circuit self now df Hc Hlen) as (_ & Hw & _).
  exists (scored_time self now df recent_days (insufficient self df)).
  split.
  - unfold generate_time_weighted_signal. rewrite Hd. simpl.
    unfold _normalize_datetime_columns.
    rewrite bool_decide_eq_false_2 by exact Hm.
    rewrite Hc, Hw. simpl.
    fold (total_time_weight now recent_days df).
    destruct (Py.eqb (total_time_weight now recent_days df) 0) eqn:E;
      [apply PyFacts.eqb_eq in E; contradiction |].
    fold (time_pct now recent_days "positive" df)
      (time_pct now recent_days "negative" df).
    unfold scored_time.
    destruct (time_decision _ _ _ _ _ _) as [[s re] c]. reflexivity.
  - unfold scored_time, time_decision.
    apply PyFacts.gtb_gt in Hbuy. rewrite Hbuy. split; reflexivity.
Qed.

(** C1 (code defect): the time-weighted scorer has no insufficient-data
    guard.  On a batch of one positive article (fewer than the 5 articles
    required by default) that carries all three columns, the basic and the
    weighted scorer return INSUFFICIENT_DATA with confidence 0.0, and the
    time-weighted scorer overrides that result with BUY at confidence
    0.1. *)
Theorem time_weighted_overrides_insufficient_data :
  let df := scenario 1 0 0 in
  (Z.of_nat (len df) < min_articles default_generator)%Z /\
  generate_basic_signal default_generator 0 df
    = Return (insufficient default_generator df) /\
  generate_weighted_signal default_generator 0 df
    = Return (insufficient default_generator df) /\
  exists r,
    generate_time_weighted_signal default_generator 0 df 7 = Return r /\
    signal r = BUY /\ confidence r == 0.1 /\
    reason r = TimeFavorsBuy (time_pct 0 7 "positive" df).
Proof.
  cbv zeta. split; [vm_compute; reflexivity |].
  split; [vm_compute; reflexivity |].
  split; [vm_compute; reflexivity |].
  eexists. split; [vm_compute; reflexivity |].
  repeat split; vm_compute; reflexivity.
Qed.

(** ** The consensus vote *)

(** C2: over three stage signals the consensus is BUY exactly when at
    least two votes are BUY, SELL exactly when that fails and at least two
    votes are SELL, and HOLD otherwise; (BUY, BUY, SELL) gives BUY and
    (BUY, SELL, HOLD) gives HOLD; an INSUFFICIENT_DATA vote counts like any
    other vote that is neither BUY nor SELL: replacing it by HOLD never
    changes the outcome. *)
Theorem consensus_majority (b w t : Signal) :
  let votes := [b; w; t] in
  (WebApp.consensus votes = BUY <-> (2 <= WebApp.count votes BUY)%nat) /\
  (WebApp.consensus votes = SELL <->
     (~ (2 <= WebApp.count votes BUY)%nat /\ (2 <= WebApp.count votes SELL)%nat)) /\
  (WebApp.consensus votes = HOLD <->
     (~ (2 <= WebApp.count votes BUY)%nat /\ ~ (2 <= WebApp.count votes SELL)%nat)) /\
  WebApp.consensus [BUY; BUY; SELL] = BUY /\
  WebApp.consensus [BUY; SELL; HOLD] = HOLD /\
  WebApp.consensus
    (map (fun s => if decide (s = INSUFFICIENT_DATA) then HOLD else s) votes)
  = WebApp.consensus votes.
Proof.
  destruct b, w, t; vm_compute;
    repeat split; intros; try reflexivity; try discriminate; try lia.
Qed.

(** ** The range of the confidence *)

(** C3, as stated, fails: with a BUY threshold of 10 (the other arguments
    at their defaults), a batch of 8 positive and 1 negative articles is
    a mixed HOLD whose confidence is 0.5 - |8 - 1| * 0.1 = -0.2, below the
    claimed interval [0, 0.95]. *)
Lemma confidence_below_zero :
  exists r,
    generate_basic_signal (with_positive_threshold 10) 0 (scenario 8 1 0)
      = Return r /\
    signal r = HOLD /\ confidence r == -0.2 /\
    ~ (0 <= confidence r /\ confidence r <= 0.95).
Proof.
  eexists. split; [vm_compute; reflexivity |].
  split; [reflexivity |]. split; [reflexivity |].
  intros [H _]. vm_compute in H. apply H. reflexivity.
Qed.

(** C3, amended: for every batch and every configuration the confidence
    returned by any of the three scorers is a number of at most three
    decimals that is at most 0.95, and each weighted or time-weighted bump
    is capped at 0.95; the confidence is at least 0 for every
    configuration with 0 < positiveThreshold <= 6, negativeThreshold > 0
    and confidenceWeight >= 0, the default configuration among them. *)
Theorem confidence_range (self : TradingSignalGenerator) (now : Z)
    (df : DataFrame) (recent_days : Z) (r : SignalResult) :
  generate_basic_signal self now df = Return r \/
  generate_weighted_signal self now df = Return r \/
  generate_time_weighted_signal self now df recent_days = Return r ->
  (confidence r <= 0.95 /\ exists n : Z, confidence r == inject_Z n / 1000) /\
  (sane_configuration self -> 0 <= confidence r) /\
  sane_configuration default_generator /\
  (forall b wp wn, confidence b <= 0.95 ->
     (weighted_decision self b wp wn).2 <= 0.95) /\
  (forall w tp tn pp pn, confidence w <= 0.95 ->
     (time_decision self w tp tn pp pn).2 <= 0.95).
Proof.
  intro H. split; [split | split; [| split; [| split]]].
  - destruct H as [H | [H | H]].
    + apply basic_upper in H. lra.
    + eapply weighted_upper; eassumption.
    + eapply time_upper; eassumption.
  - destruct H as [H | [H | H]].
    + eapply basic_decimal; eassumption.
    + eapply weighted_decimal; eassumption.
    + eapply time_decimal; eassumption.
  - intro Hs. destruct H as [H | [H | H]].
    + eapply basic_lower; eassumption.
    + eapply weighted_lower; eassumption.
    + eapply time_lower; eassumption.
  - unfold sane_configuration. simpl. lra.
  - apply weighted_decision_upper.
  - apply time_decision_upper.
Qed.

(** The bounds of C3 on the three chained results of a batch of 8
    positive, 7 negative and 5 neutral articles. *)
Lemma confidence_range_witness :
  let df := test_frame 8 7 5 0.9 0.1 0.5 in
  let r := scored_time default_generator 0 df 7
             (scored_weighted default_generator 0 df
                (scored_basic default_generator 0 df)) in
  generate_time_weighted_signal default_generator 0 df 7 = Return r /\
  confidence r <= 0.95 /\ 0 <= confidence r.
Proof.
  cbv zeta.
  assert (E : generate_time_weighted_signal default_generator 0
                (test_frame 8 7 5 0.9 0.1 0.5) 7
              = Return (scored_time default_generator 0
                          (test_frame 8 7 5 0.9 0.1 0.5) 7
                          (scored_weighted default_generator 0
                             (test_frame 8 7 5 0.9 0.1 0.5)
                             (scored_basic default_generator 0
                                (test_frame 8 7 5 0.9 0.1 0.5)))))
    by (vm_compute; reflexivity).
  split; [exact E |].
  destruct (confidence_range default_generator 0
              (test_frame 8 7 5 0.9 0.1 0.5) 7 _ (or_intror (or_intror E)))
    as ((Hu & _) & Hl & Hs & _).
  split; [exact Hu | exact (Hl Hs)].
Defined.

(** ** The branches of the basic decision *)

Lemma value_count_le_len (l : string) (df : DataFrame) :
  (value_count l df <= len df)%nat.
Proof. unfold value_count, with_label, len. apply length_filter. Qed.

Lemma basic_decision_no_negative (self : TradingSignalGenerator) (p t : nat) :
  (0 < p)%nat ->
  basic_decision self p 0 t
  = (BUY, NoNegative p,
     Py.min 0.9 (0.7 + (Py.of_int p / Py.of_int t) * 0.2)).
Proof.
  intro Hp. unfold basic_decision.
  apply Nat.ltb_lt in Hp. rewrite Hp. reflexivity.
Qed.

Lemma basic_decision_both (self : TradingSignalGenerator) (p n t : nat) :
  (0 < p)%nat -> (0 < n)%nat ->
  basic_decision self p n t
  = let positive_ratio := Py.of_int p / Py.of_int n in
    let negative_ratio := Py.of_int n / Py.of_int p in
    if Py.leb (positive_threshold self) positive_ratio then
      (BUY, PositiveDominates p positive_ratio n,
       Py.min 0.9 (0.6 + (positive_ratio / positive_threshold self) * 0.3))
    else if Py.leb (negative_threshold self) negative_ratio then
      (SELL, NegativeDominates n negative_ratio p,
       Py.min 0.9 (0.6 + (negative_ratio / negative_threshold self) * 0.3))
    else
      (HOLD, Mixed p n positive_ratio,
       0.5 - Qabs (positive_ratio - 1.0) * 0.1).
Proof.
  intros Hp Hn. unfold basic_decision.
  destruct p as [| p]; [lia |]. destruct n as [| n]; [lia |]. reflexivity.
Qed.

(** C4, as stated, fails on the open end of the interval: with 1
    positive and 400 neutral articles the unrounded confidence is
    0.7 + (1/401) * 0.2 = 0.70049..., and the confidence returned, rounded
    to three decimals, is 0.7, which is not in (0.7, 0.9]. *)
Lemma rounded_confidence_can_equal_lower_end :
  let df := scenario 1 0 400 in
  (min_articles default_generator <= Z.of_nat (len df))%Z /\
  value_count "positive" df = 1%nat /\ value_count "negative" df = 0%nat /\
  exists r,
    generate_basic_signal default_generator 0 df = Return r /\
    signal r = BUY /\
    confidence r = Py.round (Py.min 0.9 (0.7 + (Py.of_int 1 / Py.of_int 401) * 0.2)) 3 /\
    confidence r == 0.7 /\
    ~ (0.7 < confidence r /\ confidence r <= 0.9).
Proof.
  cbv zeta. split; [vm_compute; discriminate |].
  split; [vm_compute; reflexivity |]. split; [vm_compute; reflexivity |].
  eexists. split; [vm_compute; reflexivity |].
  split; [reflexivity |]. split; [vm_compute; reflexivity |].
  split; [reflexivity |].
  intros [H _]. vm_compute in H. discriminate H.
Qed.

(** C4, amended: for every batch with at least minArticles observations,
    at least one positive label and no negative label,
    generate_basic_signal returns BUY with confidence equal to
    min(0.9, 0.7 + (positive/total) * 0.2) rounded to 3 decimals; the
    unrounded value lies in (0.7, 0.9] and the confidence returned lies in
    the closed interval [0.7, 0.9]. *)
Theorem basic_buy_without_negatives (self : TradingSignalGenerator) (now : Z)
    (df : DataFrame) :
  has_column df sentiment_column = true ->
  (min_articles self <= Z.of_nat (len df))%Z ->
  (0 < value_count "positive" df)%nat ->
  value_count "negative" df = 0%nat ->
  let raw :=
    Py.min 0.9
      (0.7 + (Py.of_int (value_count "positive" df) / Py.of_int (len df)) * 0.2) in
  exists r,
    generate_basic_signal self now df = Return r /\
    signal r = BUY /\
    confidence r = Py.round raw 3 /\
    (0.7 < raw /\ raw <= 0.9) /\
    (0.7 <= confidence r /\ confidence r <= 0.9).
Proof.
  intros Hc Hlen Hp Hn raw.
  pose proof (value_count_le_len "positive" df) as Hle.
  assert (Hpos : (0 < len df)%nat) by lia.
  exists (scored_basic self now df).
  split; [apply basic_sufficient; assumption |].
  unfold scored_basic. rewrite Hn.
  rewrite (basic_decision_no_negative self _ (len df) Hp). cbn [fst snd signal confidence].
  fold raw.
  assert (Hraw : 0.7 < raw /\ raw <= 0.9).
  { unfold raw.
    assert (Hq : 0 < Py.of_int (value_count "positive" df) / Py.of_int (len df))
      by (apply PyFacts.div_pos; apply PyFacts.of_int_pos; assumption).
    revert Hq. generalize (Py.of_int (value_count "positive" df) / Py.of_int (len df)).
    intros q Hq. split; [| apply PyFacts.min_le_l].
    destruct (PyFacts.min_cases 0.9 (0.7 + q * 0.2)) as [[_ ->] | [_ ->]]; lra. }
  split; [reflexivity |]. split; [reflexivity |]. split; [exact Hraw |].
  assert (E7 : 0.7 == inject_Z 700 / 1000) by reflexivity.
  assert (E9 : 0.9 == inject_Z 900 / 1000) by reflexivity.
  split.
  - rewrite E7. apply PyFacts.round3_lower. rewrite <- E7. lra.
  - rewrite E9. apply PyFacts.round3_upper. rewrite <- E9. lra.
Qed.

(** C4 on a batch of 5 positive articles and 1 neutral one. *)
Lemma basic_buy_without_negatives_witness :
  let df := scenario 5 0 1 in
  has_column df sentiment_column = true /\
  (min_articles default_generator <= Z.of_nat (len df))%Z /\
  (0 < value_count "positive" df)%nat /\
  value_count "negative" df = 0%nat /\
  exists r,
    generate_basic_signal default_generator 0 df = Return r /\
    signal r = BUY /\
    (0.7 <= confidence r /\ confidence r <= 0.9).
Proof.
  cbv zeta.
  assert (H1 : has_column (scenario 5 0 1) sentiment_column = true)
    by (vm_compute; reflexivity).
  assert (H2 : (min_articles default_generator <= Z.of_nat (len (scenario 5 0 1)))%Z)
    by (vm_compute; discriminate).
  assert (H3 : (0 < value_count "positive" (scenario 5 0 1))%nat)
    by (vm_compute; lia).
  assert (H4 : value_count "negative" (scenario 5 0 1) = 0%nat)
    by (vm_compute; reflexivity).
  repeat (split; [assumption |]).
  destruct (basic_buy_without_negatives default_generator 0 (scenario 5 0 1)
              H1 H2 H3 H4) as (r & Hr & Hs & _ & _ & Hb).
  exists r. split; [exact Hr |]. split; [exact Hs | exact Hb].
Defined.

(** C6: for every batch with at least minArticles observations, both
    counts nonzero and positive/negative at least the (positive) BUY
    threshold, generate_basic_signal returns BUY; its confidence is
    min(0.9, 0.6 + (posRatio / positiveThreshold) * 0.3), a value that is
    always 0.9 and that the rounding to three decimals leaves as it is.  In
    particular 15 positive / 3 negative / 2 neutral articles under the
    default threshold give BUY with confidence 0.9. *)
Theorem basic_buy_on_ratio (self : TradingSignalGenerator) (now : Z)
    (df : DataFrame) :
  has_column df sentiment_column = true ->
  (min_articles self <= Z.of_nat (len df))%Z ->
  (0 < value_count "positive" df)%nat ->
  (0 < value_count "negative" df)%nat ->
  0 < positive_threshold self ->
  let positive_ratio :=
    Py.of_int (value_count "positive" df) / Py.of_int (value_count "negative" df) in
  positive_threshold self <= positive_ratio ->
  (exists r,
     generate_basic_signal self now df = Return r /\
     signal r = BUY /\
     confidence r
     = Py.round
         (Py.min 0.9 (0.6 + (positive_ratio / positive_threshold self) * 0.3)) 3 /\
     confidence r
     == Py.min 0.9 (0.6 + (positive_ratio / positive_threshold self) * 0.3) /\
     confidence r == 0.9) /\
  (exists r,
     generate_basic_signal default_generator now (scenario 15 3 2) = Return r /\
     signal r = BUY /\ confidence r == 0.9).
Proof.
  intros Hc Hlen Hp Hn Ht positive_ratio Hratio. split.
  - pose proof (value_count_le_len "positive" df) as Hle.
    assert (Hpos : (0 < len df)%nat) by lia.
    exists (scored_basic self now df).
    split; [apply basic_sufficient; assumption |].
    unfold scored_basic.
    rewrite (basic_decision_both self _ _ (len df) Hp Hn). cbv zeta.
    fold positive_ratio.
    apply PyFacts.leb_le in Hratio. rewrite Hratio.
    cbn [fst snd signal confidence].
    assert (Hmin : Py.min 0.9 (0.6 + positive_ratio / positive_threshold self * 0.3)
                   = 0.9).
    { apply PyFacts.min_ge_l.
      apply PyFacts.leb_le in Hratio.
      assert (H1 : 1 <= positive_ratio / positive_threshold self)
        by (apply Qle_shift_div_l; [exact Ht | lra]).
      revert H1. generalize (positive_ratio / positive_threshold self).
      intros q H1. lra. }
    rewrite Hmin.
    split; [reflexivity |]. split; [reflexivity |].
    split; reflexivity.
  - eexists. split; [vm_compute; reflexivity |]. split; reflexivity.
Qed.

(** C6 on the strong-buy scenario of the tests. *)
Lemma basic_buy_on_ratio_witness :
  let df := scenario 15 3 2 in
  has_column df sentiment_column = true /\
  (min_articles default_generator <= Z.of_nat (len df))%Z /\
  (0 < value_count "positive" df)%nat /\
  (0 < value_count "negative" df)%nat /\
  0 < positive_threshold default_generator /\
  positive_threshold default_generator
  <= Py.of_int (value_count "positive" df) / Py.of_int (value_count "negative" df) /\
  exists r,
    generate_basic_signal default_generator 0 df = Return r /\
    signal r = BUY /\ confidence r == 0.9.
Proof.
  cbv zeta.
  assert (H1 : has_column (scenario 15 3 2) sentiment_column = true)
    by (vm_compute; reflexivity).
  assert (H2 : (min_articles default_generator
                <= Z.of_nat (len (scenario 15 3 2)))%Z)
    by (vm_compute; discriminate).
  assert (H3 : (0 < value_count "positive" (scenario 15 3 2))%nat)
    by (vm_compute; lia).
  assert (H4 : (0 < value_count "negative" (scenario 15 3 2))%nat)
    by (vm_compute; lia).
  assert (H5 : 0 < positive_threshold default_generator)
    by (vm_compute; reflexivity).
  assert (H6 : positive_threshold default_generator
               <= Py.of_int (value_count "positive" (scenario 15 3 2))
                  / Py.of_int (value_count "negative" (scenario 15 3 2)))
    by (vm_compute; discriminate).
  repeat (split; [assumption |]).
  destruct (basic_buy_on_ratio default_generator 0 (scenario 15 3 2)
              H1 H2 H3 H4 H5 H6) as [(r & Hr & Hs & _ & _ & Hv) _].
  exists r. split; [exact Hr |]. split; [exact Hs | exact Hv].
Defined.

(** C9: under the default thresholds (positiveThreshold =
    negativeThreshold = 2.0), for every batch of at least minArticles
    observations with both counts nonzero and both ratios strictly below
    their thresholds, the basic decision is the mixed HOLD, posRatio lies
    strictly between 0.5 and 2, and the confidence
    0.5 - |posRatio - 1| * 0.1 is strictly greater than 0.4, hence not
    negative; the confidence returned is that value rounded to three
    decimals and is at least 0.4. *)
Theorem mixed_hold_confidence (self : TradingSignalGenerator) (now : Z)
    (df : DataFrame) :
  positive_threshold self == 2.0 ->
  negative_threshold self == 2.0 ->
  has_column df sentiment_column = true ->
  (min_articles self <= Z.of_nat (len df))%Z ->
  (0 < value_count "positive" df)%nat ->
  (0 < value_count "negative" df)%nat ->
  let positive_count := value_count "positive" df in
  let negative_count := value_count "negative" df in
  let positive_ratio := Py.of_int positive_count / Py.of_int negative_count in
  let negative_ratio := Py.of_int negative_count / Py.of_int positive_count in
  positive_ratio < positive_threshold self ->
  negative_ratio < negative_threshold self ->
  let mixed := 0.5 - Qabs (positive_ratio - 1.0) * 0.1 in
  basic_decision self positive_count negative_count (len df)
  = (HOLD, Mixed positive_count negative_count positive_ratio, mixed) /\
  (0.5 < positive_ratio /\ positive_ratio < 2) /\
  (0.4 < mixed /\ 0 <= mixed) /\
  exists r,
    generate_basic_signal self now df = Return r /\
    signal r = HOLD /\
    confidence r = Py.round mixed 3 /\
    0.4 <= confidence r.
Proof.
  intros Hpt Hnt Hc Hlen Hp Hn. cbv zeta. intros Hpr Hnr.
  set (p := value_count "positive" df) in *.
  set (n := value_count "negative" df) in *.
  set (ratio := Py.of_int p / Py.of_int n) in *.
  assert (Hd : basic_decision self p n (len df)
               = (HOLD, Mixed p n ratio, 0.5 - Qabs (ratio - 1.0) * 0.1)).
  { rewrite (basic_decision_both _ _ _ _ Hp Hn). cbv zeta. fold ratio.
    apply PyFacts.leb_gt in Hpr. apply PyFacts.leb_gt in Hnr.
    rewrite Hpr, Hnr. reflexivity. }
  rewrite Hpt in Hpr. rewrite Hnt in Hnr.
  assert (Hhalf : 0.5 < ratio).
  { assert (E : 0.5 == 1 # 2) by reflexivity. rewrite E.
    apply PyFacts.inverse_ratio_above_half;
      [apply PyFacts.of_int_pos; exact Hp | apply PyFacts.of_int_pos; exact Hn
      | lra]. }
  assert (Hmixed : 0.4 < 0.5 - Qabs (ratio - 1.0) * 0.1).
  { assert (Ha : Qabs (ratio - 1.0) < 1).
    { apply Qabs_Qlt_condition. split; lra. }
    revert Ha. generalize (Qabs (ratio - 1.0)). intros a Ha. lra. }
  split; [exact Hd |]. split; [split; [exact Hhalf | lra] |].
  split; [split; lra |].
  pose proof (value_count_le_len "positive" df) as Hle. fold p in Hle.
  assert (Hpos : (0 < len df)%nat) by lia.
  exists (scored_basic self now df).
  split; [apply basic_sufficient; assumption |].
  unfold scored_basic. fold p n. rewrite Hd.
  cbn [fst snd signal confidence].
  split; [reflexivity |]. split; [reflexivity |].
  assert (E : 0.4 == inject_Z 400 / 1000) by reflexivity.
  rewrite E. apply PyFacts.round3_lower. rewrite <- E. lra.
Qed.

(** C9 on the mixed-hold scenario of the tests: confidence 0.486. *)
Lemma mixed_hold_confidence_witness :
  let df := scenario 8 7 5 in
  positive_threshold default_generator == 2.0 /\
  negative_threshold default_generator == 2.0 /\
  has_column df sentiment_column = true /\
  (min_articles default_generator <= Z.of_nat (len df))%Z /\
  (0 < value_count "positive" df)%nat /\
  (0 < value_count "negative" df)%nat /\
  Py.of_int (value_count "positive" df) / Py.of_int (value_count "negative" df)
  < positive_threshold default_generator /\
  Py.of_int (value_count "negative" df) / Py.of_int (value_count "positive" df)
  < negative_threshold default_generator /\
  exists r,
    generate_basic_signal default_generator 0 df = Return r /\
    signal r = HOLD /\ confidence r == 0.486 /\ 0.4 <= confidence r.
Proof.
  cbv zeta.
  assert (Hp : positive_threshold default_generator == 2.0) by reflexivity.
  assert (Hn : negative_threshold default_generator == 2.0) by reflexivity.
  assert (H1 : has_column (scenario 8 7 5) sentiment_column = true)
    by (vm_compute; reflexivity).
  assert (H2 : (min_articles default_generator
                <= Z.of_nat (len (scenario 8 7 5)))%Z)
    by (vm_compute; discriminate).
  assert (H3 : (0 < value_count "positive" (scenario 8 7 5))%nat)
    by (vm_compute; lia).
  assert (H4 : (0 < value_count "negative" (scenario 8 7 5))%nat)
    by (vm_compute; lia).
  assert (H5 : Py.of_int (value_count "positive" (scenario 8 7 5))
               / Py.of_int (value_count "negative" (scenario 8 7 5))
               < positive_threshold default_generator)
    by (vm_compute; reflexivity).
  assert (H6 : Py.of_int (value_count "negative" (scenario 8 7 5))
               / Py.of_int (value_count "positive" (scenario 8 7 5))
               < negative_threshold default_generator)
    by (vm_compute; reflexivity).
  repeat (split; [assumption |]).
  destruct (mixed_hold_confidence default_generator 0 (scenario 8 7 5)
              Hp Hn H1 H2 H3 H4 H5 H6)
    as (_ & _ & _ & r & Hr & Hs & Hc & Hv).
  exists r. split; [exact Hr |]. split; [exact Hs |].
  split; [rewrite Hc; vm_compute; reflexivity | exact Hv].
Defined.

(** ** The confidence-weighted override *)

Lemma total_weight_no_rows (df : DataFrame) :
  rows df = [] -> total_weight df == 0.
Proof.
  intro H. unfold total_weight, label_weight, with_label. rewrite H.
  reflexivity.
Qed.

Lemma total_weight_has_rows (df : DataFrame) :
  ~ (total_weight df == 0) -> (0 < len df)%nat.
Proof.
  intro H. unfold len. destruct (rows df) eqn:E; [| simpl; lia].
  exfalso. apply H. apply total_weight_no_rows. exact E.
Qed.

Lemma scored_basic_signal (self : TradingSignalGenerator) (now : Z)
    (df : DataFrame) :
  signal (scored_basic self now df) <> INSUFFICIENT_DATA.
Proof.
  unfold scored_basic. cbn [signal].
  destruct (basic_decision_signal self (value_count "positive" df)
              (value_count "negative" df) (len df)) as [E | [E | E]];
    simpl in E; rewrite E; discriminate.
Qed.

(** The path of [generate_weighted_signal] that reaches line 200. *)
Lemma weighted_sufficient (self : TradingSignalGenerator) (now : Z)
    (df : DataFrame) (b : SignalResult) :
  has_column df confidence_column = true ->
  generate_basic_signal self now df = Return b ->
  signal b <> INSUFFICIENT_DATA ->
  ~ (total_weight df == 0) ->
  generate_weighted_signal self now df = Return (scored_weighted self now df b).
Proof.
  intros Hc Hb Hs Ht. unfold generate_weighted_signal. rewrite Hc, Hb. simpl.
  rewrite bool_decide_eq_false_2 by exact Hs.
  fold (total_weight df).
  destruct (Py.eqb (total_weight df) 0) eqn:E;
    [apply PyFacts.eqb_eq in E; contradiction |].
  fold (weighted_pct "positive" df) (weighted_pct "negative" df)
    (weighted_pct "neutral" df).
  unfold scored_weighted.
  destruct (weighted_decision _ _ _ _) as [[s re] c]. reflexivity.
Qed.

(** C5, as stated, fails because the confidence returned is rounded: with
    confidenceWeight = 0.333 and a batch of 8 positive (confidence 0.9),
    7 negative (0.1) and 5 neutral (0.5) articles, the base is HOLD at
    0.486, the weighted BUY condition holds, and the scorer returns BUY
    with confidence 0.553, whereas min(0.95, 0.486 + 0.333 * 0.2) is
    0.5526. *)
Lemma weighted_confidence_is_rounded :
  let self := with_confidence_weight 0.333 in
  let df := test_frame 8 7 5 0.9 0.1 0.5 in
  (min_articles self <= Z.of_nat (len df))%Z /\
  ~ (total_weight df == 0) /\
  weighted_pct "negative" df * positive_threshold self
  < weighted_pct "positive" df /\
  exists b r,
    generate_basic_signal self 0 df = Return b /\
    generate_weighted_signal self 0 df = Return r /\
    signal b = HOLD /\ confidence b == 0.486 /\
    signal r = BUY /\ confidence r == 0.553 /\
    Py.min 0.95 (confidence b + confidence_weight self * 0.2) == 0.5526 /\
    ~ (confidence r
       == Py.min 0.95 (confidence b + confidence_weight self * 0.2)).
Proof.
  cbv zeta. split; [vm_compute; discriminate |].
  split; [vm_compute; discriminate |].
  split; [vm_compute; reflexivity |].
  eexists. eexists.
  split; [vm_compute; reflexivity |].
  split; [vm_compute; reflexivity |].
  repeat (split; [vm_compute; reflexivity |]).
  vm_compute. discriminate.
Qed.

(** C5, amended: in the confidence-weighted scorer, whenever
    weightedPositivePct > weightedNegativePct * positiveThreshold holds
    (batch of at least minArticles, nonzero total weight), the signal
    returned is BUY and the confidence is
    min(0.95, baseConfidence + confidenceWeight * 0.2) rounded to three
    decimals, whether or not the base signal was already BUY; the reason is
    replaced only if the base signal was not BUY.  Symmetrically for SELL
    when the BUY condition fails and the SELL condition holds.  Under the
    default confidenceWeight 0.3 the rounding leaves the value as it
    is. *)
Theorem weighted_override (self : TradingSignalGenerator) (now : Z)
    (df : DataFrame) :
  has_column df sentiment_column = true ->
  has_column df confidence_column = true ->
  (min_articles self <= Z.of_nat (len df))%Z ->
  ~ (total_weight df == 0) ->
  let wp := weighted_pct "positive" df in
  let wn := weighted_pct "negative" df in
  let bumped (b : SignalResult) :=
    Py.min 0.95 (confidence b + confidence_weight self * 0.2) in
  exists b,
    generate_basic_signal self now df = Return b /\
    (wn * positive_threshold self < wp ->
     exists r,
       generate_weighted_signal self now df = Return r /\
       signal r = BUY /\
       confidence r = Py.round (bumped b) 3 /\
       reason r = if decide (signal b = BUY) then reason b
                  else WeightedBuy wp wn) /\
    (~ (wn * positive_threshold self < wp) ->
     wp * negative_threshold self < wn ->
     exists r,
       generate_weighted_signal self now df = Return r /\
       signal r = SELL /\
       confidence r = Py.round (bumped b) 3 /\
       reason r = if decide (signal b = SELL) then reason b
                  else WeightedSell wn wp) /\
    (confidence_weight self == 0.3 -> Py.round (bumped b) 3 == bumped b).
Proof.
  intros Hl Hc Hlen Ht wp wn bumped.
  pose proof (total_weight_has_rows df Ht) as Hpos.
  pose proof (basic_sufficient self now df Hl Hlen Hpos) as Hb.
  pose proof (weighted_sufficient self now df _ Hc Hb
                (scored_basic_signal self now df) Ht) as Hw.
  exists (scored_basic self now df). split; [exact Hb |].
  set (b := scored_basic self now df) in *.
  split; [| split].
  - intro Hbuy. exists (scored_weighted self now df b).
    split; [exact Hw |].
    unfold scored_weighted, weighted_decision. fold wp wn.
    apply PyFacts.gtb_gt in Hbuy. rewrite Hbuy.
    cbn [signal confidence reason].
    destruct (decide (signal b = BUY)) as [E | E].
    + rewrite bool_decide_eq_false_2 by (intro H; exact (H E)).
      cbn [fst snd]. repeat split; exact E.
    + rewrite bool_decide_eq_true_2 by exact E.
      cbn [fst snd]. repeat split.
  - intros Hnb Hsell. exists (scored_weighted self now df b).
    split; [exact Hw |].
    unfold scored_weighted, weighted_decision. fold wp wn.
    assert (E1 : Py.gtb wp (wn * positive_threshold self) = false).
    { destruct (Py.gtb wp (wn * positive_threshold self)) eqn:E; [| reflexivity].
      apply PyFacts.gtb_gt in E. contradiction. }
    apply PyFacts.gtb_gt in Hsell. rewrite E1, Hsell.
    cbn [signal confidence reason].
    destruct (decide (signal b = SELL)) as [E | E].
    + rewrite bool_decide_eq_false_2 by (intro H; exact (H E)).
      cbn [fst snd]. repeat split; exact E.
    + rewrite bool_decide_eq_true_2 by exact E.
      cbn [fst snd]. repeat split.
  - intro Hcw. unfold bumped.
    destruct (PyFacts.round3_decimal
                (basic_decision self (value_count "positive" df)
                   (value_count "negative" df) (len df)).2) as [m Hm].
    change (confidence b == inject_Z m / 1000) in Hm.
    destruct (PyFacts.min_cases 0.95 (confidence b + confidence_weight self * 0.2))
      as [[_ ->] | [_ ->]].
    + apply (PyFacts.round3_exact _ (m + 60)).
      rewrite Hm, Hcw, inject_Z_plus. field.
    + apply (PyFacts.round3_exact _ 950). reflexivity.
Qed.

(** C5 under the default configuration, where the base is HOLD and the
    weighted percentages force BUY. *)
Lemma weighted_override_witness :
  let df := test_frame 8 7 5 0.9 0.1 0.5 in
  has_column df sentiment_column = true /\
  has_column df confidence_column = true /\
  (min_articles default_generator <= Z.of_nat (len df))%Z /\
  ~ (total_weight df == 0) /\
  weighted_pct "negative" df * positive_threshold default_generator
  < weighted_pct "positive" df /\
  exists b r,
    generate_basic_signal default_generator 0 df = Return b /\
    generate_weighted_signal default_generator 0 df = Return r /\
    signal r = BUY /\
    confidence r
    == Py.min 0.95 (confidence b + confidence_weight default_generator * 0.2).
Proof.
  cbv zeta.
  assert (H1 : has_column (test_frame 8 7 5 0.9 0.1 0.5) sentiment_column = true)
    by (vm_compute; reflexivity).
  assert (H2 : has_column (test_frame 8 7 5 0.9 0.1 0.5) confidence_column = true)
    by (vm_compute; reflexivity).
  assert (H3 : (min_articles default_generator
                <= Z.of_nat (len (test_frame 8 7 5 0.9 0.1 0.5)))%Z)
    by (vm_compute; discriminate).
  assert (H4 : ~ (total_weight (test_frame 8 7 5 0.9 0.1 0.5) == 0))
    by (vm_compute; discriminate).
  assert (H5 : weighted_pct "negative" (test_frame 8 7 5 0.9 0.1 0.5)
               * positive_threshold default_generator
               < weighted_pct "positive" (test_frame 8 7 5 0.9 0.1 0.5))
    by (vm_compute; reflexivity).
  repeat (split; [assumption |]).
  destruct (weighted_override default_generator 0 (test_frame 8 7 5 0.9 0.1 0.5)
              H1 H2 H3 H4) as (b & Hb & Hbuy & _ & Hround).
  destruct (Hbuy H5) as (r & Hr & Hs & Hconf & _).
  exists b, r. split; [exact Hb |]. split; [exact Hr |]. split; [exact Hs |].
  rewrite Hconf. apply Hround. reflexivity.
Defined.

(** ** Zero total weight *)

Lemma label_weight_zero (l : string) (df : DataFrame) :
  Forall (fun a => combined_sentiment_confidence a == 0) (rows df) ->
  label_weight l df == 0.
Proof.
  intro H. unfold label_weight, with_label.
  induction H as [| a rest Ha _ IH]; [reflexivity |].
  rewrite filter_cons. destruct (decide (combined_sentiment_label a = l));
    [| exact IH].
  simpl. rewrite Ha. simpl in IH. rewrite IH. reflexivity.
Qed.

(** C7: if the total confidence weight of the batch is 0 (as when every
    confidence is 0), generate_weighted_signal returns what
    generate_basic_signal returns; if the total time weight is 0,
    generate_time_weighted_signal returns what generate_weighted_signal
    returns. *)
Theorem zero_weight_falls_back (self : TradingSignalGenerator) (now : Z)
    (df : DataFrame) (recent_days : Z) :
  (total_weight df == 0 ->
   generate_weighted_signal self now df = generate_basic_signal self now df) /\
  (has_column df sentiment_column = true ->
   total_time_weight now recent_days df == 0 ->
   generate_time_weighted_signal self now df recent_days
   = generate_weighted_signal self now df) /\
  (Forall (fun a => combined_sentiment_confidence a == 0) (rows df) ->
   total_weight df == 0).
Proof.
  split; [| split].
  - intro Ht. unfold generate_weighted_signal.
    destruct (has_column df confidence_column); [| reflexivity]. simpl.
    destruct (generate_basic_signal self now df) as [b | e]; [| reflexivity].
    simpl. case_bool_decide; [reflexivity |].
    fold (total_weight df). apply PyFacts.eqb_eq in Ht. rewrite Ht. reflexivity.
  - intros Hc Ht. unfold generate_time_weighted_signal.
    destruct (has_column df date_column); [| reflexivity]. simpl.
    unfold _normalize_datetime_columns. case_bool_decide; [reflexivity |].
    rewrite Hc. simpl.
    destruct (generate_weighted_signal self now df) as [w | e]; [| reflexivity].
    simpl. fold (total_time_weight now recent_days df).
    apply PyFacts.eqb_eq in Ht. rewrite Ht. reflexivity.
  - intro H. unfold total_weight.
    rewrite !label_weight_zero by exact H. reflexivity.
Qed.

(** C7 on a batch whose confidences are all 0 and on a batch without
    any positive, negative or neutral row. *)
Lemma zero_weight_falls_back_witness :
  let silent := test_frame 2 2 1 0.0 0.0 0.0 in
  (Forall (fun a => combined_sentiment_confidence a == 0) (rows silent) /\
   total_weight silent == 0 /\
   generate_weighted_signal default_generator 0 silent
   = generate_basic_signal default_generator 0 silent) /\
  (has_column unlabelled_frame sentiment_column = true /\
   total_time_weight 0 7 unlabelled_frame == 0 /\
   generate_time_weighted_signal default_generator 0 unlabelled_frame 7
   = generate_weighted_signal default_generator 0 unlabelled_frame).
Proof.
  cbv zeta.
  destruct (zero_weight_falls_back default_generator 0
              (test_frame 2 2 1 0.0 0.0 0.0) 7) as (Hw & _ & Hz).
  destruct (zero_weight_falls_back default_generator 0 unlabelled_frame 7)
    as (_ & Ht & _).
  assert (H0 : Forall (fun a => combined_sentiment_confidence a == 0)
                 (rows (test_frame 2 2 1 0.0 0.0 0.0)))
    by (repeat constructor).
  split.
  - split; [exact H0 |]. split; [exact (Hz H0) | exact (Hw (Hz H0))].
  - assert (H1 : has_column unlabelled_frame sentiment_column = true)
      by (vm_compute; reflexivity).
    assert (H2 : total_time_weight 0 7 unlabelled_frame == 0)
      by (vm_compute; reflexivity).
    split; [exact H1 |]. split; [exact H2 | exact (Ht H1 H2)].
Defined.

(** ** The details dictionary *)

Lemma fresh_empty (keys : list string) : fresh keys ∅.
Proof. intros k _. apply lookup_empty. Qed.

Lemma basic_details_fresh (p n u t : nat) :
  fresh (weighted_keys ++ time_keys) (basic_details p n u t).
Proof.
  intros k Hk. unfold weighted_keys, time_keys in Hk. simpl in Hk.
  unfold basic_details.
  repeat (apply elem_of_cons in Hk as [-> | Hk];
          [rewrite !lookup_insert_ne by discriminate; apply lookup_empty |]).
  apply elem_of_nil in Hk. contradiction.
Qed.

Lemma weighted_details_fresh (base : gmap string Detail) (wp wn wu tw : Q) :
  fresh time_keys base -> fresh time_keys (weighted_details base wp wn wu tw).
Proof.
  intros Hb k Hk. unfold weighted_details.
  pose proof (Hb k Hk) as Hnone. unfold time_keys in Hk.
  repeat (apply elem_of_cons in Hk as [-> | Hk];
          [rewrite !lookup_insert_ne by discriminate; exact Hnone |]).
  apply elem_of_nil in Hk. contradiction.
Qed.

(** [update] with keys that are not yet bound keeps every earlier
    entry. *)
Lemma weighted_details_extend (base : gmap string Detail) (wp wn wu tw : Q)
    (k : string) (v : Detail) :
  fresh weighted_keys base ->
  base !! k = Some v -> weighted_details base wp wn wu tw !! k = Some v.
Proof.
  intros Hf Hk. unfold weighted_details.
  rewrite !lookup_insert_ne; [exact Hk | ..];
    intros <-; rewrite Hf in Hk; try discriminate Hk;
    unfold weighted_keys; set_solver.
Qed.

Lemma time_details_extend (base : gmap string Detail) (pp pn : Q) (d : Z)
    (c : nat) (k : string) (v : Detail) :
  fresh time_keys base ->
  base !! k = Some v -> time_details base pp pn d c !! k = Some v.
Proof.
  intros Hf Hk. unfold time_details.
  rewrite !lookup_insert_ne; [exact Hk | ..];
    intros <-; rewrite Hf in Hk; try discriminate Hk;
    unfold time_keys; set_solver.
Qed.

Lemma fresh_app_l (ks1 ks2 : list string) (m : gmap string Detail) :
  fresh (ks1 ++ ks2) m -> fresh ks1 m.
Proof. intros H k Hk. apply H. apply elem_of_app. left. exact Hk. Qed.

Lemma fresh_app_r (ks1 ks2 : list string) (m : gmap string Detail) :
  fresh (ks1 ++ ks2) m -> fresh ks2 m.
Proof. intros H k Hk. apply H. apply elem_of_app. right. exact Hk. Qed.

Lemma basic_result_fresh (self : TradingSignalGenerator) (now : Z)
    (df : DataFrame) (b : SignalResult) :
  generate_basic_signal self now df = Return b ->
  fresh (weighted_keys ++ time_keys) (details b).
Proof.
  intro H. apply basic_cases in H as [_ [[_ ->] | (_ & _ & ->)]].
  - apply fresh_empty.
  - apply basic_details_fresh.
Qed.

Lemma weighted_result_fresh (self : TradingSignalGenerator) (now : Z)
    (df : DataFrame) (w : SignalResult) :
  generate_weighted_signal self now df = Return w ->
  fresh time_keys (details w).
Proof.
  intro H. apply weighted_cases in H as (b & Hb & [-> | (_ & _ & _ & ->)]);
    apply basic_result_fresh, fresh_app_r in Hb.
  - exact Hb.
  - apply weighted_details_fresh. exact Hb.
Qed.

(** C8: whenever the weighted stage (respectively the time-weighted
    stage) returns a result, every key-value pair of the details of its
    base, the result of the basic (respectively weighted) stage on the
    same batch, is present unchanged in the details returned. *)
Theorem details_are_extended (self : TradingSignalGenerator) (now : Z)
    (df : DataFrame) (recent_days : Z) (base r : SignalResult) :
  (generate_basic_signal self now df = Return base /\
   generate_weighted_signal self now df = Return r) \/
  (generate_weighted_signal self now df = Return base /\
   generate_time_weighted_signal self now df recent_days = Return r) ->
  forall (k : string) (v : Detail),
    details base !! k = Some v -> details r !! k = Some v.
Proof.
  intros [[Hb Hr] | [Hw Hr]] k v Hk.
  - apply weighted_cases in Hr as (b & Hb' & Hcase).
    assert (b = base) by congruence. subst b.
    destruct Hcase as [-> | (_ & _ & _ & ->)]; [exact Hk |].
    cbn [details]. apply weighted_details_extend; [| exact Hk].
    eapply fresh_app_l, basic_result_fresh. exact Hb.
  - apply time_cases in Hr as (w & Hw' & Hcase).
    assert (w = base) by congruence. subst w.
    destruct Hcase as [-> | (_ & _ & _ & _ & ->)]; [exact Hk |].
    cbn [details]. apply time_details_extend; [| exact Hk].
    eapply weighted_result_fresh. exact Hw.
Qed.

(** C8 on one entry of the basic stage and one of the weighted stage. *)
Lemma details_are_extended_witness :
  let df := test_frame 8 7 5 0.9 0.1 0.5 in
  let b := scored_basic default_generator 0 df in
  let w := scored_weighted default_generator 0 df b in
  let t := scored_time default_generator 0 df 7 w in
  (generate_basic_signal default_generator 0 df = Return b /\
   generate_weighted_signal default_generator 0 df = Return w /\
   generate_time_weighted_signal default_generator 0 df 7 = Return t) /\
  details b !! "total_articles" = Some (DInt 20) /\
  details w !! "total_articles" = Some (DInt 20) /\
  details w !! "confidence_column_used" = Some (DStr confidence_column) /\
  details t !! "confidence_column_used" = Some (DStr confidence_column).
Proof.
  cbv zeta.
  set (df := test_frame 8 7 5 0.9 0.1 0.5).
  set (b := scored_basic default_generator 0 df).
  set (w := scored_weighted default_generator 0 df b).
  set (t := scored_time default_generator 0 df 7 w).
  assert (Hb : generate_basic_signal default_generator 0 df = Return b)
    by (vm_compute; reflexivity).
  assert (Hw : generate_weighted_signal default_generator 0 df = Return w)
    by (vm_compute; reflexivity).
  assert (Ht : generate_time_weighted_signal default_generator 0 df 7 = Return t)
    by (vm_compute; reflexivity).
  assert (Kb : details b !! "total_articles" = Some (DInt 20))
    by (vm_compute; reflexivity).
  assert (Kw : details w !! "confidence_column_used"
               = Some (DStr confidence_column))
    by (vm_compute; reflexivity).
  split; [split; [exact Hb | split; [exact Hw | exact Ht]] |].
  split; [exact Kb |].
  split; [exact (details_are_extended default_generator 0 df 7 b w
                   (or_introl (conj Hb Hw)) _ _ Kb) |].
  split; [exact Kw |].
  exact (details_are_extended default_generator 0 df 7 w t
           (or_intror (conj Hw Ht)) _ _ Kw).
Defined.

(** ** The consensus of a successful run *)

Lemma consensus_values (signals : list Signal) :
  WebApp.consensus signals = BUY \/ WebApp.consensus signals = SELL \/
  WebApp.consensus signals = HOLD.
Proof.
  unfold WebApp.consensus.
  destruct (2 <=? WebApp.count signals BUY)%nat; [auto |].
  destruct (2 <=? WebApp.count signals SELL)%nat; auto.
Qed.

(** What a successful run is made of: the three scorer results on the
    analysed frame, under the default configuration. *)
Lemma successful_run (ext : WebApp.Collaborators) (company_name : string)
    (now : Z) :
  WebApp.success (WebApp.run_complete_analysis ext company_name now) = true ->
  exists df b w t summary,
    generate_basic_signal default_generator now df = Return b /\
    generate_weighted_signal default_generator now df = Return w /\
    generate_time_weighted_signal default_generator now df 7 = Return t /\
    WebApp.run_complete_analysis ext company_name now
    = WebApp.Success
        (WebApp.consensus [signal b; signal w; signal t])
        (Py.round ((confidence b + confidence w + confidence t) / 3) 3)
        company_name now (len df) (WebApp.sentiment_breakdown summary)
        {| WebApp.basic_signal := signal b;
           WebApp.weighted_signal := signal w;
           WebApp.time_weighted_signal := signal t;
           WebApp.basic_confidence := confidence b;
           WebApp.weighted_confidence := confidence w;
           WebApp.time_weighted_confidence := confidence t |}
        (reason w).
Proof.
  unfold WebApp.run_complete_analysis, WebApp.analysis.
  destruct (WebApp.fetch_company_news ext) as [df0 | e]; simpl; [| discriminate].
  destruct (WebApp.empty df0); simpl; [discriminate |].
  destruct (WebApp.analyze_dataframe_comprehensive ext df0) as [df | e];
    simpl; [| discriminate].
  destruct (generate_basic_signal default_generator now df) as [b | e] eqn:Hb;
    simpl; [| discriminate].
  destruct (generate_weighted_signal default_generator now df) as [w | e] eqn:Hw;
    simpl; [| discriminate].
  destruct (generate_time_weighted_signal default_generator now df 7)
    as [t | e] eqn:Ht; simpl; [| discriminate].
  destruct (WebApp.get_comprehensive_summary ext df) as [summary | e];
    simpl; [| discriminate].
  intros _. exists df, b, w, t, summary. repeat split; assumption.
Qed.

(** Each of the three values is the consensus of some successful run: the
    strong-buy, strong-sell and mixed-hold scenarios of the tests. *)
Lemma consensus_values_attained :
  WebApp.signal (WebApp.run_complete_analysis
                   (collaborators_returning (scenario 15 3 2)) "ACME" 0) = BUY /\
  WebApp.signal (WebApp.run_complete_analysis
                   (collaborators_returning (scenario 2 14 4)) "ACME" 0) = SELL /\
  WebApp.signal (WebApp.run_complete_analysis
                   (collaborators_returning (scenario 8 7 5)) "ACME" 0) = HOLD.
Proof. repeat split; vm_compute; reflexivity. Qed.

(** C10: on every successful run the consensus signal is BUY, SELL or
    HOLD, it is the vote over the three stage signals reported in
    signal_details, and when all three stage signals are INSUFFICIENT_DATA
    the consensus is HOLD with aggregate confidence 0.0. *)
Theorem consensus_never_insufficient (ext : WebApp.Collaborators)
    (company_name : string) (now : Z) :
  let r := WebApp.run_complete_analysis ext company_name now in
  WebApp.success r = true ->
  (WebApp.signal r = BUY \/ WebApp.signal r = SELL \/ WebApp.signal r = HOLD) /\
  exists d,
    WebApp.signal_details r = Some d /\
    WebApp.signal r
    = WebApp.consensus [ WebApp.basic_signal d; WebApp.weighted_signal d;
                         WebApp.time_weighted_signal d ] /\
    (WebApp.basic_signal d = INSUFFICIENT_DATA ->
     WebApp.weighted_signal d = INSUFFICIENT_DATA ->
     WebApp.time_weighted_signal d = INSUFFICIENT_DATA ->
     WebApp.signal r = HOLD /\ WebApp.confidence r == 0).
Proof.
  intros r Hs. subst r.
  destruct (successful_run ext company_name now Hs)
    as (df & b & w & t & summary & Hb & Hw & Ht & ->).
  cbn [WebApp.signal WebApp.confidence WebApp.signal_details].
  split; [apply consensus_values |].
  eexists. split; [reflexivity |].
  cbn [WebApp.basic_signal WebApp.weighted_signal WebApp.time_weighted_signal].
  split; [reflexivity |].
  intros Sb Sw St. rewrite Sb, Sw, St. split; [reflexivity |].
  pose proof (basic_insufficient_signal _ _ _ _ Hb Sb) as Eb.
  pose proof (weighted_insufficient_signal _ _ _ _ Hw Sw) as Ew.
  pose proof (time_insufficient_confidence _ _ _ _ _ Ht St) as Et.
  assert (E : (confidence b + confidence w + confidence t) / 3 == 0).
  { rewrite Eb, Ew, Et. reflexivity. }
  rewrite (PyFacts.round_comp _ _ 3 E). reflexivity.
Qed.

(** C10 on the insufficient-data scenario of the tests, where all three
    stages report INSUFFICIENT_DATA. *)
Lemma consensus_never_insufficient_witness :
  let r := WebApp.run_complete_analysis
             (collaborators_returning (scenario 1 1 1)) "Reliance Industries" 0 in
  WebApp.success r = true /\
  WebApp.signal_details r
  = Some {| WebApp.basic_signal := INSUFFICIENT_DATA;
            WebApp.weighted_signal := INSUFFICIENT_DATA;
            WebApp.time_weighted_signal := INSUFFICIENT_DATA;
            WebApp.basic_confidence := 0.0;
            WebApp.weighted_confidence := 0.0;
            WebApp.time_weighted_confidence := 0 |} /\
  WebApp.signal r = HOLD /\ WebApp.confidence r == 0.
Proof.
  cbv zeta.
  assert (Hs : WebApp.success
                 (WebApp.run_complete_analysis
                    (collaborators_returning (scenario 1 1 1))
                    "Reliance Industries" 0) = true)
    by (vm_compute; reflexivity).
  split; [exact Hs |].
  destruct (consensus_never_insufficient
              (collaborators_returning (scenario 1 1 1))
              "Reliance Industries" 0 Hs) as (_ & d & Hd & _ & Hall).
  assert (Hd' : WebApp.signal_details
                  (WebApp.run_complete_analysis
                     (collaborators_returning (scenario 1 1 1))
                     "Reliance Industries" 0)
                = Some {| WebApp.basic_signal := INSUFFICIENT_DATA;
                          WebApp.weighted_signal := INSUFFICIENT_DATA;
                          WebApp.time_weighted_signal := INSUFFICIENT_DATA;
                          WebApp.basic_confidence := 0.0;
                          WebApp.weighted_confidence := 0.0;
                          WebApp.time_weighted_confidence := 0 |})
    by (vm_compute; reflexivity).
  split; [exact Hd' |].
  rewrite Hd' in Hd. injection Hd as <-.
  apply Hall; reflexivity.
Defined.

(** * Further properties of the scorers *)

(** ** The remaining branches of the basic decision *)

Lemma basic_decision_no_positive (self : TradingSignalGenerator) (n t : nat) :
  (0 < n)%nat ->
  basic_decision self 0 n t
  = (SELL, NoPositive n,
     Py.min 0.9 (0.7 + (Py.of_int n / Py.of_int t) * 0.2)).
Proof.
  intro Hn. unfold basic_decision.
  destruct n as [| n]; [lia |]. reflexivity.
Qed.

(** X1: a batch with at least minArticles rows, no positive label and at
    least one negative label is a SELL; the confidence is
    min(0.9, 0.7 + (negative/total) * 0.2) rounded to three decimals and
    lies in [0.7, 0.9]. *)
Theorem basic_sell_without_positives (self : TradingSignalGenerator)
    (now : Z) (df : DataFrame) :
  has_column df sentiment_column = true ->
  (min_articles self <= Z.of_nat (len df))%Z ->
  value_count "positive" df = 0%nat ->
  (0 < value_count "negative" df)%nat ->
  exists r,
    generate_basic_signal self now df = Return r /\
    signal r = SELL /\
    reason r = NoPositive (value_count "negative" df) /\
    confidence r
    = Py.round
        (Py.min 0.9
           (0.7 + (Py.of_int (value_count "negative" df) / Py.of_int (len df))
                  * 0.2)) 3 /\
    (0.7 <= confidence r /\ confidence r <= 0.9).
Proof.
  intros Hc Hlen Hp Hn.
  pose proof (value_count_le_len "negative" df) as Hle.
  assert (Hpos : (0 < len df)%nat) by lia.
  exists (scored_basic self now df).
  split; [apply basic_sufficient; assumption |].
  unfold scored_basic. rewrite Hp.
  rewrite (basic_decision_no_positive self _ (len df) Hn).
  cbn [fst snd signal confidence reason].
  split; [reflexivity |]. split; [reflexivity |]. split; [reflexivity |].
  assert (Hq : 0 <= Py.of_int (value_count "negative" df) / Py.of_int (len df))
    by (apply PyFacts.div_nonneg; apply PyFacts.of_int_nonneg).
  revert Hq. generalize (Py.of_int (value_count "negative" df) / Py.of_int (len df)).
  intros q Hq.
  assert (Hraw : 0.7 <= Py.min 0.9 (0.7 + q * 0.2)
                 /\ Py.min 0.9 (0.7 + q * 0.2) <= 0.9)
    by (split; [apply PyFacts.min_glb; lra | apply PyFacts.min_le_l]).
  revert Hraw. generalize (Py.min 0.9 (0.7 + q * 0.2)). intros raw [Hlo Hhi].
  assert (E7 : 0.7 == inject_Z 700 / 1000) by reflexivity.
  assert (E9 : 0.9 == inject_Z 900 / 1000) by reflexivity.
  split.
  - rewrite E7. apply PyFacts.round3_lower. rewrite <- E7. exact Hlo.
  - rewrite E9. apply PyFacts.round3_upper. rewrite <- E9. exact Hhi.
Qed.

(** X1 on a batch of 6 negative articles and 2 neutral ones. *)
Lemma basic_sell_without_positives_witness :
  let df := scenario 0 6 2 in
  has_column df sentiment_column = true /\
  (min_articles default_generator <= Z.of_nat (len df))%Z /\
  value_count "positive" df = 0%nat /\
  (0 < value_count "negative" df)%nat /\
  exists r,
    generate_basic_signal default_generator 0 df = Return r /\
    signal r = SELL /\ confidence r == 0.85.
Proof.
  cbv zeta.
  assert (H1 : has_column (scenario 0 6 2) sentiment_column = true)
    by (vm_compute; reflexivity).
  assert (H2 : (min_articles default_generator <= Z.of_nat (len (scenario 0 6 2)))%Z)
    by (vm_compute; discriminate).
  assert (H3 : value_count "positive" (scenario 0 6 2) = 0%nat)
    by (vm_compute; reflexivity).
  assert (H4 : (0 < value_count "negative" (scenario 0 6 2))%nat)
    by (vm_compute; lia).
  repeat (split; [assumption |]).
  destruct (basic_sell_without_positives default_generator 0 (scenario 0 6 2)
              H1 H2 H3 H4) as (r & Hr & Hs & _ & Hc & _).
  exists r. split; [exact Hr |]. split; [exact Hs |].
  rewrite Hc. vm_compute. reflexivity.
Defined.

(** X2: a batch with at least minArticles rows and both counts nonzero,
    whose positive ratio is below the BUY threshold and whose negative
    ratio reaches the (positive) SELL threshold, is a SELL with confidence
    0.9. *)
Theorem basic_sell_on_ratio (self : TradingSignalGenerator) (now : Z)
    (df : DataFrame) :
  has_column df sentiment_column = true ->
  (min_articles self <= Z.of_nat (len df))%Z ->
  (0 < value_count "positive" df)%nat ->
  (0 < value_count "negative" df)%nat ->
  0 < negative_threshold self ->
  Py.of_int (value_count "positive" df) / Py.of_int (value_count "negative" df)
  < positive_threshold self ->
  negative_threshold self
  <= Py.of_int (value_count "negative" df) / Py.of_int (value_count "positive" df) ->
  exists r,
    generate_basic_signal self now df = Return r /\
    signal r = SELL /\
    reason r
    = NegativeDominates (value_count "negative" df)
        (Py.of_int (value_count "negative" df)
         / Py.of_int (value_count "positive" df))
        (value_count "positive" df) /\
    confidence r == 0.9.
Proof.
  intros Hc Hlen Hp Hn Ht Hpr Hnr.
  pose proof (value_count_le_len "positive" df) as Hle.
  assert (Hpos : (0 < len df)%nat) by lia.
  exists (scored_basic self now df).
  split; [apply basic_sufficient; assumption |].
  unfold scored_basic.
  rewrite (basic_decision_both self _ _ (len df) Hp Hn). cbv zeta.
  apply PyFacts.leb_gt in Hpr. rewrite Hpr.
  pose proof Hnr as Hnr'. apply PyFacts.leb_le in Hnr'. rewrite Hnr'.
  cbn [fst snd signal confidence reason].
  split; [reflexivity |]. split; [reflexivity |].
  set (ratio := Py.of_int (value_count "negative" df)
                / Py.of_int (value_count "positive" df)) in *.
  assert (Hmin : Py.min 0.9 (0.6 + ratio / negative_threshold self * 0.3) = 0.9).
  { apply PyFacts.min_ge_l.
    assert (H1 : 1 <= ratio / negative_threshold self)
      by (apply Qle_shift_div_l; [exact Ht | lra]).
    revert H1. generalize (ratio / negative_threshold self). intros q H1. lra. }
  rewrite Hmin. reflexivity.
Qed.

(** X2 on the strong-sell scenario of the tests. *)
Lemma basic_sell_on_ratio_witness :
  let df := scenario 2 14 4 in
  has_column df sentiment_column = true /\
  (min_articles default_generator <= Z.of_nat (len df))%Z /\
  (0 < value_count "positive" df)%nat /\
  (0 < value_count "negative" df)%nat /\
  0 < negative_threshold default_generator /\
  Py.of_int (value_count "positive" df) / Py.of_int (value_count "negative" df)
  < positive_threshold default_generator /\
  negative_threshold default_generator
  <= Py.of_int (value_count "negative" df) / Py.of_int (value_count "positive" df) /\
  exists r,
    generate_basic_signal default_generator 0 df = Return r /\
    signal r = SELL /\ confidence r == 0.9.
Proof.
  cbv zeta.
  assert (H1 : has_column (scenario 2 14 4) sentiment_column = true)
    by (vm_compute; reflexivity).
  assert (H2 : (min_articles default_generator
                <= Z.of_nat (len (scenario 2 14 4)))%Z)
    by (vm_compute; discriminate).
  assert (H3 : (0 < value_count "positive" (scenario 2 14 4))%nat)
    by (vm_compute; lia).
  assert (H4 : (0 < value_count "negative" (scenario 2 14 4))%nat)
    by (vm_compute; lia).
  assert (H5 : 0 < negative_threshold default_generator)
    by (vm_compute; reflexivity).
  assert (H6 : Py.of_int (value_count "positive" (scenario 2 14 4))
               / Py.of_int (value_count "negative" (scenario 2 14 4))
               < positive_threshold default_generator)
    by (vm_compute; reflexivity).
  assert (H7 : negative_threshold default_generator
               <= Py.of_int (value_count "negative" (scenario 2 14 4))
                  / Py.of_int (value_count "positive" (scenario 2 14 4)))
    by (vm_compute; discriminate).
  repeat (split; [assumption |]).
  destruct (basic_sell_on_ratio default_generator 0 (scenario 2 14 4)
              H1 H2 H3 H4 H5 H6 H7) as (r & Hr & Hs & _ & Hv).
  exists r. split; [exact Hr |]. split; [exact Hs | exact Hv].
Defined.

(** X3: a non-empty batch with at least minArticles rows and neither a
    positive nor a negative label (all neutral, or labels of no known
    kind) is a HOLD with confidence 0.4, under every configuration. *)
Theorem basic_hold_without_direction (self : TradingSignalGenerator)
    (now : Z) (df : DataFrame) :
  has_column df sentiment_column = true ->
  (min_articles self <= Z.of_nat (len df))%Z ->
  (0 < len df)%nat ->
  value_count "positive" df = 0%nat ->
  value_count "negative" df = 0%nat ->
  exists r,
    generate_basic_signal self now df = Return r /\
    signal r = HOLD /\ reason r = NoClearDirection /\ confidence r == 0.4.
Proof.
  intros Hc Hlen Hpos Hp Hn.
  exists (scored_basic self now df).
  split; [apply basic_sufficient; assumption |].
  unfold scored_basic. rewrite Hp, Hn.
  repeat split.
Qed.

(** X3 on a batch of 6 neutral articles. *)
Lemma basic_hold_without_direction_witness :
  let df := scenario 0 0 6 in
  has_column df sentiment_column = true /\
  (min_articles default_generator <= Z.of_nat (len df))%Z /\
  (0 < len df)%nat /\
  value_count "positive" df = 0%nat /\ value_count "negative" df = 0%nat /\
  exists r,
    generate_basic_signal default_generator 0 df = Return r /\
    signal r = HOLD /\ confidence r == 0.4.
Proof.
  cbv zeta.
  assert (H1 : has_column (scenario 0 0 6) sentiment_column = true)
    by (vm_compute; reflexivity).
  assert (H2 : (min_articles default_generator <= Z.of_nat (len (scenario 0 0 6)))%Z)
    by (vm_compute; discriminate).
  assert (H3 : (0 < len (scenario 0 0 6))%nat) by (vm_compute; lia).
  assert (H4 : value_count "positive" (scenario 0 0 6) = 0%nat)
    by (vm_compute; reflexivity).
  assert (H5 : value_count "negative" (scenario 0 0 6) = 0%nat)
    by (vm_compute; reflexivity).
  repeat (split; [assumption |]).
  destruct (basic_hold_without_direction default_generator 0 (scenario 0 0 6)
              H1 H2 H3 H4 H5) as (r & Hr & Hs & _ & Hv).
  exists r. split; [exact Hr |]. split; [exact Hs | exact Hv].
Defined.

(** ** When the scorers raise and when they fall back *)

(** X4: generate_basic_signal raises ValueError when the label column is
    absent, raises ZeroDivisionError on an empty frame when minArticles is
    not positive, and returns a result in every other case. *)
Theorem basic_signal_errors (self : TradingSignalGenerator) (now : Z)
    (df : DataFrame) :
  (has_column df sentiment_column = false ->
   generate_basic_signal self now df = Raise (ValueError sentiment_column)) /\
  (has_column df sentiment_column = true ->
   len df = 0%nat -> (min_articles self <= 0)%Z ->
   generate_basic_signal self now df = Raise ZeroDivisionError) /\
  ((exists r, generate_basic_signal self now df = Return r) <->
   has_column df sentiment_column = true /\
   ((Z.of_nat (len df) < min_articles self)%Z \/ (0 < len df)%nat)).
Proof.
  split; [apply basic_raises_without_labels |]. split.
  - intros Hc Hlen Hmin. unfold generate_basic_signal. rewrite Hc. simpl.
    destruct (Z.ltb_spec (Z.of_nat (len df)) (min_articles self)); [lia |].
    rewrite Hlen. reflexivity.
  - split.
    + intros [r Hr]. apply basic_cases in Hr as [Hc [[Hlt _] | (_ & Hpos & _)]];
        auto.
    + intros [Hc [Hlt | Hpos]].
      * eexists. apply basic_insufficient; assumption.
      * destruct (Z.lt_ge_cases (Z.of_nat (len df)) (min_articles self)).
        -- eexists. apply basic_insufficient; assumption.
        -- eexists. apply basic_sufficient; assumption.
Qed.

(** X4 on a frame without columns, on an empty frame with minArticles = 0
    and on the insufficient-data scenario of the tests. *)
Lemma basic_signal_errors_witness :
  let bare := {| columns := []; rows := rows (scenario 3 2 1) |} in
  let nothing := {| columns := all_columns; rows := [] |} in
  let lax := {| positive_threshold := 2.0; negative_threshold := 2.0;
                min_articles := 0; confidence_weight := 0.3 |} in
  generate_basic_signal default_generator 0 bare
  = Raise (ValueError sentiment_column) /\
  generate_basic_signal lax 0 nothing = Raise ZeroDivisionError /\
  exists r, generate_basic_signal default_generator 0 (scenario 1 1 1) = Return r.
Proof.
  cbv zeta.
  split; [| split].
  - apply (proj1 (basic_signal_errors default_generator 0
             {| columns := []; rows := rows (scenario 3 2 1) |})).
    vm_compute. reflexivity.
  - apply (proj1 (proj2 (basic_signal_errors
             {| positive_threshold := 2.0; negative_threshold := 2.0;
                min_articles := 0; confidence_weight := 0.3 |} 0
             {| columns := all_columns; rows := [] |})));
      [vm_compute; reflexivity | reflexivity | vm_compute; discriminate].
  - apply (proj2 (proj2 (basic_signal_errors default_generator 0 (scenario 1 1 1)))).
    split; [vm_compute; reflexivity |]. left. vm_compute. reflexivity.
Defined.

Lemma weighted_returns_with_basic (self : TradingSignalGenerator) (now : Z)
    (df : DataFrame) (b : SignalResult) :
  generate_basic_signal self now df = Return b ->
  exists w, generate_weighted_signal self now df = Return w.
Proof.
  intro Hb. unfold generate_weighted_signal.
  destruct (has_column df confidence_column); simpl; [| eauto].
  rewrite Hb. simpl. case_bool_decide; [eauto |].
  destruct (Py.eqb _ 0); [eauto |].
  destruct (weighted_decision _ _ _ _) as [[s re] c]. eauto.
Qed.

Lemma time_returns_with_weighted (self : TradingSignalGenerator) (now : Z)
    (df : DataFrame) (recent_days : Z) (w : SignalResult) :
  generate_weighted_signal self now df = Return w ->
  exists t, generate_time_weighted_signal self now df recent_days = Return t.
Proof.
  intro Hw.
  assert (Hc : has_column df sentiment_column = true).
  { apply weighted_cases in Hw as (b & Hb & _).
    apply basic_cases in Hb as [Hc _]. exact Hc. }
  unfold generate_time_weighted_signal.
  destruct (has_column df date_column); simpl; [| eauto].
  unfold _normalize_datetime_columns. case_bool_decide; [eauto |].
  rewrite Hc, Hw. simpl.
  destruct (Py.eqb _ 0); [eauto |].
  destruct (time_decision _ _ _ _ _ _) as [[s re] c]. eauto.
Qed.

(** X5: the later stages add no failure of their own and mask none: the
    weighted scorer returns a result exactly when the basic scorer does,
    and the time-weighted scorer exactly when the weighted scorer does. *)
Theorem stages_return_together (self : TradingSignalGenerator) (now : Z)
    (df : DataFrame) (recent_days : Z) :
  ((exists w, generate_weighted_signal self now df = Return w) <->
   (exists b, generate_basic_signal self now df = Return b)) /\
  ((exists t, generate_time_weighted_signal self now df recent_days = Return t) <->
   (exists w, generate_weighted_signal self now df = Return w)).
Proof.
  split; split.
  - intros [w Hw]. apply weighted_cases in Hw as (b & Hb & _). eauto.
  - intros [b Hb]. eapply weighted_returns_with_basic. exact Hb.
  - intros [t Ht]. apply time_cases in Ht as (w & Hw & _). eauto.
  - intros [w Hw]. eapply time_returns_with_weighted. exact Hw.
Qed.

(** X6: the optional columns degrade gracefully.  Without the confidence
    column the weighted scorer returns what the basic scorer returns;
    without the date column, or with a date the conversion rejects, the
    time-weighted scorer returns what the weighted scorer returns. *)
Theorem missing_columns_fall_back (self : TradingSignalGenerator) (now : Z)
    (df : DataFrame) (recent_days : Z) :
  (has_column df confidence_column = false ->
   generate_weighted_signal self now df = generate_basic_signal self now df) /\
  (has_column df date_column = false \/
   Malformed ∈ map published_at (rows df) ->
   generate_time_weighted_signal self now df recent_days
   = generate_weighted_signal self now df).
Proof.
  split.
  - intro H. unfold generate_weighted_signal. rewrite H. reflexivity.
  - intros [H | H]; unfold generate_time_weighted_signal.
    + rewrite H. reflexivity.
    + destruct (has_column df date_column); [| reflexivity]. simpl.
      unfold _normalize_datetime_columns.
      rewrite bool_decide_eq_true_2 by exact H. reflexivity.
Qed.

(** X6 on a frame that has only the label column and on a frame with one
    unparseable date: all three scorers agree. *)
Lemma missing_columns_fall_back_witness :
  let labels_only := {| columns := [sentiment_column];
                        rows := rows (scenario 8 7 5) |} in
  let broken :=
    {| columns := all_columns;
       rows := {| combined_sentiment_label := "positive";
                  combined_sentiment_confidence := 0.9;
                  published_at := Malformed |} :: rows (scenario 8 1 0) |} in
  (generate_weighted_signal default_generator 0 labels_only
   = generate_basic_signal default_generator 0 labels_only /\
   generate_time_weighted_signal default_generator 0 labels_only 7
   = generate_weighted_signal default_generator 0 labels_only) /\
  generate_time_weighted_signal default_generator 0 broken 7
  = generate_weighted_signal default_generator 0 broken.
Proof.
  cbv zeta. split; [split |].
  - apply (proj1 (missing_columns_fall_back default_generator 0
             {| columns := [sentiment_column]; rows := rows (scenario 8 7 5) |} 7)).
    vm_compute. reflexivity.
  - apply (proj2 (missing_columns_fall_back default_generator 0
             {| columns := [sentiment_column]; rows := rows (scenario 8 7 5) |} 7)).
    left. vm_compute. reflexivity.
  - apply (proj2 (missing_columns_fall_back default_generator 0
             {| columns := all_columns;
                rows := {| combined_sentiment_label := "positive";
                           combined_sentiment_confidence := 0.9;
                           published_at := Malformed |}
                        :: rows (scenario 8 1 0) |} 7)).
    right. simpl. apply elem_of_cons. left. reflexivity.
Defined.

(** ** How the stages relate *)

Lemma weighted_decision_ge (self : TradingSignalGenerator) (b : SignalResult)
    (wp wn : Q) :
  0 <= confidence_weight self -> confidence b <= 0.95 ->
  confidence b <= (weighted_decision self b wp wn).2.
Proof.
  intros Hw Hb. unfold weighted_decision.
  repeat match goal with
         | |- context [if ?c then _ else _] => destruct c
         end; cbn [fst snd]; try (apply PyFacts.min_glb; lra); lra.
Qed.

Lemma time_decision_ge (self : TradingSignalGenerator) (w : SignalResult)
    (tp tn pp pn : Q) :
  confidence w <= 0.95 ->
  confidence w <= (time_decision self w tp tn pp pn).2.
Proof.
  intro Hw. unfold time_decision.
  repeat match goal with
         | |- context [if ?c then _ else _] => destruct c
         end; cbn [fst snd]; try (apply PyFacts.min_glb; lra); lra.
Qed.

(** Rounding does not go below a three-decimal number that the value
    reaches. *)
Lemma round3_above_decimal (c x : Q) :
  (exists n : Z, c == inject_Z n / 1000) -> c <= x -> c <= Py.round x 3.
Proof.
  intros [n Hn] H. rewrite Hn in *. apply PyFacts.round3_lower. exact H.
Qed.

(** X7: a later stage never lowers the confidence.  When the confidence
    weight is not negative, the weighted scorer's confidence is at least
    the basic scorer's, and the time-weighted scorer's confidence is at
    least the weighted scorer's. *)
Theorem later_stages_never_lower_confidence (self : TradingSignalGenerator)
    (now : Z) (df : DataFrame) (recent_days : Z) (b w t : SignalResult) :
  0 <= confidence_weight self ->
  generate_basic_signal self now df = Return b ->
  generate_weighted_signal self now df = Return w ->
  generate_time_weighted_signal self now df recent_days = Return t ->
  confidence b <= confidence w /\ confidence w <= confidence t.
Proof.
  intros Hcw Hb Hw Ht. split.
  - pose proof (basic_upper self now df b Hb) as Hub.
    pose proof (basic_decimal self now df b Hb) as Hdb.
    apply weighted_cases in Hw as (b' & Hb' & Hcase).
    assert (b' = b) by congruence. subst b'.
    destruct Hcase as [-> | (_ & _ & _ & ->)]; [lra |].
    cbn [confidence]. apply round3_above_decimal; [exact Hdb |].
    apply weighted_decision_ge; [exact Hcw | lra].
  - pose proof (weighted_upper self now df w Hw) as Huw.
    pose proof (weighted_decimal self now df w Hw) as Hdw.
    apply time_cases in Ht as (w' & Hw' & Hcase).
    assert (w' = w) by congruence. subst w'.
    destruct Hcase as [-> | (_ & _ & _ & _ & ->)]; [lra |].
    cbn [confidence]. apply round3_above_decimal; [exact Hdw |].
    apply time_decision_ge. exact Huw.
Qed.

(** X7 on a batch where the weighted stage bumps the confidence and the
    time-weighted stage keeps it: 0.486 <= 0.546 <= 0.546. *)
Lemma later_stages_never_lower_confidence_witness :
  let df := test_frame 8 7 5 0.9 0.1 0.5 in
  let b := scored_basic default_generator 0 df in
  let w := scored_weighted default_generator 0 df b in
  let t := scored_time default_generator 0 df 7 w in
  0 <= confidence_weight default_generator /\
  generate_basic_signal default_generator 0 df = Return b /\
  generate_weighted_signal default_generator 0 df = Return w /\
  generate_time_weighted_signal default_generator 0 df 7 = Return t /\
  (confidence b == 0.486 /\ confidence w == 0.546) /\
  (confidence b <= confidence w /\ confidence w <= confidence t).
Proof.
  cbv zeta.
  set (df := test_frame 8 7 5 0.9 0.1 0.5).
  set (b := scored_basic default_generator 0 df).
  set (w := scored_weighted default_generator 0 df b).
  set (t := scored_time default_generator 0 df 7 w).
  assert (H0 : 0 <= confidence_weight default_generator)
    by (vm_compute; discriminate).
  assert (Hb : generate_basic_signal default_generator 0 df = Return b)
    by (vm_compute; reflexivity).
  assert (Hw : generate_weighted_signal default_generator 0 df = Return w)
    by (vm_compute; reflexivity).
  assert (Ht : generate_time_weighted_signal default_generator 0 df 7 = Return t)
    by (vm_compute; reflexivity).
  repeat (split; [assumption |]).
  split; [split; vm_compute; reflexivity |].
  exact (later_stages_never_lower_confidence default_generator 0 df 7 b w t
           H0 Hb Hw Ht).
Defined.

(** Rounding a value that is already rounded changes nothing. *)
Lemma round3_idempotent (x : Q) : Py.round (Py.round x 3) 3 == Py.round x 3.
Proof.
  destruct (PyFacts.round3_decimal x) as [n Hn].
  apply (PyFacts.round3_exact _ n). exact Hn.
Qed.

Lemma weighted_decision_kept (self : TradingSignalGenerator)
    (b : SignalResult) (wp wn : Q) :
  (weighted_decision self b wp wn).1.1 <> BUY ->
  (weighted_decision self b wp wn).1.1 <> SELL ->
  (weighted_decision self b wp wn).1.1 = signal b /\
  (weighted_decision self b wp wn).2 = confidence b.
Proof.
  unfold weighted_decision.
  destruct (Py.gtb wp (wn * positive_threshold self)).
  - destruct (bool_decide_reflect (signal b <> BUY)); cbn [fst snd];
      intros H1 H2; exfalso; tauto.
  - destruct (Py.gtb wn (wp * negative_threshold self)).
    + destruct (bool_decide_reflect (signal b <> SELL)); cbn [fst snd];
        intros H1 H2; exfalso; tauto.
    + intros _ _. split; reflexivity.
Qed.

Lemma time_decision_kept (self : TradingSignalGenerator) (w : SignalResult)
    (tp tn pp pn : Q) :
  (time_decision self w tp tn pp pn).1.1 <> BUY ->
  (time_decision self w tp tn pp pn).1.1 <> SELL ->
  (time_decision self w tp tn pp pn).1.1 = signal w /\
  (time_decision self w tp tn pp pn).2 = confidence w.
Proof.
  unfold time_decision.
  repeat match goal with
         | |- context [if ?c then _ else _] => destruct c
         end; cbn [fst snd]; intros H1 H2; try (split; reflexivity);
    exfalso; auto.
Qed.

(** X8: the later stages only ever move a verdict to BUY or SELL.  When
    the time-weighted scorer returns a signal that is neither BUY nor SELL
    (HOLD or INSUFFICIENT_DATA), the basic and the weighted scorer returned
    that same signal, and all three confidences are equal. *)
Theorem undecided_verdict_is_inherited (self : TradingSignalGenerator)
    (now : Z) (df : DataFrame) (recent_days : Z) (t : SignalResult) :
  generate_time_weighted_signal self now df recent_days = Return t ->
  signal t <> BUY -> signal t <> SELL ->
  exists b w,
    generate_basic_signal self now df = Return b /\
    generate_weighted_signal self now df = Return w /\
    signal b = signal t /\ signal w = signal t /\
    confidence w == confidence b /\ confidence t == confidence b.
Proof.
  intros Ht Hnb Hns.
  apply time_cases in Ht as (w & Hw & Hcase).
  assert (Hwt : signal w = signal t /\ confidence t == confidence w).
  { destruct Hcase as [-> | (_ & _ & _ & _ & ->)]; [split; reflexivity |].
    unfold scored_time in *. cbn [signal confidence] in *.
    destruct (time_decision_kept self w _ _ _ _ Hnb Hns) as [Es Ec].
    rewrite Es, Ec. split; [reflexivity |].
    destruct (weighted_decimal self now df w Hw) as [n Hn].
    apply (PyFacts.round3_exact _ n). exact Hn. }
  destruct Hwt as [Es Ec]. rewrite <- Es in Hnb, Hns.
  pose proof Hw as Hw0.
  apply weighted_cases in Hw as (b & Hb & Hcase').
  assert (Hbw : signal b = signal w /\ confidence w == confidence b).
  { destruct Hcase' as [-> | (_ & _ & _ & ->)]; [split; reflexivity |].
    unfold scored_weighted in *. cbn [signal confidence] in *.
    destruct (weighted_decision_kept self b _ _ Hnb Hns) as [Es' Ec'].
    rewrite Es', Ec'. split; [reflexivity |].
    destruct (basic_decimal self now df b Hb) as [n Hn].
    apply (PyFacts.round3_exact _ n). exact Hn. }
  destruct Hbw as [Es' Ec'].
  exists b, w. repeat split; try assumption; try congruence.
  rewrite Ec. exact Ec'.
Qed.

(** X8 on the mixed-hold scenario of the tests: HOLD at 0.486 in all three
    stages. *)
Lemma undecided_verdict_is_inherited_witness :
  let df := scenario 8 7 5 in
  exists t b w,
    generate_time_weighted_signal default_generator 0 df 7 = Return t /\
    signal t = HOLD /\
    generate_basic_signal default_generator 0 df = Return b /\
    generate_weighted_signal default_generator 0 df = Return w /\
    signal b = HOLD /\ signal w = HOLD /\
    confidence t == confidence b.
Proof.
  cbv zeta.
  assert (Ht : generate_time_weighted_signal default_generator 0 (scenario 8 7 5) 7
               = Return (scored_time default_generator 0 (scenario 8 7 5) 7
                           (scored_weighted default_generator 0 (scenario 8 7 5)
                              (scored_basic default_generator 0 (scenario 8 7 5)))))
    by (vm_compute; reflexivity).
  assert (Hs : signal (scored_time default_generator 0 (scenario 8 7 5) 7
                         (scored_weighted default_generator 0 (scenario 8 7 5)
                            (scored_basic default_generator 0 (scenario 8 7 5))))
               = HOLD)
    by (vm_compute; reflexivity).
  destruct (undecided_verdict_is_inherited default_generator 0 (scenario 8 7 5) 7
              _ Ht) as (b & w & Hb & Hw & Sb & Sw & _ & Ec);
    [rewrite Hs; discriminate | rewrite Hs; discriminate |].
  eexists. exists b, w.
  split; [exact Ht |]. split; [exact Hs |].
  split; [exact Hb |]. split; [exact Hw |].
  split; [congruence |]. split; [congruence | exact Ec].
Defined.

(** ** The recency weights *)

Lemma day_ns_pos : (0 < day_ns)%Z.
Proof. reflexivity. Qed.



Lemma of_int_succ (n : nat) : Py.of_int (S n) == Py.of_int n + 1.
Proof.
  unfold Py.of_int. rewrite Nat2Z.inj_succ. unfold Z.succ.
  rewrite inject_Z_plus. reflexivity.
Qed.

Lemma time_weight_range (now recent_days : Z) (a : Article) :
  1 <= time_weight now recent_days a /\ time_weight now recent_days a <= 2.
Proof. unfold time_weight. destruct (is_recent _ _ _); split; lra. Qed.

Lemma time_weighted_range (now recent_days : Z) (l : string) (df : DataFrame) :
  Py.of_int (value_count l df) <= time_weighted now recent_days l df /\
  time_weighted now recent_days l df <= 2 * Py.of_int (value_count l df).
Proof.
  unfold time_weighted, value_count. generalize (with_label l df).
  induction l0 as [| a rest IH]; [split; vm_compute; discriminate |].
  cbn [map length Py.sum foldr].
  change (foldr Qplus 0 (map (time_weight now recent_days) rest))
    with (Py.sum (map (time_weight now recent_days) rest)).
  rewrite of_int_succ.
  destruct (time_weight_range now recent_days a). destruct IH. split; lra.
Qed.

(** X10: the time-weighted sum of a label lies between the number of rows
    with that label and twice that number, so the total time weight is 0
    exactly when the frame has no positive, negative or neutral row: that
    is the only case of the zero-weight fallback of the time-weighted
    stage. *)
Theorem time_weight_is_zero_only_without_rows (now recent_days : Z)
    (df : DataFrame) :
  (forall l,
     Py.of_int (value_count l df) <= time_weighted now recent_days l df /\
     time_weighted now recent_days l df <= 2 * Py.of_int (value_count l df)) /\
  (total_time_weight now recent_days df == 0 <->
   value_count "positive" df = 0%nat /\ value_count "negative" df = 0%nat /\
   value_count "neutral" df = 0%nat).
Proof.
  split; [intro l; apply time_weighted_range |].
  unfold total_time_weight.
  destruct (time_weighted_range now recent_days "positive" df) as [Lp Up].
  destruct (time_weighted_range now recent_days "negative" df) as [Ln Un].
  destruct (time_weighted_range now recent_days "neutral" df) as [Lu Uu].
  pose proof (PyFacts.of_int_nonneg (value_count "positive" df)) as Np.
  pose proof (PyFacts.of_int_nonneg (value_count "negative" df)) as Nn.
  pose proof (PyFacts.of_int_nonneg (value_count "neutral" df)) as Nu.
  split.
  - intro H.
    assert (Zp : Py.of_int (value_count "positive" df) <= 0) by lra.
    assert (Zn : Py.of_int (value_count "negative" df) <= 0) by lra.
    assert (Zu : Py.of_int (value_count "neutral" df) <= 0) by lra.
    unfold Py.of_int in Zp, Zn, Zu.
    rewrite <- (Zle_Qle _ 0) in Zp. rewrite <- (Zle_Qle _ 0) in Zn.
    rewrite <- (Zle_Qle _ 0) in Zu. lia.
  - intros (Hp & Hn & Hu). rewrite Hp, Hn, Hu in *.
    change (Py.of_int 0) with 0 in *. lra.
Qed.

Lemma time_weighted_uniform (now recent_days : Z) (recent : bool) (l : string)
    (df : DataFrame) :
  Forall (fun a => is_recent now recent_days a = recent) (rows df) ->
  time_weighted now recent_days l df
  == (if recent then 2 else 1) * Py.of_int (value_count l df).
Proof.
  intro H. unfold time_weighted, value_count, with_label.
  induction H as [| a rest Ha _ IH].
  - destruct recent; reflexivity.
  - rewrite filter_cons.
    destruct (decide (combined_sentiment_label a = l)); [| exact IH].
    cbn [map length Py.sum foldr].
    change (foldr Qplus 0 (map (time_weight now recent_days)
                             (filter (fun a => combined_sentiment_label a = l) rest)))
      with (Py.sum (map (time_weight now recent_days)
                      (filter (fun a => combined_sentiment_label a = l) rest))).
    rewrite IH, of_int_succ. unfold time_weight. rewrite Ha.
    destruct recent; ring.
Qed.

(** X11: when all rows are equally recent (all inside the window, or all
    outside it), every time-weighted sum is the row count times one
    constant, and the time-weighted BUY and SELL tests compare the raw
    counts: positive > negative * positiveThreshold, respectively
    negative > positive * negativeThreshold. *)
Theorem uniform_recency_compares_counts (self : TradingSignalGenerator)
    (now recent_days : Z) (recent : bool) (df : DataFrame) :
  Forall (fun a => is_recent now recent_days a = recent) (rows df) ->
  let p := Py.of_int (value_count "positive" df) in
  let n := Py.of_int (value_count "negative" df) in
  (Py.gtb (time_weighted now recent_days "positive" df)
          (time_weighted now recent_days "negative" df * positive_threshold self)
   = true <-> n * positive_threshold self < p) /\
  (Py.gtb (time_weighted now recent_days "negative" df)
          (time_weighted now recent_days "positive" df * negative_threshold self)
   = true <-> p * negative_threshold self < n).
Proof.
  intros H p n.
  pose proof (time_weighted_uniform now recent_days recent "positive" df H) as Ep.
  pose proof (time_weighted_uniform now recent_days recent "negative" df H) as En.
  fold p in Ep. fold n in En.
  rewrite !PyFacts.gtb_gt, Ep, En.
  destruct recent; split; split; intro; nra.
Qed.

(** X11 on the strong-buy scenario, whose articles all carry the instant
    of the analysis: 3 * 2.0 < 15, and the time-weighted test agrees. *)
Lemma uniform_recency_compares_counts_witness :
  let df := scenario 15 3 2 in
  Forall (fun a => is_recent 0 7 a = true) (rows df) /\
  Py.gtb (time_weighted 0 7 "positive" df)
         (time_weighted 0 7 "negative" df * positive_threshold default_generator)
  = true.
Proof.
  cbv zeta.
  assert (H : Forall (fun a => is_recent 0 7 a = true) (rows (scenario 15 3 2)))
    by (repeat constructor).
  split; [exact H |].
  apply (proj1 (uniform_recency_compares_counts default_generator 0 7 true
                  (scenario 15 3 2) H)).
  vm_compute. reflexivity.
Defined.

(** ** The order of the rows *)

Lemma weighted_unfold (self : TradingSignalGenerator) (now : Z)
    (df : DataFrame) :
  generate_weighted_signal self now df
  = match generate_basic_signal self now df with
    | Raise e => Raise e
    | Return b =>
        if has_column df confidence_column
           && negb (bool_decide (signal b = INSUFFICIENT_DATA))
           && negb (Py.eqb (total_weight df) 0)
        then Return (scored_weighted self now df b)
        else Return b
    end.
Proof.
  unfold generate_weighted_signal.
  destruct (has_column df confidence_column); simpl.
  - destruct (generate_basic_signal self now df) as [b | e]; [| reflexivity].
    simpl. case_bool_decide; [reflexivity |]. simpl.
    fold (total_weight df). destruct (Py.eqb (total_weight df) 0); [reflexivity |].
    simpl. fold (weighted_pct "positive" df) (weighted_pct "negative" df)
      (weighted_pct "neutral" df).
    unfold scored_weighted.
    destruct (weighted_decision _ _ _ _) as [[sg re] c]. reflexivity.
  - destruct (generate_basic_signal self now df); reflexivity.
Qed.

Lemma time_unfold (self : TradingSignalGenerator) (now : Z) (df : DataFrame)
    (recent_days : Z) :
  generate_time_weighted_signal self now df recent_days
  = if has_column df date_column
       && negb (bool_decide (Malformed ∈ map published_at (rows df)))
    then
      if has_column df sentiment_column then
        match generate_weighted_signal self now df with
        | Raise e => Raise e
        | Return w =>
            if Py.eqb (total_time_weight now recent_days df) 0 then Return w
            else Return (scored_time self now df recent_days w)
        end
      else Raise (KeyError sentiment_column)
    else generate_weighted_signal self now df.
Proof.
  unfold generate_time_weighted_signal.
  destruct (has_column df date_column); simpl; [| reflexivity].
  unfold _normalize_datetime_columns. case_bool_decide; simpl; [reflexivity |].
  destruct (has_column df sentiment_column); simpl; [| reflexivity].
  destruct (generate_weighted_signal self now df) as [w | e]; [| reflexivity].
  simpl. fold (total_time_weight now recent_days df).
  destruct (Py.eqb (total_time_weight now recent_days df) 0); [reflexivity |].
  fold (time_pct now recent_days "positive" df)
    (time_pct now recent_days "negative" df).
  unfold scored_time.
  destruct (time_decision _ _ _ _ _ _) as [[sg re] c]. reflexivity.
Qed.

Lemma sum_Permutation (xs ys : list Q) : xs ≡ₚ ys -> Py.sum xs == Py.sum ys.
Proof.
  induction 1 as [| x xs ys _ IH | x y xs | xs ys zs _ IH1 _ IH2]; simpl.
  - reflexivity.
  - rewrite IH. reflexivity.
  - ring.
  - rewrite IH1. exact IH2.
Qed.

Lemma gtb_comp (x x' y y' : Q) :
  x == x' -> y == y' -> Py.gtb x y = Py.gtb x' y'.
Proof.
  intros Hx Hy. unfold Py.gtb, Py.ltb.
  rewrite (Qcompare_comp _ _ Hy _ _ Hx). reflexivity.
Qed.

Lemma eqb_comp (x x' : Q) : x == x' -> Py.eqb x 0 = Py.eqb x' 0.
Proof.
  intro Hx. unfold Py.eqb.
  rewrite (Qcompare_comp _ _ Hx 0 0 (Qeq_refl 0)). reflexivity.
Qed.

Section Reordered.

Variable self : TradingSignalGenerator.
Variable now recent_days : Z.
Variables df df' : DataFrame.
Hypothesis same_columns : columns df = columns df'.
Hypothesis same_rows : rows df ≡ₚ rows df'.

Lemma reordered_has_column (name : string) :
  has_column df name = has_column df' name.
Proof. unfold has_column. rewrite same_columns. reflexivity. Qed.

Lemma reordered_len : len df = len df'.
Proof. unfold len. apply Permutation_length. exact same_rows. Qed.

Lemma reordered_with_label (l : string) : with_label l df ≡ₚ with_label l df'.
Proof. unfold with_label. apply filter_Permutation. exact same_rows. Qed.

Lemma reordered_value_count (l : string) :
  value_count l df = value_count l df'.
Proof.
  unfold value_count. apply Permutation_length. apply reordered_with_label.
Qed.

Lemma reordered_basic :
  generate_basic_signal self now df = generate_basic_signal self now df'.
Proof.
  unfold generate_basic_signal, insufficient.
  rewrite reordered_has_column, reordered_len, !reordered_value_count.
  reflexivity.
Qed.

Lemma reordered_label_weight (l : string) :
  label_weight l df == label_weight l df'.
Proof.
  unfold label_weight. apply sum_Permutation. apply Permutation_map.
  apply reordered_with_label.
Qed.

Lemma reordered_total_weight : total_weight df == total_weight df'.
Proof. unfold total_weight. rewrite !reordered_label_weight. reflexivity. Qed.

Lemma reordered_weighted_pct (l : string) :
  weighted_pct l df == weighted_pct l df'.
Proof.
  unfold weighted_pct.
  rewrite reordered_label_weight, reordered_total_weight. reflexivity.
Qed.

Lemma reordered_time_weighted (l : string) :
  time_weighted now recent_days l df == time_weighted now recent_days l df'.
Proof.
  unfold time_weighted. apply sum_Permutation. apply Permutation_map.
  apply reordered_with_label.
Qed.

Lemma reordered_total_time_weight :
  total_time_weight now recent_days df == total_time_weight now recent_days df'.
Proof.
  unfold total_time_weight. rewrite !reordered_time_weighted. reflexivity.
Qed.

Lemma reordered_malformed :
  bool_decide (Malformed ∈ map published_at (rows df))
  = bool_decide (Malformed ∈ map published_at (rows df')).
Proof.
  apply bool_decide_ext.
  assert (P : map published_at (rows df) ≡ₚ map published_at (rows df'))
    by (apply Permutation_map; exact same_rows).
  split; intro H; [rewrite <- P | rewrite P]; exact H.
Qed.

Lemma reordered_weighted_decision (b : SignalResult) :
  let d := weighted_decision self b (weighted_pct "positive" df)
             (weighted_pct "negative" df) in
  let d' := weighted_decision self b (weighted_pct "positive" df')
              (weighted_pct "negative" df') in
  d.1.1 = d'.1.1 /\ d.2 = d'.2.
Proof.
  cbv zeta. unfold weighted_decision.
  rewrite (gtb_comp (weighted_pct "positive" df) (weighted_pct "positive" df')
             (weighted_pct "negative" df * positive_threshold self)
             (weighted_pct "negative" df' * positive_threshold self))
    by (rewrite ?reordered_weighted_pct; reflexivity).
  rewrite (gtb_comp (weighted_pct "negative" df) (weighted_pct "negative" df')
             (weighted_pct "positive" df * negative_threshold self)
             (weighted_pct "positive" df' * negative_threshold self))
    by (rewrite ?reordered_weighted_pct; reflexivity).
  repeat match goal with
         | |- context [if ?c then _ else _] => destruct c
         end; split; reflexivity.
Qed.

Lemma reordered_time_decision (w w' : SignalResult) :
  signal w = signal w' -> confidence w = confidence w' ->
  let d := time_decision self w
             (time_weighted now recent_days "positive" df)
             (time_weighted now recent_days "negative" df)
             (time_pct now recent_days "positive" df)
             (time_pct now recent_days "negative" df) in
  let d' := time_decision self w'
              (time_weighted now recent_days "positive" df')
              (time_weighted now recent_days "negative" df')
              (time_pct now recent_days "positive" df')
              (time_pct now recent_days "negative" df') in
  d.1.1 = d'.1.1 /\ d.2 = d'.2.
Proof.
  intros Hs Hc. cbv zeta. unfold time_decision.
  rewrite (gtb_comp (time_weighted now recent_days "positive" df)
             (time_weighted now recent_days "positive" df')
             (time_weighted now recent_days "negative" df * positive_threshold self)
             (time_weighted now recent_days "negative" df' * positive_threshold self))
    by (rewrite ?reordered_time_weighted; reflexivity).
  rewrite (gtb_comp (time_weighted now recent_days "negative" df)
             (time_weighted now recent_days "negative" df')
             (time_weighted now recent_days "positive" df * negative_threshold self)
             (time_weighted now recent_days "positive" df' * negative_threshold self))
    by (rewrite ?reordered_time_weighted; reflexivity).
  rewrite Hs, Hc.
  repeat match goal with
         | |- context [if ?c then _ else _] => destruct c
         end; split; reflexivity.
Qed.

Lemma reordered_weighted :
  match generate_weighted_signal self now df,
        generate_weighted_signal self now df' with
  | Return w, Return w' => signal w = signal w' /\ confidence w = confidence w'
  | Raise e, Raise e' => e = e'
  | _, _ => False
  end.
Proof.
  rewrite !weighted_unfold, <- reordered_basic.
  destruct (generate_basic_signal self now df) as [b | e]; [| reflexivity].
  rewrite <- reordered_has_column, <- (eqb_comp _ _ reordered_total_weight).
  destruct (_ && _ && _); [| split; reflexivity].
  unfold scored_weighted. cbn [signal confidence].
  destruct (reordered_weighted_decision b) as [Es Ec].
  rewrite Es, Ec. split; reflexivity.
Qed.

Lemma reordered_time :
  match generate_time_weighted_signal self now df recent_days,
        generate_time_weighted_signal self now df' recent_days with
  | Return t, Return t' => signal t = signal t' /\ confidence t = confidence t'
  | Raise e, Raise e' => e = e'
  | _, _ => False
  end.
Proof.
  rewrite !time_unfold.
  rewrite <- !reordered_has_column, <- reordered_malformed,
    <- (eqb_comp _ _ reordered_total_time_weight).
  pose proof reordered_weighted as Hw.
  destruct (_ && _); [| exact Hw].
  destruct (has_column df sentiment_column); [| reflexivity].
  destruct (generate_weighted_signal self now df) as [w | e],
    (generate_weighted_signal self now df') as [w' | e'];
    try contradiction; try exact Hw.
  destruct Hw as [Hs Hc].
  destruct (Py.eqb (total_time_weight now recent_days df) 0);
    [split; assumption |].
  unfold scored_time. cbn [signal confidence].
  destruct (reordered_time_decision w w' Hs Hc) as [Es Ec].
  rewrite Es, Ec. split; reflexivity.
Qed.

End Reordered.



(** * Further properties of the analysis service *)

Lemma round_half_even_below_half (y : Q) (n : Z) :
  y < inject_Z n + (1 # 2) -> (Py.round_half_even y <= n)%Z.
Proof.
  intro H.
  assert (Hf : (Qfloor y <= n)%Z).
  { assert (Hle : y <= inject_Z (n + 1))
      by (rewrite inject_Z_plus; change (inject_Z 1) with 1; lra).
    apply Qfloor_resp_le in Hle. rewrite Qfloor_Z in Hle.
    destruct (Z.eq_dec (Qfloor y) (n + 1)%Z) as [E | E]; [| lia].
    pose proof (Qfloor_le y) as Hy. rewrite E, inject_Z_plus in Hy.
    change (inject_Z 1) with 1 in Hy. lra. }
  unfold Py.round_half_even.
  destruct (Z.eq_dec (Qfloor y) n) as [E | E].
  - assert (Hlt : y - inject_Z (Qfloor y) < 1 # 2) by (rewrite E; lra).
    destruct (Qcompare _ _) eqn:Ec; [| lia |].
    + apply Qeq_alt in Ec. lra.
    + apply Qgt_alt in Ec. lra.
  - destruct (Qcompare _ _); [destruct (Z.even _) | |]; lia.
Qed.

Lemma default_returns (now : Z) (df : DataFrame) :
  has_column df sentiment_column = true ->
  exists b w t,
    generate_basic_signal default_generator now df = Return b /\
    generate_weighted_signal default_generator now df = Return w /\
    generate_time_weighted_signal default_generator now df 7 = Return t.
Proof.
  intro Hc.
  assert (Hb : exists b, generate_basic_signal default_generator now df = Return b).
  { destruct (Z.lt_ge_cases (Z.of_nat (len df)) (min_articles default_generator)).
    - eexists. apply basic_insufficient; assumption.
    - eexists. apply basic_sufficient; [assumption .. |].
      simpl in *. lia. }
  destruct Hb as [b Hb].
  destruct (weighted_returns_with_basic _ _ _ _ Hb) as [w Hw].
  destruct (time_returns_with_weighted _ _ _ 7 _ Hw) as [t Ht].
  eauto 6.
Qed.

(** X13: a run succeeds exactly when the fetcher returns a frame that is
    not empty, the analyzer returns a frame that has the label column, and
    the summary returns; every exception, a missing label column included,
    ends in an ERROR result, and an empty fetch in a NO_DATA result. *)
Theorem run_succeeds_exactly_when (ext : WebApp.Collaborators)
    (company_name : string) (now : Z) :
  let r := WebApp.run_complete_analysis ext company_name now in
  (WebApp.success r = true <->
   exists df df' summary,
     WebApp.fetch_company_news ext = Return df /\
     WebApp.empty df = false /\
     WebApp.analyze_dataframe_comprehensive ext df = Return df' /\
     has_column df' sentiment_column = true /\
     WebApp.get_comprehensive_summary ext df' = Return summary) /\
  (WebApp.signal r = NO_DATA <->
   exists df, WebApp.fetch_company_news ext = Return df /\
              WebApp.empty df = true) /\
  (WebApp.success r = false ->
   (WebApp.signal r = NO_DATA \/ WebApp.signal r = ERROR) /\
   WebApp.confidence r == 0).
Proof.
  cbv zeta. unfold WebApp.run_complete_analysis, WebApp.analysis.
  destruct (WebApp.fetch_company_news ext) as [df | e]; simpl.
  2: { split; [| split].
       - split; [discriminate | intros (? & ? & ? & ? & _); discriminate].
       - split; [discriminate | intros (? & ? & _); discriminate].
       - intros _. split; [right; reflexivity | reflexivity]. }
  destruct (WebApp.empty df) eqn:Hempty; simpl.
  { split; [| split].
    - split; [discriminate |].
      intros (? & ? & ? & [= <-] & He & _). congruence.
    - split; [intros _; eauto | reflexivity].
    - intros _. split; [left; reflexivity | reflexivity]. }
  destruct (WebApp.analyze_dataframe_comprehensive ext df) as [df' | e] eqn:Ha;
    simpl.
  2: { split; [| split].
       - split; [discriminate |].
         intros (? & ? & ? & [= <-] & _ & Ha' & _). congruence.
       - split; [discriminate | intros (? & [= <-] & He); congruence].
       - intros _. split; [right; reflexivity | reflexivity]. }
  destruct (has_column df' sentiment_column) eqn:Hc.
  - destruct (default_returns now df' Hc) as (b & w & t & Hb & Hw & Ht).
    rewrite Hb. simpl. rewrite Hw. simpl. rewrite Ht. simpl.
    destruct (WebApp.get_comprehensive_summary ext df') as [summary | e] eqn:Hsum;
      simpl.
    + split; [| split].
      * split; [intros _; exists df, df', summary; auto |reflexivity].
      * split.
        -- intro H. destruct (consensus_values [signal b; signal w; signal t])
             as [E | [E | E]]; rewrite E in H; discriminate.
        -- intros (? & [= <-] & He). congruence.
      * discriminate.
    + split; [| split].
      * split; [discriminate |].
        intros (? & ? & ? & [= <-] & _ & Ha' & _ & Hs).
        rewrite Ha in Ha'. injection Ha' as <-. congruence.
      * split; [discriminate | intros (? & [= <-] & He); congruence].
      * intros _. split; [right; reflexivity | reflexivity].
  - rewrite (basic_raises_without_labels default_generator now df' Hc). simpl.
    split; [| split].
    + split; [discriminate |].
      intros (? & ? & ? & [= <-] & _ & Ha' & Hc' & _).
      rewrite Ha in Ha'. injection Ha' as <-. congruence.
    + split; [discriminate | intros (? & [= <-] & He); congruence].
    + intros _. split; [right; reflexivity | reflexivity].
Qed.

(** X13 on a fetch of the mixed-hold scenario, which succeeds, and on a
    fetch that raises, which ends in ERROR. *)
Lemma run_succeeds_exactly_when_witness :
  WebApp.success
    (WebApp.run_complete_analysis (collaborators_returning (scenario 8 7 5))
       "ACME" 0) = true /\
  WebApp.signal
    (WebApp.run_complete_analysis
       {| WebApp.fetch_company_news := Raise (OtherError "API key is required");
          WebApp.analyze_dataframe_comprehensive := fun df => Return df;
          WebApp.get_comprehensive_summary := fun _ => Return ∅ |}
       "ACME" 0) = ERROR.
Proof.
  split.
  - apply (proj1 (run_succeeds_exactly_when
                    (collaborators_returning (scenario 8 7 5)) "ACME" 0)).
    exists (scenario 8 7 5), (scenario 8 7 5), ∅.
    repeat split; vm_compute; reflexivity.
  - destruct (proj2 (proj2 (run_succeeds_exactly_when
               {| WebApp.fetch_company_news := Raise (OtherError "API key is required");
                  WebApp.analyze_dataframe_comprehensive := fun df => Return df;
                  WebApp.get_comprehensive_summary := fun _ => Return ∅ |}
               "ACME" 0)) eq_refl) as [[H | H] _]; [discriminate H | exact H].
Defined.

Lemma default_is_sane : sane_configuration default_generator.
Proof. unfold sane_configuration. simpl. lra. Qed.

Lemma round3_below_half (x : Q) (n : Z) :
  x * 1000 < inject_Z n + (1 # 2) -> Py.round x 3 <= inject_Z n / 1000.
Proof.
  intro H. rewrite PyFacts.round3_eq. rewrite !PyFacts.div_1000.
  apply round_half_even_below_half in H. rewrite Zle_Qle in H. lra.
Qed.

Lemma failed_run_confidence (ext : WebApp.Collaborators)
    (company_name : string) (now : Z) :
  WebApp.success (WebApp.run_complete_analysis ext company_name now) = false ->
  WebApp.confidence (WebApp.run_complete_analysis ext company_name now) = 0.0.
Proof.
  unfold WebApp.run_complete_analysis, WebApp.analysis.
  destruct (WebApp.fetch_company_news ext) as [df | e]; simpl; [| reflexivity].
  destruct (WebApp.empty df); simpl; [reflexivity |].
  destruct (WebApp.analyze_dataframe_comprehensive ext df) as [df' | e];
    simpl; [| reflexivity].
  destruct (generate_basic_signal default_generator now df') as [b | e];
    simpl; [| reflexivity].
  destruct (generate_weighted_signal default_generator now df') as [w | e];
    simpl; [| reflexivity].
  destruct (generate_time_weighted_signal default_generator now df' 7)
    as [t | e]; simpl; [| reflexivity].
  destruct (WebApp.get_comprehensive_summary ext df') as [summary | e];
    simpl; [discriminate | reflexivity].
Qed.

(** X14: whatever the collaborators do, the confidence a run reports is a
    number of at most three decimals between 0 and 0.933 (the mean of
    0.9, 0.95 and 0.95, rounded). *)
Theorem run_confidence_range (ext : WebApp.Collaborators)
    (company_name : string) (now : Z) :
  let r := WebApp.run_complete_analysis ext company_name now in
  (0 <= WebApp.confidence r /\ WebApp.confidence r <= 0.933) /\
  exists n : Z, WebApp.confidence r == inject_Z n / 1000.
Proof.
  cbv zeta.
  destruct (WebApp.success (WebApp.run_complete_analysis ext company_name now))
    eqn:Hs.
  - destruct (successful_run ext company_name now Hs)
      as (df & b & w & t & summary & Hb & Hw & Ht & ->).
    cbn [WebApp.confidence].
    pose proof (basic_upper _ _ _ _ Hb) as Ub.
    pose proof (basic_lower _ _ _ _ default_is_sane Hb) as Lb.
    pose proof (weighted_upper _ _ _ _ Hw) as Uw.
    pose proof (weighted_lower _ _ _ _ default_is_sane Hw) as Lw.
    pose proof (time_upper _ _ _ _ _ Ht) as Ut.
    pose proof (time_lower _ _ _ _ _ default_is_sane Ht) as Lt.
    revert Ub Lb Uw Lw Ut Lt.
    generalize (confidence b), (confidence w), (confidence t).
    intros cb cw ct Ub Lb Uw Lw Ut Lt.
    assert (E : (cb + cw + ct) / 3 == (cb + cw + ct) * (1 # 3)) by field.
    split; [split |].
    + apply round3_ge_0. rewrite E. lra.
    + assert (E9 : 0.933 == inject_Z 933 / 1000) by reflexivity.
      rewrite E9. apply round3_below_half. rewrite E.
      change (inject_Z 933) with 933. lra.
    + apply PyFacts.round3_decimal.
  - rewrite (failed_run_confidence ext company_name now Hs).
    split; [split; lra |]. exists 0%Z. reflexivity.
Qed.

(** X15: a successful run over fewer than 5 analysed articles always
    reports HOLD, and its confidence is 0 or 0.033: the time-weighted
    stage, which may override the short-circuit of the other two stages,
    is outvoted, and its bump of 0.1 is all that can reach the mean. *)
Theorem undersized_run_holds (ext : WebApp.Collaborators)
    (company_name : string) (now : Z) (n : nat) :
  let r := WebApp.run_complete_analysis ext company_name now in
  WebApp.success r = true ->
  analysed_articles r = Some n ->
  (n < 5)%nat ->
  WebApp.signal r = HOLD /\
  (WebApp.confidence r == 0 \/ WebApp.confidence r == 0.033).
Proof.
  cbv zeta. intros Hs Hn Hlt.
  destruct (successful_run ext company_name now Hs)
    as (df & b & w & t & summary & Hb & Hw & Ht & Hr).
  rewrite Hr in *. cbn [analysed_articles WebApp.signal WebApp.confidence] in *.
  injection Hn as <-.
  pose proof Hb as Hb'. apply basic_cases in Hb' as [Hc _].
  assert (Hlen : (Z.of_nat (len df) < min_articles default_generator)%Z)
    by (simpl; lia).
  destruct (basic_weighted_short_circuit default_generator now df Hc Hlen)
    as (Eb & Ew & _).
  assert (b = insufficient default_generator df) by congruence.
  assert (w = insufficient default_generator df) by congruence.
  subst b w.
  apply time_cases in Ht as (w' & Hw' & Hcase).
  assert (w' = insufficient default_generator df) by congruence. subst w'.
  destruct Hcase as [-> | (_ & _ & _ & _ & ->)].
  - split; [reflexivity | left; reflexivity].
  - unfold scored_time, time_decision. cbn [signal confidence insufficient].
    destruct (Py.gtb _ _); [split; [reflexivity | right; reflexivity] |].
    destruct (Py.gtb _ _); [split; [reflexivity | right; reflexivity] |].
    split; [reflexivity | left; reflexivity].
Qed.

(** X15 on a fetch of a single positive article: the time-weighted stage
    says BUY at 0.1, the run says HOLD at 0.033. *)
Lemma undersized_run_holds_witness :
  let r := WebApp.run_complete_analysis
             (collaborators_returning (scenario 1 0 0)) "ACME" 0 in
  WebApp.success r = true /\ analysed_articles r = Some 1%nat /\
  (WebApp.time_weighted_signal <$> WebApp.signal_details r) = Some BUY /\
  WebApp.signal r = HOLD /\ WebApp.confidence r == 0.033.
Proof.
  cbv zeta.
  assert (Hs : WebApp.success
                 (WebApp.run_complete_analysis
                    (collaborators_returning (scenario 1 0 0)) "ACME" 0) = true)
    by (vm_compute; reflexivity).
  assert (Hn : analysed_articles
                 (WebApp.run_complete_analysis
                    (collaborators_returning (scenario 1 0 0)) "ACME" 0)
               = Some 1%nat)
    by (vm_compute; reflexivity).
  split; [exact Hs |]. split; [exact Hn |].
  split; [vm_compute; reflexivity |].
  destruct (undersized_run_holds (collaborators_returning (scenario 1 0 0))
              "ACME" 0 1 Hs Hn) as [Hh _]; [lia |].
  split; [exact Hh | vm_compute; reflexivity].
Defined.

(** * Further properties: the summary and the command-line run *)

(** ** What [get_signal_summary] shows *)

Lemma basic_details_lookups (p n u t : nat) :
  let d := basic_details p n u t in
  d !! "total_articles" = Some (DInt (Z.of_nat t)) /\
  d !! "positive_count" = Some (DInt (Z.of_nat p)) /\
  d !! "negative_count" = Some (DInt (Z.of_nat n)) /\
  d !! "neutral_count" = Some (DInt (Z.of_nat u)) /\
  d !! "positive_percentage"
    = Some (DFloat (Py.of_int p / Py.of_int t * 100)) /\
  d !! "negative_percentage"
    = Some (DFloat (Py.of_int n / Py.of_int t * 100)) /\
  d !! "neutral_percentage"
    = Some (DFloat (Py.of_int u / Py.of_int t * 100)) /\
  d !! "positive_to_negative_ratio"
    = Some (DFloat (Py.of_int p / Py.of_int (Py.max_int n 1))) /\
  d !! "negative_to_positive_ratio"
    = Some (DFloat (Py.of_int n / Py.of_int (Py.max_int p 1))).
Proof.
  cbv zeta. unfold basic_details.
  repeat split;
    rewrite ?lookup_insert_ne by discriminate; apply lookup_insert.
Qed.

Lemma summary_of_extended_details (r : SignalResult) (now : Z)
    (p n u t : nat) :
  timestamp r = Some now ->
  (forall k v, basic_details p n u t !! k = Some v -> details r !! k = Some v) ->
  get_signal_summary r = Return (summary_of_counts r now p n u t).
Proof.
  intros Ht Hd.
  destruct (basic_details_lookups p n u t)
    as (H1 & H2 & H3 & H4 & H5 & H6 & H7 & H8 & H9).
  apply Hd in H1, H2, H3, H4, H5, H6, H7, H8, H9.
  unfold get_signal_summary, summary_of_counts, WebApp.get, getitem.
  rewrite H1, H2, H3, H4, H5, H6, H7, H8, H9, Ht. simpl.
  rewrite ?bool_decide_eq_true_2 by eauto. reflexivity.
Qed.

Lemma sufficient_stage_details (self : TradingSignalGenerator) (now : Z)
    (df : DataFrame) (recent_days : Z) (r : SignalResult) :
  (min_articles self <= Z.of_nat (len df))%Z ->
  generate_basic_signal self now df = Return r \/
  generate_weighted_signal self now df = Return r \/
  generate_time_weighted_signal self now df recent_days = Return r ->
  timestamp r = Some now /\
  forall k v,
    basic_details (value_count "positive" df) (value_count "negative" df)
      (value_count "neutral" df) (len df) !! k = Some v ->
    details r !! k = Some v.
Proof.
  intros Hlen H.
  assert (Hbasic : forall b, generate_basic_signal self now df = Return b ->
                             b = scored_basic self now df).
  { intros b Hb. apply basic_cases in Hb as [_ [[Hlt _] | (_ & _ & ->)]];
      [lia | reflexivity]. }
  assert (Hweighted : forall w, generate_weighted_signal self now df = Return w ->
            timestamp w = Some now /\
            forall k v,
              basic_details (value_count "positive" df)
                (value_count "negative" df) (value_count "neutral" df)
                (len df) !! k = Some v ->
              details w !! k = Some v).
  { intros w Hw.
    apply weighted_cases in Hw as (b & Hb & [-> | (_ & _ & _ & ->)]);
      pose proof (basic_result_fresh _ _ _ _ Hb) as Hf;
      apply Hbasic in Hb; subst b.
    - split; [reflexivity | intros k v Hk; exact Hk].
    - split; [reflexivity |]. intros k v Hk. simpl.
      apply weighted_details_extend; [| exact Hk].
      eapply fresh_app_l. exact Hf. }
  destruct H as [H | [H | H]].
  - apply Hbasic in H. subst r. split; [reflexivity | auto].
  - apply Hweighted. exact H.
  - apply time_cases in H as (w & Hw & [-> | (_ & _ & _ & _ & ->)]).
    + apply Hweighted. exact Hw.
    + pose proof (weighted_result_fresh _ _ _ _ Hw) as Hf.
      apply Hweighted in Hw as [_ Hd].
      split; [reflexivity |]. intros k v Hk. simpl.
      apply time_details_extend; [exact Hf | apply Hd; exact Hk].
Qed.

Lemma sufficient_summary (self : TradingSignalGenerator) (now : Z)
    (df : DataFrame) (recent_days : Z) (r : SignalResult) :
  (min_articles self <= Z.of_nat (len df))%Z ->
  generate_basic_signal self now df = Return r \/
  generate_weighted_signal self now df = Return r \/
  generate_time_weighted_signal self now df recent_days = Return r ->
  get_signal_summary r
  = Return (summary_of_counts r now (value_count "positive" df)
              (value_count "negative" df) (value_count "neutral" df) (len df)).
Proof.
  intros Hlen H.
  destruct (sufficient_stage_details self now df recent_days r Hlen H)
    as [Ht Hd].
  apply summary_of_extended_details; assumption.
Qed.

(** X16: on a batch of at least min_articles rows, the summary of each
    stage's result is produced and shows the label counts of the frame,
    their percentages to one decimal, the two ratios to two decimals and
    the time of the call, next to the signal, confidence and reason of
    that stage: the entries the later stages add to the details never hide
    those of the basic stage. *)
Theorem summary_reports_the_counts (self : TradingSignalGenerator) (now : Z)
    (df : DataFrame) (recent_days : Z) (r : SignalResult) :
  (min_articles self <= Z.of_nat (len df))%Z ->
  generate_basic_signal self now df = Return r \/
  generate_weighted_signal self now df = Return r \/
  generate_time_weighted_signal self now df recent_days = Return r ->
  get_signal_summary r
  = Return (summary_of_counts r now (value_count "positive" df)
              (value_count "negative" df) (value_count "neutral" df) (len df)).
Proof.
  apply sufficient_summary.
Qed.

Lemma summary_reports_the_counts_witness :
  get_signal_summary (scored_basic default_generator 0 (scenario 4 1 1))
  = Return (summary_of_counts (scored_basic default_generator 0 (scenario 4 1 1))
              0 4 1 1 6).
Proof.
  apply (summary_reports_the_counts default_generator 0 (scenario 4 1 1) 7).
  - vm_compute. discriminate.
  - left. vm_compute. reflexivity.
Defined.

Lemma summary_of_short_circuit (self : TradingSignalGenerator)
    (df : DataFrame) :
  get_signal_summary (insufficient self df) = Raise (KeyError "timestamp").
Proof.
  unfold get_signal_summary, WebApp.get. simpl.
  rewrite !lookup_empty. reflexivity.
Qed.

(** X17: the summary of a basic or weighted result exists exactly when
    the batch had at least min_articles rows.  The short-circuit result
    has no timestamp entry, so on an undersized batch the summary raises
    KeyError('timestamp'). *)
Theorem summary_needs_a_sufficient_batch (self : TradingSignalGenerator)
    (now : Z) (df : DataFrame) (r : SignalResult) :
  generate_basic_signal self now df = Return r \/
  generate_weighted_signal self now df = Return r ->
  ((exists s, get_signal_summary r = Return s) <->
   (min_articles self <= Z.of_nat (len df))%Z) /\
  ((Z.of_nat (len df) < min_articles self)%Z ->
   get_signal_summary r = Raise (KeyError "timestamp")).
Proof.
  intro H.
  assert (Hc : has_column df sentiment_column = true).
  { destruct H as [H | H].
    - apply basic_cases in H as [Hc _]. exact Hc.
    - apply weighted_cases in H as (b & Hb & _).
      apply basic_cases in Hb as [Hc _]. exact Hc. }
  assert (Hshort : (Z.of_nat (len df) < min_articles self)%Z ->
                   get_signal_summary r = Raise (KeyError "timestamp")).
  { intro Hlt.
    destruct (basic_weighted_short_circuit self now df Hc Hlt) as (Hb & Hw & _).
    assert (r = insufficient self df) as -> by (destruct H; congruence).
    apply summary_of_short_circuit. }
  split; [| exact Hshort]. split.
  - intros [s Hs].
    destruct (Z.lt_ge_cases (Z.of_nat (len df)) (min_articles self)) as [Hlt | Hge];
      [| exact Hge].
    rewrite (Hshort Hlt) in Hs. discriminate Hs.
  - intro Hge. eexists.
    apply (sufficient_summary self now df 0 r Hge).
    destruct H; auto.
Qed.

Lemma summary_needs_a_sufficient_batch_witness :
  get_signal_summary (insufficient default_generator (scenario 3 1 0))
  = Raise (KeyError "timestamp").
Proof.
  apply (proj2 (summary_needs_a_sufficient_batch default_generator 0
                  (scenario 3 1 0) (insufficient default_generator (scenario 3 1 0))
                  (or_introl eq_refl))).
  vm_compute. reflexivity.
Defined.

Lemma time_details_of_nothing (pp pn : Q) (d : Z) (c : nat) (k : string) :
  k ∉ time_keys -> time_details ∅ pp pn d c !! k = None.
Proof.
  intro Hk. unfold time_details.
  rewrite !lookup_insert_ne; [apply lookup_empty | ..];
    intros <-; apply Hk; unfold time_keys; set_solver.
Qed.

(** X18: when the time-weighted scorer turns the short-circuit result of
    an undersized batch into BUY or SELL, its summary is produced, at
    confidence 10.0%, and reports no article at all: the total and the
    three counts are 0, the percentages 0.0, and there is no ratio
    section, whatever the frame holds. *)
Theorem overriding_summary_counts_nothing (self : TradingSignalGenerator)
    (now : Z) (df : DataFrame) (recent_days : Z) (t : SignalResult) :
  (Z.of_nat (len df) < min_articles self)%Z ->
  generate_time_weighted_signal self now df recent_days = Return t ->
  signal t <> INSUFFICIENT_DATA ->
  exists s,
    get_signal_summary t = Return s /\
    (signal t = BUY \/ signal t = SELL) /\
    confidence_line s == 10 /\
    total_articles_line s = DInt 0 /\
    positive_line s = (DInt 0, 0) /\
    negative_line s = (DInt 0, 0) /\
    neutral_line s = (DInt 0, 0) /\
    ratios_lines s = None /\
    generated_line s = now.
Proof.
  intros Hlt Ht Hs.
  apply time_cases in Ht as (w & Hw & Hcase).
  assert (Hc : has_column df sentiment_column = true).
  { pose proof Hw as Hw'. apply weighted_cases in Hw' as (b & Hb & _).
    apply basic_cases in Hb as [Hc _]. exact Hc. }
  destruct (basic_weighted_short_circuit self now df Hc Hlt) as (_ & Hw' & _).
  assert (w = insufficient self df) as -> by congruence.
  destruct Hcase as [-> | (_ & _ & _ & _ & ->)]; [contradiction Hs; reflexivity |].
  assert (Hdir : signal (scored_time self now df recent_days (insufficient self df)) = BUY \/
                 signal (scored_time self now df recent_days (insufficient self df)) = SELL).
  { destruct (time_decision_signal self (insufficient self df)
                (time_weighted now recent_days "positive" df)
                (time_weighted now recent_days "negative" df)
                (time_pct now recent_days "positive" df)
                (time_pct now recent_days "negative" df)) as [E | [E | E]];
      [left; exact E | right; exact E |].
    exfalso. apply Hs. simpl. simpl in E. rewrite E. reflexivity. }
  eexists. split.
  - unfold get_signal_summary, WebApp.get, getitem.
    cbn [details scored_time timestamp].
    rewrite !time_details_of_nothing
      by (unfold time_keys; intro Hin;
          repeat (apply elem_of_cons in Hin as [Hin | Hin]; [discriminate Hin |]);
          apply elem_of_nil in Hin; exact Hin).
    cbn. reflexivity.
  - split; [exact Hdir |].
    cbn [confidence_line total_articles_line positive_line negative_line
         neutral_line ratios_lines generated_line].
    repeat split; try reflexivity.
    unfold format_percent. cbn [confidence scored_time].
    assert (Hconf : (time_decision self (insufficient self df)
                       (time_weighted now recent_days "positive" df)
                       (time_weighted now recent_days "negative" df)
                       (time_pct now recent_days "positive" df)
                       (time_pct now recent_days "negative" df)).2
                    = Py.min 0.95 (0.0 + 0.1)).
    { revert Hdir. unfold scored_time, time_decision. cbn [signal].
      repeat match goal with
             | |- context [if ?c then _ else _] => destruct c
             end; cbn [fst snd insufficient signal confidence];
        try reflexivity.
      intros [E | E]; discriminate E. }
    rewrite Hconf. vm_compute. reflexivity.
Qed.

Lemma overriding_summary_counts_nothing_witness :
  exists s,
    get_signal_summary (scored_time default_generator 0 (scenario 1 0 0) 7
                          (insufficient default_generator (scenario 1 0 0)))
    = Return s /\
    total_articles_line s = DInt 0 /\ ratios_lines s = None.
Proof.
  destruct (overriding_summary_counts_nothing default_generator 0
              (scenario 1 0 0) 7
              (scored_time default_generator 0 (scenario 1 0 0) 7
                 (insufficient default_generator (scenario 1 0 0))))
    as (s & Hs & _ & _ & Ht & _ & _ & _ & Hr & _).
  - vm_compute. reflexivity.
  - vm_compute. reflexivity.
  - vm_compute. discriminate.
  - exists s. auto.
Defined.

(** ** The convenience function *)

(** X19: generate_trading_signal rejects every method name other than
    'basic', 'weighted' and 'time_weighted' with a ValueError, whatever
    the frame is; with one of the three names it returns a result exactly
    when the frame has the label column: the default min_articles of 5
    rules out the division of an empty frame. *)
Theorem convenience_function_outcomes (now : Z) (df : DataFrame)
    (method : string) :
  (method ∉ ["basic"; "weighted"; "time_weighted"] ->
   generate_trading_signal now df method = Raise (ValueError method)) /\
  (method ∈ ["basic"; "weighted"; "time_weighted"] ->
   ((exists r, generate_trading_signal now df method = Return r) <->
    has_column df sentiment_column = true)).
Proof.
  split.
  - intro Hm. unfold generate_trading_signal.
    repeat (case_bool_decide; [exfalso; apply Hm; subst; set_solver |]).
    reflexivity.
  - intro Hm. split.
    + intros [r Hr]. unfold generate_trading_signal in Hr.
      repeat (case_bool_decide;
              [ first
                  [ apply basic_cases in Hr as [Hc _]; exact Hc
                  | apply weighted_cases in Hr as (b & Hb & _);
                    apply basic_cases in Hb as [Hc _]; exact Hc
                  | apply time_cases in Hr as (w & Hw & _);
                    apply weighted_cases in Hw as (b & Hb & _);
                    apply basic_cases in Hb as [Hc _]; exact Hc ] |]).
      discriminate Hr.
    + intro Hc. destruct (default_returns now df Hc) as (b & w & t & Hb & Hw & Ht).
      unfold generate_trading_signal.
      repeat (case_bool_decide; [eauto |]).
      exfalso.
      repeat (apply elem_of_cons in Hm as [Hm | Hm]; [contradiction |]).
      apply elem_of_nil in Hm. exact Hm.
Qed.

Lemma convenience_function_outcomes_witness :
  generate_trading_signal 0 (scenario 4 1 1) "consensus"
  = Raise (ValueError "consensus") /\
  has_column (scenario 4 1 1) sentiment_column = true.
Proof.
  split.
  - apply (proj1 (convenience_function_outcomes 0 (scenario 4 1 1) "consensus")).
    vm_compute. intro H. repeat (apply elem_of_cons in H as [H | H]; [discriminate H |]).
    apply elem_of_nil in H. exact H.
  - apply (proj2 (convenience_function_outcomes 0 (scenario 4 1 1) "weighted")).
    + set_solver.
    + eexists. vm_compute. reflexivity.
Defined.

(** ** The command-line run *)

Import CompleteAnalysis.

Lemma steps_recommendation (ext : Environment) (now : Z) (o : Outcome) :
  steps ext now = Return o ->
  (exists df, fetch_company_news ext = Return df /\ WebApp.empty df = true /\
              o = NoArticles) \/
  (exists df df' b w t,
     fetch_company_news ext = Return df /\ WebApp.empty df = false /\
     analyze_dataframe_comprehensive ext df = Return df' /\
     generate_basic_signal default_generator now df' = Return b /\
     generate_weighted_signal default_generator now df' = Return w /\
     generate_time_weighted_signal default_generator now df' 7 = Return t /\
     (exists s, get_signal_summary b = Return s) /\
     let q := builtin_sum [confidence b; confidence w; confidence t] / 3 in
     o = Recommendation (WebApp.consensus [signal b; signal w; signal t]) q
           (risk_assessment q)).
Proof.
  unfold steps.
  destruct (fetch_company_news ext) as [df | e]; simpl; [| discriminate].
  destruct (WebApp.empty df) eqn:He.
  { intros [= <-]. left. eauto. }
  destruct (analyze_dataframe_comprehensive ext df) as [df' | e] eqn:Ha;
    simpl; [| discriminate].
  destruct (generate_basic_signal default_generator now df') as [b | e] eqn:Hb;
    simpl; [| discriminate].
  destruct (generate_weighted_signal default_generator now df') as [w | e] eqn:Hw;
    simpl; [| discriminate].
  destruct (generate_time_weighted_signal default_generator now df' 7)
    as [t | e] eqn:Ht; simpl; [| discriminate].
  destruct (get_signal_summary b) as [sb | e] eqn:Hsb; simpl; [| discriminate].
  destruct (get_signal_summary w) as [sw | e]; simpl; [| discriminate].
  destruct (get_signal_summary t) as [st | e]; simpl; [| discriminate].
  destruct (create_charts ext df' _) as [[] | e]; simpl; [| discriminate].
  destruct (save_results ext df' _ _) as [[] | e]; simpl; [| discriminate].
  intros [= <-]. right. exists df, df', b, w, t. eauto 10.
Qed.

Lemma summarised_basic_is_scored (self : TradingSignalGenerator) (now : Z)
    (df : DataFrame) (b : SignalResult) (s : Summary) :
  generate_basic_signal self now df = Return b ->
  get_signal_summary b = Return s ->
  (min_articles self <= Z.of_nat (len df))%Z /\ b = scored_basic self now df.
Proof.
  intros Hb Hs. apply basic_cases in Hb as [_ [[_ ->] | (Hge & _ & ->)]].
  - rewrite summary_of_short_circuit in Hs. discriminate Hs.
  - split; [exact Hge | reflexivity].
Qed.

(** X20: how the command-line run ends.  It reports that no article was
    found exactly when the fetcher returns an empty frame.  It reaches the
    final recommendation only for an analysed frame that has the label
    column and at least 5 rows, and it does reach it for such a frame when
    the charts and the files raise nothing.  On an analysed frame of fewer
    than 5 rows it always ends in the error handler, with the
    KeyError('timestamp') of the first summary. *)
Theorem command_line_run_outcomes (ext : Environment) (now : Z) :
  (main ext now = NoArticles <->
   exists df, fetch_company_news ext = Return df /\ WebApp.empty df = true) /\
  (forall c q k, main ext now = Recommendation c q k ->
     exists df df',
       fetch_company_news ext = Return df /\ WebApp.empty df = false /\
       analyze_dataframe_comprehensive ext df = Return df' /\
       has_column df' sentiment_column = true /\ (5 <= len df')%nat) /\
  (forall df df',
     fetch_company_news ext = Return df -> WebApp.empty df = false ->
     analyze_dataframe_comprehensive ext df = Return df' ->
     has_column df' sentiment_column = true ->
     ((len df' < 5)%nat -> main ext now = Error (KeyError "timestamp")) /\
     ((5 <= len df')%nat ->
      (forall c, create_charts ext df' c = Return tt) ->
      (forall c q, save_results ext df' c q = Return tt) ->
      exists c q k, main ext now = Recommendation c q k)).
Proof.
  unfold main. split; [split | split].
  - destruct (steps ext now) as [o | e] eqn:Hs; [| discriminate].
    intros ->. apply steps_recommendation in Hs as [(df & Hf & He & _) | H].
    + eauto.
    + destruct H as (df & df' & b & w & t & _ & _ & _ & _ & _ & _ & _ & H).
      discriminate H.
  - intros (df & Hf & He). unfold steps. rewrite Hf. simpl. rewrite He.
    reflexivity.
  - intros c q k. destruct (steps ext now) as [o | e] eqn:Hs; [| discriminate].
    intros ->. apply steps_recommendation in Hs as [(df & _ & _ & H) | H];
      [discriminate H |].
    destruct H as (df & df' & b & w & t & Hf & He & Ha & Hb & _ & _ & [s Hsum] & _).
    exists df, df'. repeat split; try assumption.
    + apply basic_cases in Hb as [Hc _]. exact Hc.
    + destruct (summarised_basic_is_scored _ _ _ _ _ Hb Hsum) as [Hge _].
      simpl in Hge. lia.
  - intros df df' Hf He Ha Hc. split.
    + intro Hlt. unfold steps. rewrite Hf. simpl. rewrite He, Ha. simpl.
      assert (Hlt' : (Z.of_nat (len df') < min_articles default_generator)%Z)
        by (simpl; lia).
      destruct (basic_weighted_short_circuit default_generator now df' Hc Hlt')
        as (Hb & Hw & _).
      rewrite Hb, Hw. simpl.
      destruct (time_returns_with_weighted _ _ _ 7 _ Hw) as [t Ht].
      rewrite Ht. simpl. reflexivity.
    + intros Hge Hcharts Hsave. unfold steps. rewrite Hf. simpl.
      rewrite He, Ha. simpl.
      destruct (default_returns now df' Hc) as (b & w & t & Hb & Hw & Ht).
      assert (Hge' : (min_articles default_generator <= Z.of_nat (len df'))%Z)
        by (simpl; lia).
      rewrite Hb, Hw, Ht. simpl.
      rewrite (sufficient_summary default_generator now df' 7 b Hge')
        by (left; exact Hb).
      rewrite (sufficient_summary default_generator now df' 7 w Hge')
        by (right; left; exact Hw).
      rewrite (sufficient_summary default_generator now df' 7 t Hge')
        by (right; right; exact Ht).
      simpl. rewrite Hcharts. simpl. rewrite Hsave. simpl. eauto.
Qed.

Lemma command_line_run_outcomes_witness :
  main (quiet_collaborators (scenario 3 1 0)) 0 = Error (KeyError "timestamp") /\
  exists c q k, main (quiet_collaborators (scenario 4 1 1)) 0 = Recommendation c q k.
Proof.
  split.
  - apply (proj2 (proj2 (command_line_run_outcomes
                           (quiet_collaborators (scenario 3 1 0)) 0))
             (scenario 3 1 0) (scenario 3 1 0));
      try reflexivity.
    vm_compute. lia.
  - apply (proj2 (proj2 (command_line_run_outcomes
                           (quiet_collaborators (scenario 4 1 1)) 0))
             (scenario 4 1 1) (scenario 4 1 1));
      try reflexivity.
    vm_compute. lia.
Defined.

(** *** The risk assessment *)

Lemma basic_decision_hold (self : TradingSignalGenerator) (p n t : nat) :
  (basic_decision self p n t).1.1 = HOLD ->
  (basic_decision self p n t).2 <= 0.5.
Proof.
  unfold basic_decision.
  repeat match goal with
         | |- context [if ?c then _ else _] => destruct c
         end; cbn [fst snd]; try discriminate; intros _.
  match goal with
  | |- context [Qabs ?x] =>
      pose proof (Qabs_nonneg x) as H; revert H; generalize (Qabs x)
  end.
  intros a H. lra.
Qed.

Lemma weighted_decision_le (self : TradingSignalGenerator) (b : SignalResult)
    (wp wn : Q) :
  0 <= confidence_weight self ->
  (weighted_decision self b wp wn).2
  <= confidence b + confidence_weight self * 0.2.
Proof.
  intro Hw. unfold weighted_decision.
  repeat match goal with
         | |- context [if ?c then _ else _] => destruct c
         end; cbn [fst snd]; try apply PyFacts.min_le_r; lra.
Qed.

Lemma time_decision_le (self : TradingSignalGenerator) (w : SignalResult)
    (tp tn pp pn : Q) :
  (time_decision self w tp tn pp pn).2 <= confidence w + 0.1.
Proof.
  unfold time_decision.
  repeat match goal with
         | |- context [if ?c then _ else _] => destruct c
         end; cbn [fst snd]; try apply PyFacts.min_le_r; lra.
Qed.

Lemma round3_le_decimal (x c : Q) (n : Z) :
  c == inject_Z n / 1000 -> x <= c -> Py.round x 3 <= c.
Proof.
  intros E H. rewrite E in *. apply PyFacts.round3_upper. exact H.
Qed.

(** With three votes that can only move to BUY or SELL from one stage to
    the next, a HOLD consensus needs a HOLD at the first stage. *)
Lemma hold_consensus_starts_with_hold (sb sw st : Signal) :
  sb = BUY \/ sb = SELL \/ sb = HOLD ->
  sw = BUY \/ sw = SELL \/ sw = sb ->
  st = BUY \/ st = SELL \/ st = sw ->
  WebApp.consensus [sb; sw; st] = HOLD -> sb = HOLD.
Proof.
  intros [-> | [-> | ->]] [-> | [-> | ->]] [-> | [-> | ->]];
    vm_compute; congruence.
Qed.

Lemma default_chain (now : Z) (df : DataFrame) (b w t : SignalResult) :
  generate_basic_signal default_generator now df = Return b ->
  generate_weighted_signal default_generator now df = Return w ->
  generate_time_weighted_signal default_generator now df 7 = Return t ->
  (signal w = BUY \/ signal w = SELL \/ signal w = signal b) /\
  (signal t = BUY \/ signal t = SELL \/ signal t = signal w) /\
  confidence w <= confidence b + 0.06 /\
  confidence t <= confidence w + 0.1.
Proof.
  intros Hb Hw Ht.
  pose proof (basic_decimal _ _ _ _ Hb) as [nb Enb].
  pose proof (weighted_decimal _ _ _ _ Hw) as [nw Enw].
  apply time_cases in Ht as (w' & Hw' & Ht).
  assert (w' = w) as -> by congruence. clear Hw'.
  apply weighted_cases in Hw as (b' & Hb' & Hw).
  assert (b' = b) as -> by congruence. clear Hb'.
  assert (Hsw : signal w = BUY \/ signal w = SELL \/ signal w = signal b).
  { destruct Hw as [-> | (_ & _ & _ & ->)]; [auto |].
    apply weighted_decision_signal. }
  assert (Hcw : confidence w <= confidence b + 0.06).
  { destruct Hw as [-> | (_ & _ & _ & ->)]; [lra |].
    cbn [confidence scored_weighted].
    apply (round3_le_decimal _ _ (nb + 60)).
    - rewrite Enb. rewrite inject_Z_plus. rewrite !PyFacts.div_1000.
      change (inject_Z 60) with 60. lra.
    - eapply Qle_trans; [apply weighted_decision_le; simpl; lra |].
      simpl. lra. }
  repeat split; try assumption.
  - destruct Ht as [-> | (_ & _ & _ & _ & ->)]; [auto |].
    apply time_decision_signal.
  - destruct Ht as [-> | (_ & _ & _ & _ & ->)]; [lra |].
    cbn [confidence scored_time].
    apply (round3_le_decimal _ _ (nw + 100)).
    + rewrite Enw. rewrite inject_Z_plus. rewrite !PyFacts.div_1000.
      change (inject_Z 100) with 100. lra.
    + apply time_decision_le.
Qed.

(** X21: the final recommendation of the command-line run.  The
    consensus is BUY, SELL or HOLD and the unrounded mean confidence lies
    in [0, 14/15].  A HOLD recommendation always has a mean confidence
    below 0.6 and is therefore rated HIGH RISK; LOW RISK and MEDIUM RISK
    are only ever attached to BUY or SELL. *)
Theorem hold_is_always_high_risk (ext : Environment) (now : Z) (c : Signal)
    (q : Q) (k : RiskLevel) :
  main ext now = Recommendation c q k ->
  (c = BUY \/ c = SELL \/ c = HOLD) /\
  0 <= q <= 14 # 15 /\
  k = risk_assessment q /\
  (c = HOLD -> q < 0.6 /\ k = HIGH_RISK) /\
  (k <> HIGH_RISK -> c = BUY \/ c = SELL).
Proof.
  unfold main. destruct (steps ext now) as [o | e] eqn:Hs; [| discriminate].
  intros ->. apply steps_recommendation in Hs as [(df & _ & _ & H) | H];
    [discriminate H |].
  destruct H as (df & df' & b & w & t & _ & _ & _ & Hb & Hw & Ht & [s Hsum] & H).
  cbv zeta in H. injection H as -> -> ->.
  destruct (summarised_basic_is_scored _ _ _ _ _ Hb Hsum) as [_ Escored].
  destruct (default_chain now df' b w t Hb Hw Ht) as (Hsw & Hst & Hcw & Hct).
  pose proof (basic_upper _ _ _ _ Hb) as Ub.
  pose proof (weighted_upper _ _ _ _ Hw) as Uw.
  pose proof (time_upper _ _ _ _ _ Ht) as Ut.
  pose proof (basic_lower _ _ _ _ default_is_sane Hb) as Lb.
  pose proof (weighted_lower _ _ _ _ default_is_sane Hw) as Lw.
  pose proof (time_lower _ _ _ _ _ default_is_sane Ht) as Lt.
  assert (Hsb : signal b = BUY \/ signal b = SELL \/ signal b = HOLD).
  { rewrite Escored. apply basic_decision_signal. }
  assert (Hhold : WebApp.consensus [signal b; signal w; signal t] = HOLD ->
                  builtin_sum [confidence b; confidence w; confidence t] / 3 < 0.6).
  { intro Hc.
    pose proof (hold_consensus_starts_with_hold _ _ _ Hsb Hsw Hst Hc) as Eb.
    assert (Cb : confidence b <= 0.5).
    { rewrite Escored in Eb |- *. cbn [confidence scored_basic].
      apply (round3_le_decimal _ _ 500); [reflexivity |].
      apply basic_decision_hold. exact Eb. }
    unfold builtin_sum, Qdiv. cbn [fold_left]. change (/ 3) with (1 # 3). lra. }
  assert (Hrange : 0 <= builtin_sum [confidence b; confidence w; confidence t] / 3
                   <= 14 # 15).
  { unfold builtin_sum, Qdiv. cbn [fold_left]. change (/ 3) with (1 # 3).
    split; lra. }
  split; [apply consensus_values |].
  split; [exact Hrange |].
  split; [reflexivity |].
  split.
  - intro Hc. specialize (Hhold Hc). split; [exact Hhold |].
    unfold risk_assessment.
    destruct (Py.gtb _ 0.8) eqn:E1; [apply PyFacts.gtb_gt in E1; lra |].
    destruct (Py.gtb _ 0.6) eqn:E2; [apply PyFacts.gtb_gt in E2; lra |].
    reflexivity.
  - intro Hk.
    destruct (consensus_values [signal b; signal w; signal t]) as [E | [E | E]];
      [auto | auto |].
    exfalso. apply Hk. specialize (Hhold E).
    unfold risk_assessment.
    destruct (Py.gtb _ 0.8) eqn:E1; [apply PyFacts.gtb_gt in E1; lra |].
    destruct (Py.gtb _ 0.6) eqn:E2; [apply PyFacts.gtb_gt in E2; lra |].
    reflexivity.
Qed.

Lemma hold_is_always_high_risk_witness :
  main (quiet_collaborators (scenario 3 3 0)) 0
  = Recommendation HOLD (12 # 24) HIGH_RISK /\
  (12 # 24) < 0.6.
Proof.
  assert (E : main (quiet_collaborators (scenario 3 3 0)) 0
              = Recommendation HOLD (12 # 24) HIGH_RISK)
    by (vm_compute; reflexivity).
  split; [exact E |].
  apply (proj1 (proj2 (proj2 (proj2 (hold_is_always_high_risk _ _ _ _ _ E))))
           eq_refl).
Defined.

(** * Further properties: the sentiment labels *)

(** ** The two analyzers *)

Lemma gtb_asym (x y : Q) : Py.gtb x y = true -> Py.gtb y x = false.
Proof.
  intro H. apply PyFacts.gtb_gt in H.
  destruct (Py.gtb y x) eqn:E; [| reflexivity].
  apply PyFacts.gtb_gt in E. lra.
Qed.

(** X22: the quick analyzer and the analyzer class label every text
    alike: [analyze_sentiment] returns the label of [analyze_text],
    although the first tests both conditions of a label at once and the
    second nests them. *)
Theorem analyzers_agree (text : SentimentAnalyzer.Text) :
  SentimentAnalyzer.analyze_sentiment text
  = SentimentAnalyzer.label (SentimentAnalyzer.analyze_text text).
Proof.
  destruct text as [| | results]; [reflexivity | reflexivity |].
  unfold SentimentAnalyzer.analyze_sentiment, SentimentAnalyzer.analyze_text.
  set (p := (SentimentAnalyzer.scores results).1).
  set (n := (SentimentAnalyzer.scores results).2).
  destruct (Py.gtb p n) eqn:E; [rewrite (gtb_asym _ _ E) |];
    destruct (Py.gtb p 0.6), (Py.gtb n p), (Py.gtb n 0.6); reflexivity.
Qed.

(** X23: what [analyze_text] returns.  The confidence is always the
    larger of the two scores it reports.  The label is 'positive' exactly
    when the positive score exceeds both the negative score and 0.6,
    'negative' in the mirrored case, and 'neutral' otherwise; so a label
    other than 'neutral' always carries a confidence above 0.6, and a
    neutral label with a confidence above 0.6 means that the two scores
    are equal. *)
Theorem label_follows_the_larger_score (text : SentimentAnalyzer.Text) :
  let r := SentimentAnalyzer.analyze_text text in
  let p := SentimentAnalyzer.positive_score r in
  let n := SentimentAnalyzer.negative_score r in
  SentimentAnalyzer.confidence r = SentimentAnalyzer.max p n /\
  (SentimentAnalyzer.label r = "positive" <-> n < p /\ 0.6 < p) /\
  (SentimentAnalyzer.label r = "negative" <-> p < n /\ 0.6 < n) /\
  (SentimentAnalyzer.label r = "neutral" <->
   ~ (n < p /\ 0.6 < p) /\ ~ (p < n /\ 0.6 < n)) /\
  (SentimentAnalyzer.label r <> "neutral" ->
   0.6 < SentimentAnalyzer.confidence r) /\
  (SentimentAnalyzer.label r = "neutral" ->
   0.6 < SentimentAnalyzer.confidence r -> p == n).
Proof.
  destruct text as [| | results].
  1, 2: cbv zeta; simpl; repeat split; try discriminate; try reflexivity;
    try (intros [H1 H2]; revert H1 H2; unfold Qlt; simpl; lia);
    try (intros _ [H1 H2]; revert H1 H2; unfold Qlt; simpl; lia);
    try (intro H; exfalso; apply H; reflexivity).
  cbv zeta. unfold SentimentAnalyzer.analyze_text.
  set (p := (SentimentAnalyzer.scores results).1).
  set (n := (SentimentAnalyzer.scores results).2).
  assert (Hmax : forall x y : Q, y <= x -> SentimentAnalyzer.max x y = x).
  { intros x y H. unfold SentimentAnalyzer.max.
    apply PyFacts.ltb_ge in H. unfold Py.gtb. rewrite H. reflexivity. }
  assert (Hmax' : forall x y : Q, x < y -> SentimentAnalyzer.max x y = y).
  { intros x y H. unfold SentimentAnalyzer.max.
    apply PyFacts.gtb_gt in H. rewrite H. reflexivity. }
  destruct (Py.gtb p n) eqn:Epn.
  - apply PyFacts.gtb_gt in Epn.
    destruct (Py.gtb p 0.6) eqn:E6; cbn;
      rewrite Hmax by lra;
      [apply PyFacts.gtb_gt in E6 | apply PyFacts.ltb_ge in E6];
      repeat split; try discriminate; try tauto; try lra;
        try (intros [? ?]; lra); try (intro H; exfalso; apply H; reflexivity).
  - apply PyFacts.ltb_ge in Epn.
    destruct (Py.gtb n p) eqn:Enp.
    + apply PyFacts.gtb_gt in Enp.
      destruct (Py.gtb n 0.6) eqn:E6; cbn;
        rewrite Hmax' by lra;
        [apply PyFacts.gtb_gt in E6 | apply PyFacts.ltb_ge in E6];
        repeat split; try discriminate; try tauto; try lra;
          try (intros [? ?]; lra); try (intro H; exfalso; apply H; reflexivity).
    + apply PyFacts.ltb_ge in Enp. cbn. rewrite Hmax by lra.
      repeat split; try discriminate; try tauto; try lra;
        try (intros [? ?]; lra); try (intro H; exfalso; apply H; reflexivity).
Qed.

(** ** Frames that come from the analyzer *)

Lemma scores_nonneg (results : list (SentimentAnalyzer.ScoreLabel * Q)) :
  Forall (fun r => 0 <= r.2) results ->
  0 <= (SentimentAnalyzer.scores results).1 /\
  0 <= (SentimentAnalyzer.scores results).2.
Proof.
  unfold SentimentAnalyzer.scores.
  assert (H : forall acc : Q * Q, 0 <= acc.1 -> 0 <= acc.2 ->
            Forall (fun r : SentimentAnalyzer.ScoreLabel * Q => 0 <= r.2) results ->
            let out :=
              fold_left
                (fun (acc : Q * Q) (result : SentimentAnalyzer.ScoreLabel * Q) =>
                   match result.1 with
                   | SentimentAnalyzer.Positive => (result.2, acc.2)
                   | SentimentAnalyzer.Negative => (acc.1, result.2)
                   | SentimentAnalyzer.Unrelated => acc
                   end) results acc in
            0 <= out.1 /\ 0 <= out.2).
  { induction results as [| [l s] rest IH]; intros acc H1 H2 Hall.
    - simpl. split; assumption.
    - apply Forall_cons in Hall as [Hs Hall]. simpl in Hs. simpl.
      apply IH; [| | exact Hall]; destruct l; simpl; assumption. }
  intro Hall. apply H; [simpl; lra | simpl; lra | exact Hall].
Qed.

(** What the analyzer guarantees about the label and the confidence of
    a row whose scores are not negative. *)
Lemma analysed_row (a : SentimentAnalyzer.FetchedArticle) :
  plausible_scores a ->
  let r := SentimentAnalyzer.analyze_text (SentimentAnalyzer.combined_text a) in
  0 <= SentimentAnalyzer.confidence r /\
  (SentimentAnalyzer.label r = "positive" \/
   SentimentAnalyzer.label r = "negative" ->
   0.6 < SentimentAnalyzer.confidence r) /\
  (SentimentAnalyzer.label r = "positive" \/
   SentimentAnalyzer.label r = "negative" \/
   SentimentAnalyzer.label r = "neutral").
Proof.
  unfold plausible_scores. cbv zeta.
  destruct (SentimentAnalyzer.combined_text a) as [| | results].
  1, 2: intros _; simpl; repeat split; try lra; auto;
    intros [H | H]; discriminate H.
  intro Hall. apply scores_nonneg in Hall as [Hp Hn].
  unfold SentimentAnalyzer.analyze_text, SentimentAnalyzer.max.
  revert Hp Hn.
  generalize (SentimentAnalyzer.scores results).1,
             (SentimentAnalyzer.scores results).2.
  intros p n Hp Hn.
  destruct (Py.gtb p n) eqn:E1; [destruct (Py.gtb p 0.6) eqn:E2 |
    destruct (Py.gtb n p) eqn:E3; [destruct (Py.gtb n 0.6) eqn:E4 |]];
    cbn; try rewrite E3; try rewrite (gtb_asym _ _ E1);
    repeat split; auto;
    try (intros [H | H]; discriminate H);
    try (intros _; apply PyFacts.gtb_gt; assumption).
Qed.

Lemma add_column_elem (cols adds : list string) (c : string) :
  c ∈ fold_left SentimentAnalyzer.add_column adds cols <-> c ∈ cols \/ c ∈ adds.
Proof.
  revert cols. induction adds as [| x rest IH]; intro cols; simpl.
  - split; [auto | intros [H | H]; [exact H | apply elem_of_nil in H; contradiction]].
  - rewrite IH. unfold SentimentAnalyzer.add_column.
    case_bool_decide as Hx; rewrite ?elem_of_app, ?elem_of_cons, ?elem_of_nil.
    + split; [tauto |]. intros [H | [-> | H]]; tauto.
    + tauto.
Qed.

Lemma analysed_columns (cols : list string)
    (articles : list SentimentAnalyzer.FetchedArticle) :
  let df := SentimentAnalyzer.analyze_dataframe_comprehensive cols articles in
  has_column df sentiment_column = true /\
  has_column df confidence_column = true /\
  (has_column df date_column = true <-> date_column ∈ cols).
Proof.
  cbv zeta. unfold has_column, SentimentAnalyzer.analyze_dataframe_comprehensive.
  cbn [columns].
  rewrite !bool_decide_eq_true. rewrite !add_column_elem.
  repeat split.
  - right. unfold SentimentAnalyzer.columns_to_add, sentiment_column. set_solver.
  - right. unfold SentimentAnalyzer.columns_to_add, confidence_column. set_solver.
  - intros [H | H]; [exact H |]. exfalso.
    unfold SentimentAnalyzer.columns_to_add, date_column in H.
    repeat (apply elem_of_cons in H as [H | H]; [discriminate H |]).
    apply elem_of_nil in H. exact H.
  - auto.
Qed.

Lemma sum_above (c : Q) (xs : list Q) :
  Forall (fun x => c <= x) xs ->
  c * Py.of_int (length xs) <= Py.sum xs.
Proof.
  induction 1 as [| x rest Hx _ IH].
  - change (c * 0 <= 0). lra.
  - cbn [length]. rewrite of_int_succ.
    change (Py.sum (x :: rest)) with (x + Py.sum rest). lra.
Qed.

Lemma analysed_with_label (cols : list string)
    (articles : list SentimentAnalyzer.FetchedArticle) (l : string) :
  Forall plausible_scores articles ->
  let df := SentimentAnalyzer.analyze_dataframe_comprehensive cols articles in
  Forall (fun x => 0 <= x) (map combined_sentiment_confidence (with_label l df)) /\
  (l = "positive" \/ l = "negative" ->
   Forall (fun x => 0.6 <= x)
     (map combined_sentiment_confidence (with_label l df))).
Proof.
  intro Hall. cbv zeta. unfold with_label. simpl.
  induction Hall as [| a rest Ha _ IH]; [split; intros; constructor |].
  destruct IH as [IH1 IH2].
  destruct (analysed_row a Ha) as (H0 & H6 & _).
  cbn [map]. rewrite filter_cons. cbn [combined_sentiment_label].
  destruct (decide _) as [E | E].
  - cbn [map combined_sentiment_confidence]. split.
    + constructor; assumption.
    + intro Hl. constructor; [| apply IH2; exact Hl].
      apply Qlt_le_weak. apply H6. rewrite E. exact Hl.
  - split; assumption.
Qed.

Lemma analysed_counts (cols : list string)
    (articles : list SentimentAnalyzer.FetchedArticle) :
  Forall plausible_scores articles ->
  let df := SentimentAnalyzer.analyze_dataframe_comprehensive cols articles in
  (value_count "positive" df + value_count "negative" df
   + value_count "neutral" df = len df)%nat.
Proof.
  intro Hall. cbv zeta. unfold value_count, with_label, len. simpl.
  induction Hall as [| a rest Ha _ IH]; [reflexivity |].
  destruct (analysed_row a Ha) as (_ & _ & Hl).
  cbn [map length]. rewrite !filter_cons. cbn [combined_sentiment_label].
  destruct Hl as [E | [E | E]]; rewrite E;
    repeat (destruct (decide _) as [? | ?]; try discriminate; try contradiction);
    cbn [length]; lia.
Qed.

(** X24: the frame the analyzer hands to the scorers, for pipeline
    scores that are not negative.  It has the label and the confidence
    column and one row per article; every row is labelled positive,
    negative or neutral, so the three counts add up to the number of rows;
    and the confidence sum of the positive (negative) rows is at least 0.6
    times their number, while the sum of the neutral rows is not
    negative. *)
Theorem analysed_frame_invariants (cols : list string)
    (articles : list SentimentAnalyzer.FetchedArticle) :
  Forall plausible_scores articles ->
  let df := SentimentAnalyzer.analyze_dataframe_comprehensive cols articles in
  has_column df sentiment_column = true /\
  has_column df confidence_column = true /\
  len df = length articles /\
  (value_count "positive" df + value_count "negative" df
   + value_count "neutral" df = len df)%nat /\
  0.6 * Py.of_int (value_count "positive" df) <= label_weight "positive" df /\
  0.6 * Py.of_int (value_count "negative" df) <= label_weight "negative" df /\
  0 <= label_weight "neutral" df.
Proof.
  intro Hall. cbv zeta.
  destruct (analysed_columns cols articles) as (Hc1 & Hc2 & _).
  split; [exact Hc1 |]. split; [exact Hc2 |].
  split; [unfold len; simpl; apply length_map |].
  split; [apply analysed_counts; exact Hall |].
  unfold label_weight, value_count.
  destruct (analysed_with_label cols articles "positive" Hall) as [_ Hp].
  destruct (analysed_with_label cols articles "negative" Hall) as [_ Hn].
  destruct (analysed_with_label cols articles "neutral" Hall) as [Hu _].
  split; [| split].
  - rewrite <- (length_map combined_sentiment_confidence).
    apply sum_above. apply Hp. left. reflexivity.
  - rewrite <- (length_map combined_sentiment_confidence).
    apply sum_above. apply Hn. right. reflexivity.
  - pose proof (sum_above 0 _ Hu) as H. lra.
Qed.

Lemma analysed_frame_invariants_witness :
  let df := SentimentAnalyzer.analyze_dataframe_comprehensive []
              [article_scored 0.9 0.1; article_scored 0.2 0.8;
               article_scored 0.55 0.45] in
  (value_count "positive" df + value_count "negative" df
   + value_count "neutral" df = len df)%nat /\
  0.6 * Py.of_int (value_count "positive" df) <= label_weight "positive" df.
Proof.
  cbv zeta.
  assert (H : Forall plausible_scores
                [article_scored 0.9 0.1; article_scored 0.2 0.8;
                 article_scored 0.55 0.45]).
  { repeat constructor; unfold Qle; simpl; lia. }
  pose proof (analysed_frame_invariants [] _ H) as (_ & _ & _ & H1 & H2 & _).
  split; [exact H1 | exact H2].
Defined.

(** X25: on a frame that comes from the analyzer (scores not negative),
    with at least min_articles rows, a positive row and no negative row,
    the weighted stage never falls back and never keeps the basic
    confidence: the positive rows weigh more than 0.6 each, so the
    confidence-weighted BUY test passes, the BUY of the basic stage and
    its reason stay, and the confidence is
    round(min(0.95, basic + confidence_weight * 0.2), 3). *)
Theorem one_sided_batch_gets_the_bump (self : TradingSignalGenerator)
    (now : Z) (cols : list string)
    (articles : list SentimentAnalyzer.FetchedArticle) :
  Forall plausible_scores articles ->
  let df := SentimentAnalyzer.analyze_dataframe_comprehensive cols articles in
  (min_articles self <= Z.of_nat (len df))%Z ->
  (0 < value_count "positive" df)%nat ->
  value_count "negative" df = 0%nat ->
  exists b w,
    generate_basic_signal self now df = Return b /\
    generate_weighted_signal self now df = Return w /\
    signal b = BUY /\ signal w = BUY /\ reason w = reason b /\
    confidence w
    = Py.round (Py.min 0.95 (confidence b + confidence_weight self * 0.2)) 3.
Proof.
  intros Hall df Hmin Hpos Hneg.
  destruct (analysed_frame_invariants cols articles Hall)
    as (Hc & Hcc & _ & _ & Hwp & _ & Hwu).
  fold df in Hc, Hcc, Hwp, Hwu.
  assert (Hlen : (0 < len df)%nat)
    by (pose proof (value_count_le_len "positive" df); lia).
  pose proof (basic_sufficient self now df Hc Hmin Hlen) as Hb.
  assert (Hsb : signal (scored_basic self now df) = BUY).
  { unfold scored_basic. cbn [signal]. rewrite Hneg.
    rewrite basic_decision_no_negative by exact Hpos. reflexivity. }
  assert (Hp : 0 < label_weight "positive" df).
  { pose proof (PyFacts.of_int_pos _ Hpos) as H. 
    eapply Qlt_le_trans; [| exact Hwp]. nra. }
  assert (Hn : label_weight "negative" df = 0).
  { unfold label_weight. unfold value_count in Hneg.
    apply length_zero_iff_nil in Hneg. rewrite Hneg. reflexivity. }
  assert (Htw : 0 < total_weight df) by (unfold total_weight; rewrite Hn; lra).
  assert (Htw' : ~ (total_weight df == 0)) by lra.
  assert (Hsb' : signal (scored_basic self now df) <> INSUFFICIENT_DATA)
    by (rewrite Hsb; discriminate).
  pose proof (weighted_sufficient self now df _ Hcc Hb Hsb' Htw') as Hw.
  exists (scored_basic self now df),
         (scored_weighted self now df (scored_basic self now df)).
  split; [exact Hb |]. split; [exact Hw |]. split; [exact Hsb |].
  assert (Hgt : Py.gtb (weighted_pct "positive" df)
                  (weighted_pct "negative" df * positive_threshold self) = true).
  { apply PyFacts.gtb_gt. unfold weighted_pct. rewrite Hn.
    assert (E : 0 / total_weight df * 100 * positive_threshold self == 0)
      by (unfold Qdiv; ring).
    rewrite E.
    pose proof (PyFacts.div_pos _ _ Hp Htw) as H.
    revert H. generalize (label_weight "positive" df / total_weight df).
    intros q H. lra. }
  unfold scored_weighted, weighted_decision. rewrite Hgt, Hsb.
  rewrite bool_decide_eq_false_2 by (intro H; apply H; reflexivity).
  cbn [signal reason confidence fst snd]. repeat split; reflexivity.
Qed.

Lemma one_sided_batch_gets_the_bump_witness :
  let df := SentimentAnalyzer.analyze_dataframe_comprehensive []
              [article_scored 0.9 0.1; article_scored 0.8 0.2;
               article_scored 0.7 0.3; article_scored 0.55 0.45;
               article_scored 0.5 0.5] in
  exists b w,
    generate_basic_signal default_generator 0 df = Return b /\
    generate_weighted_signal default_generator 0 df = Return w /\
    signal b = BUY /\ signal w = BUY /\ reason w = reason b /\
    confidence w
    = Py.round (Py.min 0.95 (confidence b + confidence_weight default_generator * 0.2)) 3.
Proof.
  cbv zeta.
  apply (one_sided_batch_gets_the_bump default_generator 0 []
           [article_scored 0.9 0.1; article_scored 0.8 0.2;
            article_scored 0.7 0.3; article_scored 0.55 0.45;
            article_scored 0.5 0.5]).
  - repeat constructor; unfold Qle; simpl; lia.
  - vm_compute. discriminate.
  - vm_compute. lia.
  - vm_compute. reflexivity.
Defined.

(** * Further properties: the pagination loop of the fetcher *)

Section Pagination.

Import NewsAPIFetcher.

Variable ArticleData : Type.
Variable get : Z -> Response ArticleData.
Variable max_articles : Z.

Lemma process_spec (articles : list (RawArticle ArticleData))
    (data : list ArticleData) (f : Z) :
  exists d,
    (process max_articles articles data f).1.1 = data ++ d /\
    (process max_articles articles data f).1.2 = (f + Z.of_nat (length d))%Z /\
    d `prefix_of` omap well_formed articles /\
    (f + Z.of_nat (length d) <= Z.max f max_articles)%Z /\
    ((process max_articles articles data f).2 = false ->
     (max_articles <= f + Z.of_nat (length d))%Z \/
     (d = omap well_formed articles /\ length d = length articles)) /\
    ((process max_articles articles data f).2 = false ->
     (f < max_articles)%Z -> articles <> [] -> (1 <= length d)%nat).
Proof.
  revert data f. induction articles as [| a rest IH]; intros data f.
  - exists []. simpl. rewrite app_nil_r.
    repeat split; try reflexivity; try lia; auto.
    intros _ _ H. contradiction.
  - simpl. destruct (Z.geb_spec f max_articles) as [Hge | Hlt].
    + exists []. simpl. rewrite app_nil_r.
      repeat split; try reflexivity; try lia; try apply prefix_nil.
    + destruct a as [x |].
      * destruct (IH (data ++ [x]) (f + 1)%Z)
          as (d & H1 & H2 & H3 & H4 & H5 & H6).
        exists (x :: d). rewrite H1, H2. cbn [length omap well_formed].
        repeat split.
        -- rewrite <- app_assoc. reflexivity.
        -- lia.
        -- simpl. apply prefix_cons. exact H3.
        -- lia.
        -- intro Hr. destruct (H5 Hr) as [H | [H H']].
           ++ left. lia.
           ++ right. split; [simpl; f_equal; exact H | simpl; f_equal; exact H'].
        -- intros _ _ _. lia.
      * exists []. simpl. rewrite app_nil_r.
        repeat split; try reflexivity; try lia; try discriminate;
          try apply prefix_nil.
Qed.

Lemma page_numbers_S (page : Z) (k : nat) :
  page_numbers page (S k) = page :: page_numbers (page + 1) k.
Proof.
  unfold page_numbers. cbn [seq map]. f_equal; [f_equal; lia |].
  rewrite <- seq_shift, map_map. apply map_ext. intro i. lia.
Qed.

Lemma pages_spec (fuel : nat) (page : Z) (data : list ArticleData) (f : Z)
    (reqs : list Z) (data' : list ArticleData) (reqs' : list Z) :
  pages fuel get max_articles page data f reqs = Some (data', reqs') ->
  exists (k : nat) (d : list ArticleData),
    reqs' = reqs ++ page_numbers page k /\
    data' = data ++ d /\
    d `prefix_of` flat_map (payload get) (page_numbers page k) /\
    (f + Z.of_nat (length d) <= Z.max f max_articles)%Z /\
    ((f < max_articles)%Z -> (1 <= k)%nat) /\
    ((max_articles <= f)%Z -> k = 0%nat) /\
    ((1 <= k)%nat ->
     (f + (Z.of_nat k - 1) * Z.min 100 max_articles < max_articles)%Z).
Proof.
  revert page data f reqs.
  induction fuel as [| fuel IH]; intros page data f reqs;
    cbn [pages]; destruct (Z.ltb_spec f max_articles) as [Hlt | Hge];
    try discriminate.
  1, 3: intros [= <- <-]; exists 0%nat, []; unfold page_numbers; simpl;
    rewrite !app_nil_r; repeat split; try lia; reflexivity.
  assert (Hone : forall d0, d0 = data ->
            exists (k : nat) (d : list ArticleData),
              reqs ++ [page] = reqs ++ page_numbers page k /\
              d0 = data ++ d /\
              d `prefix_of` flat_map (payload get) (page_numbers page k) /\
              (f + Z.of_nat (length d) <= Z.max f max_articles)%Z /\
              ((f < max_articles)%Z -> (1 <= k)%nat) /\
              ((max_articles <= f)%Z -> k = 0%nat) /\
              ((1 <= k)%nat ->
               (f + (Z.of_nat k - 1) * Z.min 100 max_articles < max_articles)%Z)).
  { intros d0 ->. exists 1%nat, []. rewrite page_numbers_S.
    unfold page_numbers. simpl. rewrite !app_nil_r.
    repeat split; try lia. apply prefix_nil. }
  destruct (get page) as [| | articles total] eqn:Hget.
  1, 2: intros [= <- <-]; apply Hone; reflexivity.
  case_bool_decide as Hnil; [intros [= <- <-]; apply Hone; reflexivity |].
  destruct (process_spec articles data f) as (d1 & H1 & H2 & H3 & H4 & H5 & H6).
  destruct (process max_articles articles data f) as [[data1 f1] raised] eqn:Hp.
  cbn [fst snd] in H1, H2, H5, H6. subst data1 f1.
  assert (Hpay : payload get page = omap well_formed articles).
  { unfold payload. rewrite Hget. reflexivity. }
  assert (Hstop : exists (k : nat) (d : list ArticleData),
            reqs ++ [page] = reqs ++ page_numbers page k /\
            data ++ d1 = data ++ d /\
            d `prefix_of` flat_map (payload get) (page_numbers page k) /\
            (f + Z.of_nat (length d) <= Z.max f max_articles)%Z /\
            ((f < max_articles)%Z -> (1 <= k)%nat) /\
            ((max_articles <= f)%Z -> k = 0%nat) /\
            ((1 <= k)%nat ->
             (f + (Z.of_nat k - 1) * Z.min 100 max_articles < max_articles)%Z)).
  { exists 1%nat, d1. rewrite page_numbers_S.
    unfold page_numbers. simpl. rewrite !app_nil_r, Hpay.
    repeat split; try lia; assumption. }
  destruct raised; [intros [= <- <-]; exact Hstop |].
  destruct ((f + Z.of_nat (length d1) >=? total)%Z
            || (Z.of_nat (length articles) <? Z.min 100 max_articles)%Z) eqn:Hbreak;
    [intros [= <- <-]; exact Hstop |].
  apply orb_false_iff in Hbreak as [_ Hsize]. apply Z.ltb_ge in Hsize.
  intro Hrec. apply IH in Hrec
    as (k & d & -> & -> & Hpre & Hcap & Hk1 & Hk0 & Hbudget).
  exists (S k), (d1 ++ d). rewrite page_numbers_S.
  rewrite <- !app_assoc. cbn [app flat_map]. rewrite Hpay.
  specialize (H5 eq_refl). specialize (H6 eq_refl Hlt Hnil).
  rewrite length_app.
  repeat split; try lia.
  - destruct H5 as [Hfull | [Hall _]].
    + rewrite (Hk0 Hfull) in Hpre |- *. unfold page_numbers in *. simpl in *.
      apply prefix_nil_inv in Hpre. subst d. rewrite !app_nil_r. exact H3.
    + rewrite <- Hall. apply prefix_app. exact Hpre.
Qed.

Lemma pages_terminates (fuel : nat) (page : Z) (data : list ArticleData)
    (f : Z) (reqs : list Z) :
  (max_articles - f <= Z.of_nat fuel)%Z ->
  exists r, pages fuel get max_articles page data f reqs = Some r.
Proof.
  revert page data f reqs.
  induction fuel as [| fuel IH]; intros page data f reqs Hfuel;
    cbn [pages]; destruct (Z.ltb_spec f max_articles) as [Hlt | Hge];
    try lia; eauto.
  destruct (get page) as [| | articles total]; eauto.
  case_bool_decide as Hnil; eauto.
  destruct (process_spec articles data f) as (d1 & H1 & H2 & _ & _ & _ & H6).
  destruct (process max_articles articles data f) as [[data1 f1] raised].
  cbn [fst snd] in H1, H2, H6. subst data1 f1.
  destruct raised; eauto.
  destruct (_ || _); eauto.
  specialize (H6 eq_refl Hlt Hnil). apply IH. lia.
Qed.

Lemma pages_fuel_mono (fuel fuel' : nat) (page : Z) (data : list ArticleData)
    (f : Z) (reqs : list Z) (r : list ArticleData * list Z) :
  (fuel <= fuel')%nat ->
  pages fuel get max_articles page data f reqs = Some r ->
  pages fuel' get max_articles page data f reqs = Some r.
Proof.
  revert fuel' page data f reqs.
  induction fuel as [| fuel IH]; intros fuel' page data f reqs Hle;
    destruct fuel' as [| fuel'']; try lia; cbn [pages];
    destruct (f <? max_articles)%Z; try discriminate; auto.
  destruct (get page) as [| | articles total]; auto.
  case_bool_decide; auto.
  destruct (process max_articles articles data f) as [[data1 f1] raised].
  destruct raised; auto.
  destruct (_ || _); auto.
  apply IH. lia.
Qed.

(** X26: the pagination loop ends, and within its cap.  Whatever the
    server answers, max_articles rounds are enough for the loop to stop;
    more fuel does not change its result; and it never holds more than
    max_articles articles (none when max_articles is not positive). *)
Theorem fetch_ends_within_the_cap :
  exists (data : list ArticleData) (reqs : list Z),
    (forall fuel, (Z.to_nat max_articles <= fuel)%nat ->
                  fetch fuel get max_articles = Some (data, reqs)) /\
    (Z.of_nat (length data) <= Z.max 0 max_articles)%Z.
Proof.
  destruct (pages_terminates (Z.to_nat max_articles) 1 [] 0 []) as [[data reqs] Hr];
    [lia |].
  exists data, reqs. split.
  - intros fuel Hfuel. unfold fetch. eapply pages_fuel_mono; eassumption.
  - apply pages_spec in Hr as (k & d & _ & -> & _ & Hcap & _).
    simpl. lia.
Qed.

(** X27: the requests the loop makes.  It asks for the pages 1, 2, ...
    in order, each once; for none when max_articles is not positive and
    for page 1 otherwise; the number of requests is at most
    max_articles / 100 rounded up, so a cap of at most 100 articles costs
    exactly one request. *)
Theorem fetch_request_budget (fuel : nat) (data : list ArticleData)
    (reqs : list Z) :
  fetch fuel get max_articles = Some (data, reqs) ->
  reqs = page_numbers 1 (length reqs) /\
  ((max_articles <= 0)%Z -> reqs = []) /\
  ((0 < max_articles)%Z ->
   (1 <= length reqs)%nat /\
   ((Z.of_nat (length reqs) - 1) * 100 < max_articles)%Z) /\
  ((0 < max_articles <= 100)%Z -> reqs = [1%Z]).
Proof.
  unfold fetch. intro H.
  apply pages_spec in H as (k & d & -> & _ & _ & _ & Hk1 & Hk0 & Hbudget).
  cbn [app].
  assert (Hlen : length (page_numbers 1 k) = k)
    by (unfold page_numbers; rewrite length_map, length_seq; reflexivity).
  rewrite !Hlen.
  split; [reflexivity |].
  split; [intro Hle; rewrite (Hk0 Hle); reflexivity |].
  assert (Hcount : (0 < max_articles)%Z ->
            (1 <= k)%nat /\ ((Z.of_nat k - 1) * 100 < max_articles)%Z).
  { intro Hpos. specialize (Hk1 Hpos). specialize (Hbudget Hk1).
    split; [exact Hk1 |].
    destruct (Z.le_ge_cases 100 max_articles) as [Hbig | Hsmall].
    - rewrite Z.min_l in Hbudget by exact Hbig. lia.
    - rewrite Z.min_r in Hbudget by exact Hsmall.
      assert (Z.of_nat k - 1 < 1)%Z by nia. lia. }
  split; [exact Hcount |].
  intros [Hpos Hle]. destruct (Hcount Hpos) as [H1 H2].
  assert (k = 1%nat) as -> by lia. reflexivity.
Qed.

(** X28: the articles are taken in page order, without gaps or
    repetition: what the loop returns is an initial segment of the
    well-formed entries of the pages it requested, laid end to end. *)
Theorem fetched_articles_are_a_prefix (fuel : nat) (data : list ArticleData)
    (reqs : list Z) :
  fetch fuel get max_articles = Some (data, reqs) ->
  data `prefix_of` flat_map (payload get) reqs.
Proof.
  unfold fetch. intro H.
  apply pages_spec in H as (k & d & -> & -> & Hpre & _).
  exact Hpre.
Qed.

End Pagination.

Lemma fetch_request_budget_witness :
  NewsAPIFetcher.fetch 120 (paged_server 150) 120 = Some (seq 0 120, [1%Z; 2%Z]) /\
  ((Z.of_nat (length [1%Z; 2%Z]) - 1) * 100 < 120)%Z.
Proof.
  assert (E : NewsAPIFetcher.fetch 120 (paged_server 150) 120 = Some (seq 0 120, [1%Z; 2%Z]))
    by (vm_compute; reflexivity).
  split; [exact E |].
  apply (proj2 (proj2 (fetch_request_budget nat (paged_server 150) 120 120 _ _ E))).
  lia.
Defined.

Lemma fetched_articles_are_a_prefix_witness :
  seq 0 120 `prefix_of` flat_map (NewsAPIFetcher.payload (paged_server 150)) [1%Z; 2%Z].
Proof.
  apply (fetched_articles_are_a_prefix nat (paged_server 150) 120 120).
  vm_compute. reflexivity.
Defined.

(** * Further properties: the web endpoints *)




